(** * SkillIssue-finder: the relevance scorer, the difficulty cascade,
      deduplication, ranking, the experience estimator and the technology
      classifier, embedded from the Python sources and verified.

    Conventions of the embedding.
    - Python [str] is [string], the text held in UTF-8, so that [in] on
      strings is the substring test on the bytes. [lower] and the word
      class [\w] are modelled on ASCII text, where they are [str.lower]
      and the class of [re]: [lower] leaves every other character as it
      is and [\w] has no other member. Statements on the case or on
      the tokens of free text are made for ASCII text ([isascii]).
    - A decoded JSON number that is a [float] is a binary64 [float].
    - Python [float] scores are rationals [Q]: every increment of the
      scorer is a multiple of 0.5, so the binary64 sums are exact.
    - Python [set] of strings is [gset string]; [seen_ids] is [gset Z].
    - [datetime.now()] and the ISO-8601 parser are inputs of the scorer. *)

From Stdlib Require Import ZArith QArith Lqa Lia List Ascii String Bool.
From Corelib Require Import PrimFloat.
From stdpp Require Import base gmap sets strings sorting.
Import ListNotations.
Local Open Scope string_scope.
#[local] Arguments String.append : simpl nomatch.

(** ** Python string primitives *)

Module PyStr.

(** [c.lower()] on one ASCII character; a byte of a character outside
    ASCII is left as it is. *)
Definition lower_ascii (c : ascii) : ascii :=
  let n := nat_of_ascii c in
  if ((65 <=? n)%nat && (n <=? 90)%nat)%bool then ascii_of_nat (n + 32) else c.

(** [s.lower()] for ASCII text [s]. Outside ASCII, [str.lower] also
    folds other letters, and what a letter becomes can depend on its
    neighbours; such text is kept unchanged here. *)
Fixpoint lower (s : string) : string :=
  match s with
  | EmptyString => EmptyString
  | String c s' => String (lower_ascii c) (lower s')
  end.

(** [needle in hay] on strings: [needle] occurs as a contiguous run. *)
Fixpoint str_in (needle hay : string) : bool :=
  (String.prefix needle hay ||
   match hay with
   | EmptyString => false
   | String _ hay' => str_in needle hay'
   end)%bool.

(** [x in xs] on a list of strings. *)
Definition list_in (x : string) (xs : list string) : bool :=
  existsb (String.eqb x) xs.

(** The mathematical reading of [needle in hay]. *)
Definition occurs_in (needle hay : string) : Prop :=
  exists pre post, hay = pre ++ needle ++ post.

End PyStr.
Import PyStr.

(** ** Exceptions *)

(** The exception classes the sources raise or catch. All of them derive
    from [Exception]; [HTTPException] is FastAPI's. *)
Inductive exn :=
  | GithubException (msg : string)
  | HTTPException (status_code : Z) (detail : string)
  | TypeError (msg : string)
  | OtherException (msg : string).

Inductive result (A : Type) :=
  | Ok (a : A)
  | Raise (e : exn).
Arguments Ok {A} a.
Arguments Raise {A} e.

(** Sequencing: the first exception raised ends the block. *)
#[global] Instance result_ret : MRet result := fun A a => Ok a.
#[global] Instance result_bind : MBind result := fun A B k m =>
  match m with
  | Ok a => k a
  | Raise e => Raise e
  end.

(** [try: m  except Exception as e: h e] *)
Definition try_except {A} (m : result A) (h : exn -> result A) : result A :=
  match m with
  | Ok a => Ok a
  | Raise e => h e
  end.

(** [try: m  except HTTPException: raise  except Exception as e: h e] *)
Definition try_except_reraising_http {A} (m : result A) (h : exn -> result A)
    : result A :=
  match m with
  | Ok a => Ok a
  | Raise (HTTPException c d) => Raise (HTTPException c d)
  | Raise e => h e
  end.

(** [x or ""] *)
Definition or_empty (x : option string) : string :=
  match x with Some s => s | None => "" end.

(** ** models.py *)

Record UserSkills := mkUserSkills {
  languages : list string;
  technologies : list string;
  experience_level : string;
  github_stats : option (list (string * Q))
}.

Record GitHubIssue := mkGitHubIssue {
  id : Z;
  number : Z;
  title : string;
  body : string;
  url : string;
  repository_name : string;
  repository_url : string;
  labels : list string;
  created_at : string;
  updated_at : string;
  difficulty : string;
  matched_skills : list string;
  relevance_score : Q
}.

(** ** issue_matcher.py: [IssueMatcher._determine_difficulty] *)

Definition explicit_beginner_labels : list string :=
  ["good first issue"; "beginner"; "easy"; "starter"].
Definition explicit_intermediate_labels : list string :=
  ["intermediate"; "medium"].
Definition explicit_expert_labels : list string :=
  ["hard"; "expert"; "complex"; "difficult"].
Definition feature_labels : list string := ["enhancement"; "feature"].

(** [complexity_indicators], a dict literal: iteration follows insertion
    order, "beginner" first. *)
Definition complexity_indicators : list (string * list string) :=
  [ ("beginner", ["simple"; "easy"; "basic"; "straightforward"; "minor"]);
    ("expert", ["complex"; "advanced"; "architecture"; "performance";
                "optimization"; "refactor"]) ].

(** [any(label in labels_lower for label in candidates)] *)
Definition any_label_in (candidates labels_lower : list string) : bool :=
  existsb (fun label => list_in label labels_lower) candidates.

(** The [for difficulty, indicators in complexity_indicators.items()] loop
    with its early [return]; [None] when the loop falls through. *)
Fixpoint scan_indicators (table : list (string * list string))
    (body_lower : string) : option string :=
  match table with
  | [] => None
  | (difficulty, indicators) :: rest =>
      if existsb (fun indicator => str_in indicator body_lower) indicators
      then Some difficulty
      else scan_indicators rest body_lower
  end.

Definition _determine_difficulty (labels : list string) (body : string) : string :=
  let labels_lower := map lower labels in
  let body_lower := lower body in
  if any_label_in explicit_beginner_labels labels_lower then "beginner"
  else if any_label_in explicit_intermediate_labels labels_lower then "intermediate"
  else if any_label_in explicit_expert_labels labels_lower then "expert"
  else if any_label_in ["help wanted"] labels_lower then "intermediate"
  else if any_label_in ["bug"] labels_lower then "intermediate"
  else if any_label_in feature_labels labels_lower then "intermediate"
  else match scan_indicators complexity_indicators body_lower with
       | Some difficulty => difficulty
       | None => "intermediate"
       end.

(** ** issue_matcher.py: [IssueMatcher._convert_to_github_issue] *)

(** What the matcher reads of a PyGithub issue. [created_at] and
    [updated_at] are the [isoformat()] texts; [repository] is fetched on
    access and can fail. *)
Module RawIssue.
Record t := mk {
  id : Z;
  number : Z;
  title : string;
  body : option string;
  html_url : string;
  pull_request : bool;
  labels : list string;
  repository : result (string * string);   (* full_name, html_url *)
  created_at : string;
  updated_at : string
}.
End RawIssue.

(** Pull requests are skipped; an exception gives [None]. *)
Definition _convert_to_github_issue (issue : RawIssue.t) (matched_skill : string)
    : option GitHubIssue :=
  if RawIssue.pull_request issue then None
  else
    let labels := RawIssue.labels issue in
    let difficulty := _determine_difficulty labels (or_empty (RawIssue.body issue)) in
    match RawIssue.repository issue with
    | Raise _ => None
    | Ok (full_name, repo_html_url) =>
        Some {| id := RawIssue.id issue;
                number := RawIssue.number issue;
                title := RawIssue.title issue;
                body := or_empty (RawIssue.body issue);
                url := RawIssue.html_url issue;
                repository_name := full_name;
                repository_url := repo_html_url;
                labels := labels;
                created_at := RawIssue.created_at issue;
                updated_at := RawIssue.updated_at issue;
                difficulty := difficulty;
                matched_skills := [matched_skill];
                relevance_score := 0 |}
    end.

(** ** issue_matcher.py: [IssueMatcher._remove_duplicates] *)

(** The [for issue in issues] loop, threading [seen_ids] and
    [unique_issues]. *)
Fixpoint remove_duplicates_loop (issues : list GitHubIssue)
    (seen_ids : gset Z) (unique_issues : list GitHubIssue) : list GitHubIssue :=
  match issues with
  | [] => unique_issues
  | issue :: rest =>
      if decide (id issue ∈ seen_ids)
      then remove_duplicates_loop rest seen_ids unique_issues
      else remove_duplicates_loop rest ({[id issue]} ∪ seen_ids)
                                  (unique_issues ++ [issue])
  end.

Definition _remove_duplicates (issues : list GitHubIssue) : list GitHubIssue :=
  remove_duplicates_loop issues ∅ [].

(** ** issue_matcher.py: [IssueMatcher._score_issues] *)

Local Open Scope Q_scope.

(** One pass of [for skill in skills: if skill.lower() in content: ...],
    threading [score] and [matched_skills]; [pts] is 2.0 for languages and
    1.5 for technologies. *)
Definition skill_step (content : string) (pts : Q)
    (st : Q * gset string) (skill : string) : Q * gset string :=
  if str_in (lower skill) content
  then (fst st + pts, {[skill]} ∪ snd st)
  else st.

Definition skill_loop (content : string) (pts : Q) (skills : list string)
    (st : Q * gset string) : Q * gset string :=
  fold_left (skill_step content pts) skills st.

(** The [if]/[elif] chain in the body of [for label in issue.labels]. *)
Definition label_step (experience : string) (score : Q) (label : string) : Q :=
  let label_lower := lower label in
  if (str_in "good first issue" label_lower
      && list_in experience ["beginner"; "intermediate"])%bool
  then score + 3
  else if str_in "help wanted" label_lower then score + 2
  else if str_in "bug" label_lower then score + 1
  else if (str_in "enhancement" label_lower || str_in "feature" label_lower)%bool
  then score + (3 # 2)
  else score.

Definition label_loop (experience : string) (labels : list string) (score : Q) : Q :=
  fold_left (label_step experience) labels score.

(** The difficulty-matching [if]/[elif]. *)
Definition difficulty_step (issue_difficulty experience : string) (score : Q) : Q :=
  if String.eqb issue_difficulty experience then score + 2
  else if ((String.eqb issue_difficulty "beginner"
            && list_in experience ["intermediate"; "advanced"])
           || (String.eqb issue_difficulty "intermediate"
               && list_in experience ["advanced"; "expert"]))%bool
  then score + 1
  else score.

(** The recency [try] block. [days_old] is the value of line 323, or
    [None] when parsing the timestamp raised (the bare [except: pass]). *)
Definition recency_step (days_old : option Z) (score : Q) : Q :=
  match days_old with
  | Some d => if (d <=? 7)%Z then score + 1
              else if (d <=? 30)%Z then score + (1 # 2)
              else score
  | None => score
  end.

Section Scorer.

(** [age_in_days s] is what lines 322-323 compute for the timestamp
    text [s] at the time of the scoring pass: the whole days between
    [datetime.now()] and the parsed timestamp, [None] if that raises. *)
Variable age_in_days : string -> option Z.

(** The final [score] and [matched_skills] of one loop iteration. *)
Definition score_and_matches (user_skills : UserSkills) (issue : GitHubIssue)
    : Q * gset string :=
  let score := 0 in
  let matched_skills : gset string := ∅ in
  let content := lower (title issue ++ " " ++ body issue) in
  let st := skill_loop content 2 (languages user_skills) (score, matched_skills) in
  let st := skill_loop content (3 # 2) (technologies user_skills) st in
  let score := label_loop (experience_level user_skills) (labels issue) (fst st) in
  let score := difficulty_step (difficulty issue) (experience_level user_skills) score in
  let score := recency_step (age_in_days (updated_at issue)) score in
  (score, snd st).

(** The two assignments that end the iteration; every other field of
    the object is left as it is. [list(matched_skills)] enumerates the
    set in an order Python does not specify. *)
Definition score_issue (user_skills : UserSkills) (issue : GitHubIssue) : GitHubIssue :=
  let r := score_and_matches user_skills issue in
  {| id := id issue; number := number issue; title := title issue;
     body := body issue; url := url issue;
     repository_name := repository_name issue;
     repository_url := repository_url issue;
     labels := labels issue; created_at := created_at issue;
     updated_at := updated_at issue; difficulty := difficulty issue;
     matched_skills := elements (snd r);
     relevance_score := fst r |}.

(** Issues are Python objects: the list holds references into a store,
    the loop assigns to the referenced objects, and the same list is
    returned. *)
Definition _score_issues (issues : list positive) (user_skills : UserSkills)
    (h : gmap positive GitHubIssue) : list positive * gmap positive GitHubIssue :=
  (issues, fold_left (fun h r => alter (score_issue user_skills) r h) issues h).

(** The same pass seen on the values the list refers to. *)
Definition scored_values (issues : list GitHubIssue) (user_skills : UserSkills)
    : list GitHubIssue :=
  map (score_issue user_skills) issues.

End Scorer.

(** ** issue_matcher.py: the tail of [IssueMatcher.find_matching_issues] *)

(** [list.sort(key=lambda x: x.relevance_score, reverse=True)]: Python's
    sort is stable, and [reverse=True] keeps the original order of
    elements with equal keys. Insertion from the right realises exactly
    that order. *)
Fixpoint insert_desc (x : GitHubIssue) (l : list GitHubIssue) : list GitHubIssue :=
  match l with
  | [] => [x]
  | y :: l' =>
      if Qle_bool (relevance_score y) (relevance_score x)
      then x :: l
      else y :: insert_desc x l'
  end.

Definition sort_by_score_desc (l : list GitHubIssue) : list GitHubIssue :=
  fold_right insert_desc [] l.

(** [l[:n]]: a negative [n] counts from the end of the list. *)
Definition slice_to {A} (l : list A) (n : Z) : list A :=
  if (0 <=? n)%Z then firstn (Z.to_nat n) l
  else firstn (length l - Z.to_nat (- n)) l.

(** Lines 82-83. *)
Definition rank_issues (scored_issues : list GitHubIssue) (max_results : Z)
    : list GitHubIssue :=
  slice_to (sort_by_score_desc scored_issues) max_results.

(** ** skill_extractor.py *)

Record SkillExtractor := mkSkillExtractor {
  programming_languages : gset string;
  frameworks_libraries : gset string;
  databases : gset string;
  cloud_platforms : gset string;
  tools_technologies : gset string;
  all_technologies : gset string
}.

(** [SkillExtractor.__init__] *)
Definition SkillExtractor_init : SkillExtractor :=
  let programming_languages : gset string := list_to_set [
    "python"; "javascript"; "java"; "c++"; "c#"; "c"; "go"; "rust"; "swift";
    "kotlin"; "scala"; "ruby"; "php"; "typescript"; "dart"; "r"; "matlab";
    "perl"; "lua"; "haskell"; "clojure"; "elixir"; "erlang"; "f#"; "pascal";
    "cobol"; "fortran"; "assembly"; "bash"; "shell"; "powershell"; "sql";
    "html"; "css"; "xml"; "json"; "yaml"; "toml" ] in
  let frameworks_libraries : gset string := list_to_set [
    "react"; "angular"; "vue"; "svelte"; "django"; "flask"; "fastapi"; "express";
    "spring"; "laravel"; "rails"; "asp.net"; "blazor"; "gatsby"; "next.js";
    "nuxt.js"; "electron"; "react-native"; "flutter"; "ionic"; "cordova";
    "tensorflow"; "pytorch"; "keras"; "scikit-learn"; "pandas"; "numpy";
    "opencv"; "matplotlib"; "seaborn"; "plotly"; "d3.js"; "three.js";
    "bootstrap"; "tailwind"; "material-ui"; "ant-design"; "chakra-ui";
    "jquery"; "lodash"; "moment.js"; "axios"; "redux"; "mobx"; "rxjs" ] in
  let databases : gset string := list_to_set [
    "mysql"; "postgresql"; "sqlite"; "mongodb"; "redis"; "elasticsearch";
    "cassandra"; "neo4j"; "dynamodb"; "firebase"; "supabase"; "prisma";
    "sequelize"; "mongoose"; "sqlalchemy"; "hibernate"; "entity-framework" ] in
  let cloud_platforms : gset string := list_to_set [
    "aws"; "azure"; "gcp"; "google-cloud"; "heroku"; "netlify"; "vercel";
    "digitalocean"; "linode"; "kubernetes"; "docker"; "jenkins"; "gitlab-ci";
    "github-actions"; "travis-ci"; "circleci" ] in
  let tools_technologies : gset string := list_to_set [
    "git"; "github"; "gitlab"; "bitbucket"; "jira"; "confluence"; "slack";
    "discord"; "figma"; "sketch"; "adobe"; "photoshop"; "illustrator";
    "webpack"; "vite"; "parcel"; "babel"; "eslint"; "prettier"; "jest";
    "cypress"; "selenium"; "postman"; "insomnia"; "swagger"; "graphql";
    "rest"; "api"; "microservices"; "serverless"; "jamstack"; "pwa";
    "spa"; "ssr"; "ssg"; "cms"; "headless"; "blockchain"; "web3"; "nft";
    "defi"; "smart-contracts"; "solidity"; "ethereum"; "bitcoin" ] in
  {| programming_languages := programming_languages;
     frameworks_libraries := frameworks_libraries;
     databases := databases;
     cloud_platforms := cloud_platforms;
     tools_technologies := tools_technologies;
     all_technologies :=
       frameworks_libraries ∪ databases ∪ cloud_platforms ∪ tools_technologies |}.

(** [\w] on ASCII text: a letter, a digit or the underscore. For [re] on
    a [str] the class also has the letters and digits outside ASCII, which
    are no word characters here. *)
Definition is_word_char (c : ascii) : bool :=
  let n := nat_of_ascii c in
  (((48 <=? n)%nat && (n <=? 57)%nat) || ((65 <=? n)%nat && (n <=? 90)%nat)
   || ((97 <=? n)%nat && (n <=? 122)%nat) || (n =? 95)%nat)%bool.

(** [[.-]] *)
Definition is_joiner (c : ascii) : bool :=
  let n := nat_of_ascii c in ((n =? 46)%nat || (n =? 45)%nat)%bool.

Definition starts_with_word_char (s : string) : bool :=
  match s with
  | EmptyString => false
  | String c _ => is_word_char c
  end.

(** [re.findall(r'\b\w+(?:[.-]\w+)*\b', s)]: the leftmost, greedy,
    non-overlapping matches. [cur] is the match being read, if any; a
    joiner extends it only when a word character follows. *)
Fixpoint findall_words_go (cur : option string) (s : string) : list string :=
  match s with
  | EmptyString => match cur with Some w => [w] | None => [] end
  | String c s' =>
      match cur with
      | None =>
          if is_word_char c then findall_words_go (Some (String c EmptyString)) s'
          else findall_words_go None s'
      | Some w =>
          if (is_word_char c || (is_joiner c && starts_with_word_char s'))%bool
          then findall_words_go (Some (w ++ String c EmptyString)) s'
          else w :: findall_words_go None s'
      end
  end.

Definition findall_words (s : string) : list string := findall_words_go None s.

Definition compound_terms : list string :=
  [ "react-native"; "next.js"; "vue.js"; "node.js"; "asp.net";
    "material-ui"; "ant-design"; "chakra-ui"; "github-actions";
    "gitlab-ci"; "travis-ci"; "google-cloud" ].

Definition text_variations : gmap string string :=
  list_to_map [
    ("js", "javascript"); ("ts", "typescript"); ("py", "python");
    ("cpp", "c++"); ("csharp", "c#"); ("postgres", "postgresql");
    ("mongo", "mongodb"); ("k8s", "kubernetes"); ("tf", "tensorflow");
    ("ml", "machine-learning"); ("ai", "artificial-intelligence");
    ("nlp", "natural-language-processing"); ("cv", "computer-vision") ].

(** [SkillExtractor.extract_from_text]; the three loops thread
    [found_technologies]. *)
Definition extract_from_text (self : SkillExtractor) (text : string) : gset string :=
  if String.eqb text "" then ∅
  else
    let text_lower := lower text in
    let words := findall_words text_lower in
    let found_technologies : gset string := ∅ in
    let found_technologies :=
      fold_left (fun found word =>
        if (bool_decide (word ∈ all_technologies self)
            || bool_decide (word ∈ programming_languages self))%bool
        then {[word]} ∪ found else found) words found_technologies in
    let found_technologies :=
      fold_left (fun found term =>
        if str_in term text_lower then {[term]} ∪ found else found)
        compound_terms found_technologies in
    let found_technologies :=
      fold_left (fun found word =>
        match text_variations !! word with
        | Some full => {[full]} ∪ found
        | None => found
        end) words found_technologies in
    found_technologies.

(** The same method on Python's objects. Sets are mutable objects in a
    store; the extractor holds references to its six sets;
    [found_technologies = set()] allocates a new set, [.add] updates the
    set a reference points to, and the method returns the reference of
    [found_technologies]. *)
Record SkillExtractorObject := mkSkillExtractorObject {
  programming_languages_at : positive;
  frameworks_libraries_at : positive;
  databases_at : positive;
  cloud_platforms_at : positive;
  tools_technologies_at : positive;
  all_technologies_at : positive
}.

Definition set_at (st : gmap positive (gset string)) (r : positive) : gset string :=
  default ∅ (st !! r).

Definition set_add (r : positive) (x : string) (st : gmap positive (gset string))
    : gmap positive (gset string) :=
  alter (fun s => {[x]} ∪ s) r st.

Definition extract_from_text_on_store (self : SkillExtractorObject) (text : string)
    (st : gmap positive (gset string)) : positive * gmap positive (gset string) :=
  let found_technologies := fresh (dom st) in
  let st := <[found_technologies := ∅]> st in
  if String.eqb text "" then (found_technologies, st)
  else
    let text_lower := lower text in
    let words := findall_words text_lower in
    let st :=
      fold_left (fun st word =>
        if (bool_decide (word ∈ set_at st (all_technologies_at self))
            || bool_decide (word ∈ set_at st (programming_languages_at self)))%bool
        then set_add found_technologies word st else st) words st in
    let st :=
      fold_left (fun st term =>
        if str_in term text_lower then set_add found_technologies term st else st)
        compound_terms st in
    let st :=
      fold_left (fun st word =>
        match text_variations !! word with
        | Some full => set_add found_technologies full st
        | None => st
        end) words st in
    (found_technologies, st).

Definition is_programming_language (self : SkillExtractor) (tech : string) : bool :=
  bool_decide (lower tech ∈ programming_languages self).

Definition is_technology (self : SkillExtractor) (tech : string) : bool :=
  (bool_decide (lower tech ∈ all_technologies self)
   || bool_decide (lower tech ∈ programming_languages self))%bool.

(** ** github_analyzer.py *)

(** What the analyzer reads of a PyGithub repository. A getter that can
    fail is a [result]; timestamps are seconds on a common clock. *)
Module Repo.
Record t := mk {
  name : option string;
  description : option string;
  get_topics : result (list string);
  get_languages : result (list string);   (* the keys, in dict order *)
  updated_at : result (option Z)
}.
End Repo.

(** What the analyzer reads of a PyGithub user. A numeric attribute is a
    [result]: reading it can raise, and a missing value makes the first
    arithmetic on it raise [TypeError]. *)
Module NamedUser.
Record t := mk {
  bio : option string;
  public_repos : result Z;
  followers : result Z;
  following : result Z;
  created_at : result Z;
  updated_at : result Z;
  get_repos : result (list Repo.t)
}.
End NamedUser.

(** [(a - b).days]: whole days, rounded towards minus infinity. *)
Definition timedelta_days (a b : Z) : Z := ((a - b) / 86400)%Z.

(** [days / 365.25] *)
Definition years_of_days (days : Z) : Q := inject_Z days / (36525 # 100).

Section Analyzer.

Variable skill_extractor : SkillExtractor.

(** [GitHubAnalyzer._extract_languages] *)
Definition _extract_languages (repos : list Repo.t) : gset string :=
  fold_left (fun (languages : gset string) repo =>
    match Repo.get_languages repo with
    | Ok repo_languages =>
        fold_left (fun (languages : gset string) lang =>
          if (negb (String.eqb lang "")
              && negb (list_in (lower lang) ["html"; "css"]))%bool
          then {[lower lang]} ∪ languages else languages)
          repo_languages languages
    | Raise _ => languages
    end) repos ∅.

(** [GitHubAnalyzer._extract_technologies]; an exception in the middle
    of a repository keeps what was added before it. *)
Definition _extract_technologies (repos : list Repo.t) : gset string :=
  fold_left (fun (technologies : gset string) repo =>
    let repo_techs := extract_from_text skill_extractor (or_empty (Repo.name repo)) in
    let technologies := technologies ∪ repo_techs in
    let technologies :=
      if String.eqb (or_empty (Repo.description repo)) "" then technologies
      else technologies
           ∪ extract_from_text skill_extractor (or_empty (Repo.description repo)) in
    match Repo.get_topics repo with
    | Ok topics =>
        fold_left (fun (technologies : gset string) topic =>
          if is_technology skill_extractor topic
          then {[lower topic]} ∪ technologies else technologies)
          topics technologies
    | Raise _ => technologies
    end) repos ∅.

(** The list comprehension of lines 157-158 over [repos[:10]]. *)
Fixpoint active_repos (user_updated_at : Z) (repos : list Repo.t)
    : result (list Repo.t) :=
  match repos with
  | [] => Ok []
  | repo :: rest =>
      u ← Repo.updated_at repo;
      let keep :=
        match u with
        | Some t => (timedelta_days user_updated_at t <=? 365)%Z
        | None => false
        end in
      tl ← active_repos user_updated_at rest;
      Ok (if keep then repo :: tl else tl)
  end.

(** The [try] block of [_estimate_experience_level]. *)
Definition estimate_experience_try (user : NamedUser.t) (repos : list Repo.t)
    : result string :=
  u ← NamedUser.updated_at user;
  c ← NamedUser.created_at user;
  let account_age := years_of_days (timedelta_days u c) in
  total_repos ← NamedUser.public_repos user;
  followers ← NamedUser.followers user;
  let score := 0%Z in
  let score :=
    if Qle_bool 5 account_age then (score + 3)%Z
    else if Qle_bool 2 account_age then (score + 2)%Z
    else if Qle_bool 1 account_age then (score + 1)%Z
    else score in
  let score :=
    if (50 <=? total_repos)%Z then (score + 3)%Z
    else if (20 <=? total_repos)%Z then (score + 2)%Z
    else if (5 <=? total_repos)%Z then (score + 1)%Z
    else score in
  let score :=
    if (100 <=? followers)%Z then (score + 2)%Z
    else if (20 <=? followers)%Z then (score + 1)%Z
    else score in
  active ← active_repos u (firstn 10 repos);
  let score :=
    if (5 <=? length active)%nat then (score + 2)%Z
    else if (2 <=? length active)%nat then (score + 1)%Z
    else score in
  Ok (if (8 <=? score)%Z then "expert"
      else if (5 <=? score)%Z then "advanced"
      else if (2 <=? score)%Z then "intermediate"
      else "beginner").

(** [GitHubAnalyzer._estimate_experience_level] *)
Definition _estimate_experience_level (user : NamedUser.t) (repos : list Repo.t)
    : string :=
  match estimate_experience_try user repos with
  | Ok level => level
  | Raise _ => "intermediate"
  end.

(** [GitHubAnalyzer._extract_skills_from_bio]: the pair is the dict
    with keys "languages" and "technologies". *)
Definition _extract_skills_from_bio (bio : string) : gset string * gset string :=
  if String.eqb bio "" then (∅, ∅)
  else
    let extracted_techs := extract_from_text skill_extractor bio in
    fold_left (fun (acc : gset string * gset string) tech =>
      if is_programming_language skill_extractor tech
      then ({[tech]} ∪ fst acc, snd acc)
      else (fst acc, {[tech]} ∪ snd acc))
      (elements extracted_techs) (∅, ∅).

(** The sets [all_languages] and [all_technologies] of lines 58-59. *)
Definition combined_skills (user : NamedUser.t) (repos : list Repo.t)
    : gset string * gset string :=
  let languages := _extract_languages repos in
  let technologies := _extract_technologies repos in
  let bio_skills := _extract_skills_from_bio (or_empty (NamedUser.bio user)) in
  (languages ∪ fst bio_skills, technologies ∪ snd bio_skills).

(** [self.github.get_user], the platform lookup. *)
Variable get_user : string -> result NamedUser.t.

(** The [try] block of [analyze_user_skills]; [Ok None] is the early
    [return None] for a user without repositories. *)
Definition analyze_user_skills_try (username : string)
    : result (option UserSkills) :=
  user ← get_user username;
  all_repos ← NamedUser.get_repos user;
  let repos := firstn 50 all_repos in
  match repos with
  | [] => Ok None
  | _ =>
      let experience_level := _estimate_experience_level user repos in
      let all := combined_skills user repos in
      public_repos ← NamedUser.public_repos user;
      followers ← NamedUser.followers user;
      following ← NamedUser.following user;
      u ← NamedUser.updated_at user;
      c ← NamedUser.created_at user;
      Ok (Some {| languages := elements (fst all);
                  technologies := elements (snd all);
                  experience_level := experience_level;
                  github_stats := Some [
                    ("public_repos", inject_Z public_repos);
                    ("followers", inject_Z followers);
                    ("following", inject_Z following);
                    ("account_age_years", years_of_days (timedelta_days u c)) ] |})
  end.

(** [GitHubAnalyzer.analyze_user_skills]: both [except] clauses return
    [None]. *)
Definition analyze_user_skills (username : string) : option UserSkills :=
  match analyze_user_skills_try username with
  | Ok r => r
  | Raise _ => None
  end.

End Analyzer.

(** ** mcp_server.py: the request and response models (models.py) *)

Record SkillMatchRequest := mkSkillMatchRequest {
  skills : list string;
  req_experience_level : option string;
  req_issue_types : option (list string);
  req_max_results : option Z
}.

(** The body of [POST /match-issues-by-username] is declared
    [Dict[str, Any]]: FastAPI hands the handler the decoded JSON object
    without checking its values. A decoded value is [None], a [bool], an
    [int], a [float], a [str], a [list] or a [dict] (its items, in the
    order of the dict). *)
#[warnings="-register-all"]
Inductive json :=
  | JNull
  | JBool (b : bool)
  | JInt (n : Z)
  | JFloat (x : float)
  | JString (s : string)
  | JArray (items : list json)
  | JObject (items : list (string * json)).

(** [bool(v)], the test of [if not v]. *)
Definition truthy (v : json) : bool :=
  match v with
  | JNull => false
  | JBool b => b
  | JInt n => negb (n =? 0)%Z
  | JFloat x => negb (PrimFloat.eqb x 0%float)
  | JString s => negb (String.eqb s "")
  | JArray items => match items with [] => false | _ => true end
  | JObject items => match items with [] => false | _ => true end
  end.

(** The values that [v // n] with an [int] [n] and the slice bound
    [l[:v]] both accept and keep an [int]: an [int] and a [bool], its
    subclass ([True] is 1). A [float] passes [//] and fails as a slice
    bound; [None] fails at [//]; a [str], a [list] and a [dict] fail at
    both. *)
Definition as_int (v : json) : option Z :=
  match v with
  | JInt n => Some n
  | JBool b => Some (if b then 1 else 0)%Z
  | _ => None
  end.

(** The characters of a [str], the text being held in UTF-8: a byte
    from 128 to 191 continues the character before it. *)
Definition continues_character (c : ascii) : bool :=
  ((128 <=? nat_of_ascii c)%nat && (nat_of_ascii c <? 192)%nat)%bool.

Fixpoint characters (s : string) : list string :=
  match s with
  | EmptyString => []
  | String c s' =>
      match s' with
      | String d _ =>
          if continues_character d
          then match characters s' with
               | ch :: rest => String c ch :: rest
               | [] => [String c EmptyString]
               end
          else String c EmptyString :: characters s'
      | EmptyString => [String c EmptyString]
      end
  end.

(** [for x in v]: a [list] gives its elements, a [str] its characters, a
    [dict] its keys; [None], a [bool], an [int] and a [float] cannot be
    iterated ([TypeError]). *)
Definition iterate (v : json) : option (list json) :=
  match v with
  | JArray items => Some items
  | JString s => Some (map JString (characters s))
  | JObject items => Some (map (fun kv => JString (fst kv)) items)
  | _ => None
  end.

Record IssueMatchResponse := mkIssueMatchResponse {
  success : bool;
  issues : list GitHubIssue;
  total_found : Z;
  user_skills : option UserSkills;
  message : string;
  error : option string
}.

(** ** issue_matcher.py: [IssueMatcher.find_matching_issues] *)

Section Matcher.

Variable age_in_days : string -> option Z.

(** The two searches against the platform. Each catches every exception
    itself and returns the issues it has built, all of them new
    objects. *)
Variable _search_issues_by_language : string -> list string -> Z -> list GitHubIssue.
Variable _search_issues_by_technology : string -> list string -> Z -> list GitHubIssue.

(** The two search loops, filling [all_issues]. *)
Definition collect_issues (user_skills : UserSkills) (issue_types : list string)
    (max_results : Z) : list GitHubIssue :=
  let top_languages := firstn 5 (languages user_skills) in
  let top_technologies := firstn 3 (technologies user_skills) in
  let all_issues :=
    fold_left (fun all_issues language =>
      (all_issues ++ _search_issues_by_language language issue_types
                       (max_results / Z.of_nat (length top_languages))%Z)%list)
      top_languages [] in
  fold_left (fun all_issues tech =>
    (all_issues ++ _search_issues_by_technology tech issue_types
                     (max_results / Z.max (Z.of_nat (length top_technologies)) 1)%Z)%list)
    top_technologies all_issues.

(** The [try] block for arguments of the annotated types, [issue_types]
    a list of [str] and [max_results] an [int]. Nothing in it raises then:
    the divisions sit inside loops that run only over non-empty lists, so
    the [except] branch, which returns the empty list, is not taken. What
    a caller gets that passes [None] or a value of another type is
    [find_matching_issues_untyped] below. *)
Definition find_matching_issues (user_skills : UserSkills)
    (issue_types : list string) (max_results : Z) : list GitHubIssue :=
  let all_issues := collect_issues user_skills issue_types max_results in
  let unique_issues := _remove_duplicates all_issues in
  let scored_issues := scored_values age_in_days unique_issues user_skills in
  rank_issues scored_issues max_results.

(** [str(e)] and [f"{n}"], as the runtime renders them. *)
Variable str_of_exn : exn -> string.
Variable str_of_int : Z -> string.

(** mcp_server.py. The route handler of [POST /match-issues-by-skills],
    lines 44-71.
    Its only handler is [except Exception], which also catches the
    [HTTPException] raised inside the [try]. *)
Definition match_issues_by_skills (request : SkillMatchRequest)
    : result IssueMatchResponse :=
  try_except
    (match skills request with
     | [] => Raise (HTTPException 400 "Skills list cannot be empty")
     | _ =>
         let user_skills :=
           {| languages := skills request;
              technologies := [];
              experience_level :=
                match req_experience_level request with
                | Some (String c s) => String c s
                | _ => "intermediate"
                end;
              github_stats := None |} in
         let issues :=
           find_matching_issues user_skills
             (match req_issue_types request with
              | Some (t :: ts) => t :: ts
              | _ => ["good first issue"; "help wanted"]
              end)
             (match req_max_results request with
              | Some n => if (n =? 0)%Z then 20%Z else n
              | None => 20%Z
              end) in
         Ok {| success := true;
               issues := issues;
               total_found := Z.of_nat (length issues);
               user_skills := None;
               message := "Found " ++ str_of_int (Z.of_nat (length issues))
                          ++ " matching issues";
               error := None |}
     end)
    (fun e => Raise (HTTPException 500 (str_of_exn e))).

(** [f"{v}"]: a [str] as it is, any other value as [str(v)] renders
    it. *)
Variable str_of_json : json -> string.

Definition format_value (v : json) : string :=
  match v with
  | JString s => s
  | _ => str_of_json v
  end.

(** [find_matching_issues] for a caller that passes unchecked values,
    lines 57-87 as a whole.
    - Lines 57-58: [None] for [issue_types] stands for the four default
      types.
    - [max_results] that is not an [int]: [None], a [str], a [list] and
      a [dict] raise [TypeError] at the first [max_results // n]; a
      [float] passes the divisions and the searches and raises at the
      slice [scored_issues[:max_results]]; and when the profile has no
      skill to search, the slice is taken of the empty list, which is
      empty for [None] and raises for the others. Lines 85-87 turn the
      exception into the empty list.
    - [issue_types] that cannot be iterated: each search raises
      [TypeError] at its [for issue_type in issue_types], inside its own
      [try], before it has built an issue, and returns none.
    - Otherwise the searches format each element into the query, and
      the [try] block runs as for typed arguments. *)
Definition find_matching_issues_untyped (user_skills : UserSkills)
    (issue_types max_results : json) : list GitHubIssue :=
  let issue_types :=
    match issue_types with
    | JNull => JArray [JString "good first issue"; JString "help wanted";
                       JString "bug"; JString "enhancement"]
    | _ => issue_types
    end in
  match as_int max_results with
  | None => []
  | Some max_results =>
      match iterate issue_types with
      | None => []
      | Some types =>
          find_matching_issues user_skills (map format_value types) max_results
      end
  end.

Variable skill_extractor : SkillExtractor.
Variable get_user : string -> result NamedUser.t.

(** What [analyze_user_skills] returns for a login that is not a [str]:
    the platform client decides whether [get_user] raises on it, and
    [analyze_user_skills] turns every exception into [None] (lines 73-78),
    so the handler gets a profile or [None]. *)
Variable analyze_other_login : json -> option UserSkills.

(** The route handler of [POST /match-issues-by-username], lines 74-108:
    [except HTTPException: raise] comes before [except Exception]. The
    request is the decoded body; [request.get(k)] is [None] for a missing
    key. *)
Definition match_issues_by_username (request : gmap string json)
    : result IssueMatchResponse :=
  try_except_reraising_http
    (let username := default JNull (request !! "username") in
     if negb (truthy username)
     then Raise (HTTPException 400 "Username is required")
     else
       match match username with
             | JString name => analyze_user_skills skill_extractor get_user name
             | _ => analyze_other_login username
             end with
       | None =>
           Raise (HTTPException 404
             ("Could not analyze skills for user '" ++ format_value username
              ++ "'"))
       | Some user_skills =>
           let issues :=
             find_matching_issues_untyped user_skills
               (default (JArray [JString "good first issue"; JString "help wanted"])
                        (request !! "issue_types"))
               (default (JInt 20) (request !! "max_results")) in
           Ok {| success := true;
                 issues := issues;
                 total_found := Z.of_nat (length issues);
                 user_skills := Some user_skills;
                 message := "Found " ++ str_of_int (Z.of_nat (length issues))
                            ++ " matching issues for @" ++ format_value username;
                 error := None |}
       end)
    (fun e => Raise (HTTPException 500 (str_of_exn e))).

(** The HTTP status of a handler's outcome: FastAPI answers a raised
    [HTTPException] with its status code, any other exception with 500,
    and a returned value with 200. *)
Definition http_status {A} (r : result A) : Z :=
  match r with
  | Ok _ => 200
  | Raise (HTTPException code _) => code
  | Raise _ => 500
  end%Z.

End Matcher.

(** ** issue_matcher.py: the two searches *)

(** The platform as the matcher uses it. A search or an issue listing is
    a lazy, paginated sequence: it yields [items] and then, if [failure]
    is set, raises on the request for the next page. [get_repo] is a
    request of its own and can raise. *)
Module Github.
Record PaginatedList := mkPaginatedList {
  items : list RawIssue.t;
  failure : option exn
}.
Record Client := mkClient {
  search_issues : string -> PaginatedList;                      (* by query *)
  get_repo : string -> result (list string -> PaginatedList)    (* get_issues, by labels *)
}.
End Github.

(** [self.popular_repos] of [IssueMatcher.__init__]. *)
Definition popular_repos : gmap string (list string) :=
  list_to_map [
    ("python", ["python/cpython"; "pallets/flask"; "django/django"; "fastapi/fastapi"]);
    ("javascript", ["microsoft/vscode"; "facebook/react"; "vuejs/vue"; "angular/angular"]);
    ("java", ["spring-projects/spring-boot"; "elastic/elasticsearch"; "apache/kafka"]);
    ("go", ["kubernetes/kubernetes"; "golang/go"; "docker/docker"; "prometheus/prometheus"]);
    ("rust", ["rust-lang/rust"; "actix/actix-web"; "tokio-rs/tokio"]);
    ("typescript", ["microsoft/TypeScript"; "nestjs/nest"; "typeorm/typeorm"]);
    ("c++", ["microsoft/calculator"; "opencv/opencv"; "tensorflow/tensorflow"]);
    ("ruby", ["rails/rails"; "jekyll/jekyll"; "github/gitignore"]);
    ("php", ["laravel/laravel"; "symfony/symfony"; "composer/composer"]);
    ("swift", ["apple/swift"; "vapor/vapor"; "Alamofire/Alamofire"]);
    ("kotlin", ["JetBrains/kotlin"; "square/okhttp"; "InsertKoinIO/koin"]) ].

(** The double-quote character of the query f-strings. *)
Definition dquote : string := String (ascii_of_nat 34) EmptyString.

(** [" ".join(query_parts) + " state:open"] *)
Definition build_query (first_part : string) (issue_types : list string) : string :=
  let query_parts :=
    first_part :: map (fun issue_type => "label:" ++ dquote ++ issue_type ++ dquote)
                      issue_types in
  String.concat " " query_parts ++ " state:open".

(** The loop [for issue in results: if count >= limit: break; ...] that
    both searches and the per-repository pass run: the next item is
    fetched, then the counter is tested, then the item is converted and,
    if it is an issue, appended and counted. The second component is the
    exception that ended the loop, if one did. *)
Fixpoint collect_converted (skill : string) (limit : Z)
    (results : list RawIssue.t) (failure : option exn)
    (count : Z) (issues : list GitHubIssue) : list GitHubIssue * option exn :=
  match results with
  | [] => (issues, failure)
  | issue :: rest =>
      if (limit <=? count)%Z then (issues, None)
      else
        match _convert_to_github_issue issue skill with
        | Some github_issue =>
            collect_converted skill limit rest failure (count + 1)%Z
                              (issues ++ [github_issue])%list
        | None => collect_converted skill limit rest failure count issues
        end
  end.

(** [IssueMatcher._search_issues_by_language]. An exception of the
    general search leaves the function through the outer [except], past
    the pass over the popular repositories; an exception inside that pass
    skips to the next repository. *)
Definition _search_issues_by_language (github : Github.Client)
    (language : string) (issue_types : list string) (limit : Z)
    : list GitHubIssue :=
  let repos_to_search := default [] (popular_repos !! lower language) in
  let query := build_query ("language:" ++ language) issue_types in
  let search_results := Github.search_issues github query in
  match collect_converted language limit (Github.items search_results)
          (Github.failure search_results) 0 [] with
  | (issues, Some _) => issues
  | (issues, None) =>
      fold_left (fun issues repo_name =>
        match Github.get_repo github repo_name with
        | Raise _ => issues
        | Ok get_issues =>
            let repo_issues :=
              get_issues (List.filter
                (fun label => list_in label ["good first issue"; "help wanted"; "bug"])
                issue_types) in
            fst (collect_converted language 5 (Github.items repo_issues)
                   (Github.failure repo_issues) 0 issues)
        end) (firstn 3 repos_to_search) issues
  end.

(** [IssueMatcher._search_issues_by_technology] *)
Definition _search_issues_by_technology (github : Github.Client)
    (technology : string) (issue_types : list string) (limit : Z)
    : list GitHubIssue :=
  let query :=
    build_query (dquote ++ technology ++ dquote ++ " in:title,body") issue_types in
  let search_results := Github.search_issues github query in
  fst (collect_converted technology limit (Github.items search_results)
         (Github.failure search_results) 0 []).

(** ** skill_extractor.py: [SkillExtractor.categorize_skills] *)

(** The dict with the keys "languages", "frameworks", "databases",
    "cloud" and "tools". *)
Module Categorized.
Record t := mk {
  languages : list string;
  frameworks : list string;
  databases : list string;
  cloud : list string;
  tools : list string
}.
End Categorized.

Definition categorize_skills (self : SkillExtractor) (skills : list string)
    : Categorized.t :=
  fold_left (fun categorized skill =>
    let skill_lower := lower skill in
    let '(Categorized.mk ls fs ds cs ts) := categorized in
    if bool_decide (skill_lower ∈ programming_languages self)
    then Categorized.mk (ls ++ [skill]) fs ds cs ts
    else if bool_decide (skill_lower ∈ frameworks_libraries self)
    then Categorized.mk ls (fs ++ [skill]) ds cs ts
    else if bool_decide (skill_lower ∈ databases self)
    then Categorized.mk ls fs (ds ++ [skill]) cs ts
    else if bool_decide (skill_lower ∈ cloud_platforms self)
    then Categorized.mk ls fs ds (cs ++ [skill]) ts
    else if bool_decide (skill_lower ∈ tools_technologies self)
    then Categorized.mk ls fs ds cs (ts ++ [skill])
    else categorized)
    skills (Categorized.mk [] [] [] [] []).

(** ** config.py *)

Module Config.

Definition SUPPORTED_ISSUE_TYPES : list string :=
  [ "good first issue"; "help wanted"; "bug"; "enhancement"; "feature";
    "documentation"; "question"; "beginner-friendly" ].

Definition DIFFICULTY_LEVELS : list string :=
  [ "beginner"; "intermediate"; "advanced"; "expert" ].

Definition POPULAR_REPOSITORIES : gmap string (list string) :=
  list_to_map [
    ("python", ["python/cpython"; "pallets/flask"; "django/django";
                "fastapi/fastapi"; "requests/requests"; "psf/black";
                "pytorch/pytorch"; "scikit-learn/scikit-learn";
                "pandas-dev/pandas"; "numpy/numpy"]);
    ("javascript", ["microsoft/vscode"; "facebook/react"; "vuejs/vue";
                    "angular/angular"; "nodejs/node"; "expressjs/express";
                    "webpack/webpack"; "babel/babel"; "prettier/prettier";
                    "eslint/eslint"]);
    ("typescript", ["microsoft/TypeScript"; "nestjs/nest"; "typeorm/typeorm";
                    "angular/angular"; "ionic-team/ionic-framework";
                    "grafana/grafana"; "apollographql/apollo-server";
                    "typestack/class-validator"]);
    ("java", ["spring-projects/spring-boot"; "elastic/elasticsearch";
              "apache/kafka"; "google/guava"; "square/retrofit";
              "ReactiveX/RxJava"; "junit-team/junit5"; "mockito/mockito"]);
    ("go", ["kubernetes/kubernetes"; "golang/go"; "docker/docker";
            "prometheus/prometheus"; "helm/helm"; "hashicorp/terraform";
            "gin-gonic/gin"; "gorilla/mux"]);
    ("rust", ["rust-lang/rust"; "actix/actix-web"; "tokio-rs/tokio";
              "serde-rs/serde"; "clap-rs/clap"; "diesel-rs/diesel";
              "hyperium/hyper"; "rustls/rustls"]);
    ("swift", ["apple/swift"; "vapor/vapor"; "Alamofire/Alamofire";
               "SwiftyJSON/SwiftyJSON"; "realm/realm-swift";
               "onevcat/Kingfisher"; "apple/swift-package-manager"]);
    ("kotlin", ["JetBrains/kotlin"; "square/okhttp"; "InsertKoinIO/koin";
                "google/accompanist"; "detekt/detekt"; "mockk/mockk";
                "kotest/kotest"]);
    ("ruby", ["rails/rails"; "jekyll/jekyll"; "github/gitignore";
              "rubocop/rubocop"; "rspec/rspec"; "sinatra/sinatra";
              "capistrano/capistrano"]);
    ("php", ["laravel/laravel"; "symfony/symfony"; "composer/composer";
             "PHPUnit/phpunit"; "guzzle/guzzle"; "doctrine/orm";
             "phpstan/phpstan"]);
    ("c++", ["microsoft/calculator"; "opencv/opencv"; "tensorflow/tensorflow";
             "facebook/folly"; "google/googletest"; "nlohmann/json";
             "fmtlib/fmt"]);
    ("c#", ["dotnet/core"; "aspnet/AspNetCore"; "NUnit/nunit";
            "AutoMapper/AutoMapper"; "StackExchange/Dapper";
            "JamesNK/Newtonsoft.Json"; "serilog/serilog"]) ].

Definition get_popular_repos_for_skill (skill : string) : list string :=
  default [] (POPULAR_REPOSITORIES !! lower skill).

Definition is_valid_issue_type (issue_type : string) : bool :=
  list_in (lower issue_type) SUPPORTED_ISSUE_TYPES.

Definition is_valid_difficulty (difficulty : string) : bool :=
  list_in (lower difficulty) DIFFICULTY_LEVELS.

End Config.

(** ** mcp_server.py: [GET /analyze-user/{username}] *)

Record AnalyzeUserResponse := mkAnalyzeUserResponse {
  analyze_success : bool;
  analyze_username : string;
  analyze_skills : UserSkills;
  analyze_message : string
}.

(** The route handler named [analyze_user_skills] in mcp_server.py,
    lines 111-132. *)
Definition analyze_user_skills_route (skill_extractor : SkillExtractor)
    (get_user : string -> result NamedUser.t) (str_of_exn : exn -> string)
    (username : string) : result AnalyzeUserResponse :=
  try_except_reraising_http
    (match analyze_user_skills skill_extractor get_user username with
     | None =>
         Raise (HTTPException 404
           ("Could not find or analyze user '" ++ username ++ "'"))
     | Some user_skills =>
         Ok {| analyze_success := true;
               analyze_username := username;
               analyze_skills := user_skills;
               analyze_message :=
                 "Successfully analyzed skills for @" ++ username |}
     end)
    (fun e => Raise (HTTPException 500 (str_of_exn e))).

(** ** Vocabulary of the statements *)

(** Some label of the issue is, ignoring case, one of [names]. *)
Definition has_label (labels names : list string) : Prop :=
  exists l, In l labels /\ In (lower l) names.

(** The lower-cased body contains one of [keywords]. *)
Definition body_mentions (body : string) (keywords : list string) : Prop :=
  exists k, In k keywords /\ occurs_in k (lower body).

(** What one label adds to the score in [_score_issues]. *)
Definition label_bonus (experience label : string) : Q :=
  label_step experience 0 label.

(** The reading of the label rule as independent bonuses: every category
    a label matches adds its own bonus. Follows the specification's
    wording, not the source. *)
Definition independent_label_bonus (experience label : string) : Q :=
  let label_lower := lower label in
  (if (str_in "good first issue" label_lower
       && list_in experience ["beginner"; "intermediate"])%bool then 3 else 0)
  + (if str_in "help wanted" label_lower then 2 else 0)
  + (if str_in "bug" label_lower then 1 else 0)
  + (if (str_in "enhancement" label_lower || str_in "feature" label_lower)%bool
     then 3 # 2 else 0).

Definition independent_label_score (experience : string) (labels : list string) : Q :=
  fold_left (fun score label => score + independent_label_bonus experience label)
            labels 0.

(** The sum of a list of scores. *)
Definition sum_Q (l : list Q) : Q := fold_right Qplus 0 l.

(** The issues of a list whose id is neither in [seen] nor carried by an
    earlier issue of the list: the loop of [_remove_duplicates] seen as a
    function of the remaining input. *)
Fixpoint keep_unseen (seen : gset Z) (issues : list GitHubIssue) : list GitHubIssue :=
  match issues with
  | [] => []
  | issue :: rest =>
      if decide (id issue ∈ seen) then keep_unseen seen rest
      else issue :: keep_unseen ({[id issue]} ∪ seen) rest
  end.

(** The first issue of a list that carries the id [i]. *)
Definition first_with_id (i : Z) (issues : list GitHubIssue) : option GitHubIssue :=
  find (fun y => (id y =? i)%Z) issues.

(** [a] may stand before [b] in a ranking: its score is not smaller. *)
Definition score_ge (a b : GitHubIssue) : Prop :=
  relevance_score b <= relevance_score a.


(** An issue for the examples: the fields that matter are given, the
    others are fixed. *)
Definition example_issue (i : Z) (t b : string) (ls : list string)
    (d : string) (s : Q) : GitHubIssue :=
  {| id := i; number := i; title := t; body := b;
     url := "https://example.org/issue";
     repository_name := "owner/repo";
     repository_url := "https://example.org/owner/repo";
     labels := ls;
     created_at := "2024-01-01T00:00:00"; updated_at := "2024-01-02T00:00:00";
     difficulty := d; matched_skills := []; relevance_score := s |}.

(** [after] differs from [before] at most in [matched_skills] and
    [relevance_score]. *)
Definition same_but_score (before after : GitHubIssue) : Prop :=
  id after = id before /\ number after = number before
  /\ title after = title before /\ body after = body before
  /\ url after = url before
  /\ repository_name after = repository_name before
  /\ repository_url after = repository_url before
  /\ labels after = labels before
  /\ created_at after = created_at before
  /\ updated_at after = updated_at before
  /\ difficulty after = difficulty before.

(** The points a list of profile skills earns on a lower-cased content:
    [pts] for every entry of the list that occurs in it. *)
Definition skill_points (content : string) (pts : Q) (skills : list string) : Q :=
  sum_Q (map (fun skill => if str_in (lower skill) content then pts else 0) skills).

(** The difficulty-alignment and recency bonuses on their own. *)
Definition difficulty_bonus (issue_difficulty experience : string) : Q :=
  difficulty_step issue_difficulty experience 0.

Definition recency_bonus (days_old : option Z) : Q := recency_step days_old 0.

(** The text the scorer searches: [(title + " " + body).lower()]. *)
Definition content_of (issue : GitHubIssue) : string :=
  lower (title issue ++ " " ++ body issue).

(** A platform issue with text added in front of its title and behind
    its body, everything else as it was. *)
Definition with_added_text (pre post : string) (issue : RawIssue.t) : RawIssue.t :=
  {| RawIssue.id := RawIssue.id issue;
     RawIssue.number := RawIssue.number issue;
     RawIssue.title := pre ++ RawIssue.title issue;
     RawIssue.body := Some (or_empty (RawIssue.body issue) ++ post);
     RawIssue.html_url := RawIssue.html_url issue;
     RawIssue.pull_request := RawIssue.pull_request issue;
     RawIssue.labels := RawIssue.labels issue;
     RawIssue.repository := RawIssue.repository issue;
     RawIssue.created_at := RawIssue.created_at issue;
     RawIssue.updated_at := RawIssue.updated_at issue |}.

(** The content searched once [pre] stands in front of the title and
    [post] behind the body. *)
Definition content_with_added (pre post : string) (issue : GitHubIssue) : string :=
  lower ((pre ++ title issue) ++ " " ++ (body issue ++ post)).

(** Two platform issues that differ at most in title and body. *)
Definition same_but_text (raw raw' : RawIssue.t) : Prop :=
  RawIssue.id raw' = RawIssue.id raw
  /\ RawIssue.number raw' = RawIssue.number raw
  /\ RawIssue.html_url raw' = RawIssue.html_url raw
  /\ RawIssue.pull_request raw' = RawIssue.pull_request raw
  /\ RawIssue.labels raw' = RawIssue.labels raw
  /\ RawIssue.repository raw' = RawIssue.repository raw
  /\ RawIssue.created_at raw' = RawIssue.created_at raw
  /\ RawIssue.updated_at raw' = RawIssue.updated_at raw.

(** Every skill of the profile that occurs in the content of [issue]
    occurs in the content of [issue'] as well. *)
Definition matches_kept (user_skills : UserSkills) (issue issue' : GitHubIssue)
    : Prop :=
  forall skill,
    In skill (languages user_skills) \/ In skill (technologies user_skills) ->
    occurs_in (lower skill) (content_of issue) ->
    occurs_in (lower skill) (content_of issue').

(** A platform issue for the examples. *)
Definition example_raw_issue (t b : string) (ls : list string) : RawIssue.t :=
  {| RawIssue.id := 7; RawIssue.number := 7;
     RawIssue.title := t; RawIssue.body := Some b;
     RawIssue.html_url := "https://example.org/issue";
     RawIssue.pull_request := false;
     RawIssue.labels := ls;
     RawIssue.repository := Ok ("owner/repo", "https://example.org/owner/repo");
     RawIssue.created_at := "2024-01-01T00:00:00";
     RawIssue.updated_at := "2024-01-02T00:00:00" |}.

(** A repository counts as recently active when it carries an update
    time at most 365 days before the user's own last update. *)
Definition recently_active (user_updated_at : Z) (repo : Repo.t) : bool :=
  match Repo.updated_at repo with
  | Ok (Some t) => (timedelta_days user_updated_at t <=? 365)%Z
  | _ => false
  end.

Definition readable {A} (r : result A) : Prop := exists a, r = Ok a.
Definition failed {A} (r : result A) : Prop := exists e, r = Raise e.

(** Some datum the estimator reads could not be obtained. *)
Definition upstream_failure (user : NamedUser.t) (repos : list Repo.t) : Prop :=
  failed (NamedUser.updated_at user) \/ failed (NamedUser.created_at user)
  \/ failed (NamedUser.public_repos user) \/ failed (NamedUser.followers user)
  \/ Exists (fun repo => failed (Repo.updated_at repo)) (firstn 10 repos).

(** The same test on the seconds themselves: [(a - b).days <= 365] says
    that [b] is less than 366 days before [a] (or is after it). *)
Definition updated_within_365_days_of (user_updated_at : Z) (repo : Repo.t)
    : bool :=
  match Repo.updated_at repo with
  | Ok (Some t) => (user_updated_at - t <? 366 * 86400)%Z
  | _ => false
  end.

(** The recent activity as the specification words it, to be compared
    with the estimator's: a repository updated within the last 365 days,
    counted back from the present time [now]. *)
Definition updated_in_last_365_days (now : Z) (repo : Repo.t) : bool :=
  match Repo.updated_at repo with
  | Ok (Some t) => (now - 365 * 86400 <=? t)%Z
  | _ => false
  end.

(** A user and repositories for the examples; times are in seconds. *)
Definition example_repo (n : string) (d : option string) (topics langs : list string)
    (updated : Z) : Repo.t :=
  {| Repo.name := Some n; Repo.description := d;
     Repo.get_topics := Ok topics; Repo.get_languages := Ok langs;
     Repo.updated_at := Ok (Some updated) |}.

Definition example_user (b : option string) (repos followers created updated : Z)
    (rs : list Repo.t) : NamedUser.t :=
  {| NamedUser.bio := b;
     NamedUser.public_repos := Ok repos;
     NamedUser.followers := Ok followers;
     NamedUser.following := Ok 0%Z;
     NamedUser.created_at := Ok created;
     NamedUser.updated_at := Ok updated;
     NamedUser.get_repos := Ok rs |}.

(** One year of 365 days, in seconds. *)
Definition year_seconds : Z := (365 * 86400)%Z.

(** A six-year-old account with 25 public repositories, 150 followers
    and three repositories, all updated shortly before the profile. *)
Definition seasoned_user_repos : list Repo.t :=
  [ example_repo "alpha" None [] ["Go"] (6 * year_seconds)%Z;
    example_repo "beta" None [] ["Go"] (6 * year_seconds)%Z;
    example_repo "gamma" None [] ["Go"] (6 * year_seconds)%Z ].

Definition seasoned_user : NamedUser.t :=
  example_user None 25 150 0 (6 * year_seconds + 86400 * 30) seasoned_user_repos.

(** The same account when the follower count cannot be read. *)
Definition unreadable_user : NamedUser.t :=
  {| NamedUser.bio := None;
     NamedUser.public_repos := Ok 25%Z;
     NamedUser.followers := Raise (GithubException "rate limit exceeded");
     NamedUser.following := Ok 0%Z;
     NamedUser.created_at := Ok 0%Z;
     NamedUser.updated_at := Ok (6 * year_seconds + 86400 * 30)%Z;
     NamedUser.get_repos := Ok seasoned_user_repos |}.

(** A user whose only repository is called "python" and is written in
    Python. *)
Definition python_user : NamedUser.t :=
  example_user None 1 0 0 year_seconds
    [ example_repo "python" None [] ["Python"] year_seconds ].

(** The request [{"skills": []}]. *)
Definition empty_skills_request : SkillMatchRequest :=
  {| skills := []; req_experience_level := None;
     req_issue_types := None; req_max_results := None |}.

(** The request [{}], without a username. *)
Definition no_username_request : gmap string json := ∅.

(** The sets an extractor object refers to, read from the store. *)
Definition extractor_value (self : SkillExtractorObject)
    (st : gmap positive (gset string)) : SkillExtractor :=
  {| programming_languages := set_at st (programming_languages_at self);
     frameworks_libraries := set_at st (frameworks_libraries_at self);
     databases := set_at st (databases_at self);
     cloud_platforms := set_at st (cloud_platforms_at self);
     tools_technologies := set_at st (tools_technologies_at self);
     all_technologies := set_at st (all_technologies_at self) |}.

Definition extractor_refs (self : SkillExtractorObject) : list positive :=
  [ programming_languages_at self; frameworks_libraries_at self;
    databases_at self; cloud_platforms_at self;
    tools_technologies_at self; all_technologies_at self ].

(** The extractor's sets exist in the store. *)
Definition extractor_allocated (self : SkillExtractorObject)
    (st : gmap positive (gset string)) : Prop :=
  forall r, In r (extractor_refs self) -> r ∈ dom st.

(** The store after [SkillExtractor.__init__], and the object it built. *)
Definition extractor_object : SkillExtractorObject :=
  {| programming_languages_at := 1; frameworks_libraries_at := 2;
     databases_at := 3; cloud_platforms_at := 4;
     tools_technologies_at := 5; all_technologies_at := 6 |}.

Definition extractor_store : gmap positive (gset string) :=
  {[ 1%positive := programming_languages SkillExtractor_init;
     2%positive := frameworks_libraries SkillExtractor_init;
     3%positive := databases SkillExtractor_init;
     4%positive := cloud_platforms SkillExtractor_init;
     5%positive := tools_technologies SkillExtractor_init;
     6%positive := all_technologies SkillExtractor_init ]}.

(** A loop that adds to the set at [l] what [pick] selects from each
    element, and the same loop on a set value. *)
Definition add_loop_store (l : positive)
    (pick : gmap positive (gset string) -> string -> option string)
    (ws : list string) (st : gmap positive (gset string))
    : gmap positive (gset string) :=
  fold_left (fun st w =>
    match pick st w with Some y => set_add l y st | None => st end) ws st.

Definition add_loop_value (pick : string -> option string) (ws : list string)
    (found : gset string) : gset string :=
  fold_left (fun found w =>
    match pick w with Some y => {[y]} ∪ found | None => found end) ws found.

(** A non-negative number of half points, at most [b]. *)
Definition half_points_upto (b q : Q) : Prop :=
  exists k : Z, (0 <= k)%Z /\ q == inject_Z k / 2 /\ q <= b.


Definition age_points (age : Q) : Z :=
  if Qle_bool 5 age then 3 else if Qle_bool 2 age then 2
  else if Qle_bool 1 age then 1 else 0.

Definition repo_points (total_repos : Z) : Z :=
  if (50 <=? total_repos)%Z then 3 else if (20 <=? total_repos)%Z then 2
  else if (5 <=? total_repos)%Z then 1 else 0.

Definition follower_points (followers : Z) : Z :=
  if (100 <=? followers)%Z then 2 else if (20 <=? followers)%Z then 1 else 0.

Definition activity_points (recent : nat) : Z :=
  if (5 <=? recent)%nat then 2 else if (2 <=? recent)%nat then 1 else 0.

Definition tier_of_total (score : Z) : string :=
  if (8 <=? score)%Z then "expert" else if (5 <=? score)%Z then "advanced"
  else if (2 <=? score)%Z then "intermediate" else "beginner".

(** The estimate as the specification words it, with the recent
    activity of the first ten repositories counted back from [now]. *)
Definition experience_level_as_specified (now : Z) (age : Q) (total fol : Z)
    (repos : list Repo.t) : string :=
  tier_of_total
    (age_points age + repo_points total + follower_points fol
     + activity_points
         (length (List.filter (updated_in_last_365_days now) (firstn 10 repos))))%Z.

(** An account created at time 0 and last updated on day 2000, with five
    public repositories, all updated on day 1990. *)
Definition dormant_user_repos : list Repo.t :=
  [ example_repo "one" None [] ["Go"] (1990 * 86400)%Z;
    example_repo "two" None [] ["Go"] (1990 * 86400)%Z;
    example_repo "three" None [] ["Go"] (1990 * 86400)%Z;
    example_repo "four" None [] ["Go"] (1990 * 86400)%Z;
    example_repo "five" None [] ["Go"] (1990 * 86400)%Z ].

Definition dormant_user : NamedUser.t :=
  example_user None 5 0 0 (2000 * 86400) dormant_user_repos.

(** The place of a tier in the order beginner, intermediate, advanced,
    expert. *)
Definition tier_rank (level : string) : nat :=
  if String.eqb level "expert" then 3
  else if String.eqb level "advanced" then 2
  else if String.eqb level "intermediate" then 1 else 0.

(** Every character of [s] satisfies [p]. *)
Fixpoint string_forall (p : ascii -> bool) (s : string) : bool :=
  match s with
  | EmptyString => true
  | String c s' => (p c && string_forall p s')%bool
  end.

(** [s] ends with a word character. *)
Definition ends_with_word_char (s : string) : Prop :=
  exists front c, s = front ++ String c EmptyString /\ is_word_char c = true.

Definition token_char (c : ascii) : bool := (is_word_char c || is_joiner c)%bool.

(** What holds of the match being read. *)
Definition reading_ok (cur : option string) (rest : string) : Prop :=
  match cur with
  | None => True
  | Some w =>
      w <> "" /\ starts_with_word_char w = true
      /\ string_forall token_char w = true
      /\ (ends_with_word_char w \/ starts_with_word_char rest = true)
  end.

Definition token_ok (t : string) : Prop :=
  t <> "" /\ starts_with_word_char t = true /\ ends_with_word_char t
  /\ string_forall token_char t = true.

(** [skill.lower() in lexicon] *)
Definition skill_in (lexicon : gset string) (skill : string) : bool :=
  bool_decide (lower skill ∈ lexicon).

Definition space : ascii := ascii_of_nat 32.

(** A text without spaces. *)
Definition spaceless (s : string) : bool :=
  string_forall (fun c => negb (Ascii.eqb c space)) s.

(** [s.isascii()]: every character of the text has a code below 128. On
    such text the embedding's [lower] is [str.lower] and [is_word_char] is
    the class [\w] of [re]; outside it [str.lower] folds further letters,
    depends on the neighbouring characters, and [\w] has further members. *)
Definition isascii (s : string) : bool :=
  string_forall (fun c => (nat_of_ascii c <? 128)%nat) s.

(** The skills of a profile, and the title and body of an issue, are
    ASCII text. *)
Definition ascii_profile (user_skills : UserSkills) : bool :=
  (forallb isascii (languages user_skills)
   && forallb isascii (technologies user_skills))%bool.

Definition ascii_content (issue : GitHubIssue) : bool :=
  (isascii (title issue) && isascii (body issue))%bool.

(** * Verification *)

(** ** Facts on the string primitives *)

Lemma prefix_spec (n h : string) :
  String.prefix n h = true <-> exists post, h = n ++ post.
Proof.
  revert h. induction n as [|a n IH]; intros h.
  - destruct h; simpl; split; eauto.
  - destruct h as [|b h]; simpl.
    + split; [discriminate | intros [post Hp]; discriminate].
    + destruct (ascii_dec a b) as [->|Hab].
      * rewrite IH. split; intros [post Hp]; exists post; simpl in *; congruence.
      * split; [discriminate | intros [post Hp]; simpl in Hp; congruence].
Qed.

Lemma str_in_spec (n h : string) : str_in n h = true <-> occurs_in n h.
Proof.
  unfold occurs_in. induction h as [|c h IH].
  - change (str_in n "") with (String.prefix n "" || false)%bool.
    rewrite orb_false_r, prefix_spec. split.
    + intros [post Hp]. exists "", post. exact Hp.
    + intros [pre [post Hp]]. destruct pre; [eauto | discriminate].
  - change (str_in n (String c h))
      with (String.prefix n (String c h) || str_in n h)%bool.
    rewrite orb_true_iff, prefix_spec, IH. split.
    + intros [[post Hp] | [pre [post Hp]]].
      * exists "", post. exact Hp.
      * exists (String c pre), post. simpl. congruence.
    + intros [pre [post Hp]]. destruct pre as [|c' pre]; simpl in Hp.
      * left. eauto.
      * right. exists pre, post. congruence.
Qed.

Lemma str_in_false (n h : string) : str_in n h = false <-> ~ occurs_in n h.
Proof. rewrite <- str_in_spec. destruct (str_in n h); intuition congruence. Qed.

Lemma append_assoc (a b c : string) : (a ++ b) ++ c = a ++ (b ++ c).
Proof. induction a; simpl; congruence. Qed.

(** Lower-casing character by character. Of [str.lower] this holds on
    ASCII text only: beyond it the lower case of a letter can depend on
    the letters around it. *)
Lemma lower_app (a b : string) : lower (a ++ b) = lower a ++ lower b.
Proof. induction a; simpl; congruence. Qed.

Lemma string_forall_app (p : ascii -> bool) (a b : string) :
  string_forall p (a ++ b) = (string_forall p a && string_forall p b)%bool.
Proof.
  induction a as [|c a IH]; simpl; [reflexivity |].
  now rewrite IH, andb_assoc.
Qed.

Lemma isascii_app (a b : string) :
  isascii (a ++ b) = (isascii a && isascii b)%bool.
Proof. apply string_forall_app. Qed.

Lemma isascii_occurs (t s : string) :
  occurs_in t s -> isascii s = true -> isascii t = true.
Proof.
  intros [pre [post ->]]. rewrite !isascii_app, !andb_true_iff. tauto.
Qed.

(** An occurrence survives text added in front and behind. *)
Lemma occurs_in_extend (n pre h post : string) :
  occurs_in n h -> occurs_in n (pre ++ h ++ post).
Proof.
  intros [p [q ->]]. exists (pre ++ p), (q ++ post).
  now rewrite !append_assoc.
Qed.

Lemma list_in_spec (x : string) (xs : list string) :
  list_in x xs = true <-> In x xs.
Proof.
  unfold list_in. rewrite existsb_exists. split.
  - intros [y [Hy He]]. apply String.eqb_eq in He. congruence.
  - intros Hx. exists x. split; [exact Hx | apply String.eqb_refl].
Qed.

(** ** The difficulty cascade *)

Lemma any_label_in_spec (names labels : list string) :
  any_label_in names (map lower labels) = true <-> has_label labels names.
Proof.
  unfold any_label_in, has_label. rewrite existsb_exists. split.
  - intros [n [Hn Hin]]. apply list_in_spec, in_map_iff in Hin.
    destruct Hin as [l [Hl Hin]]. exists l. split; [exact Hin | congruence].
  - intros [l [Hl Hn]]. exists (lower l). split; [exact Hn |].
    apply list_in_spec, in_map. exact Hl.
Qed.

Lemma any_label_in_false (names labels : list string) :
  any_label_in names (map lower labels) = false <-> ~ has_label labels names.
Proof.
  rewrite <- any_label_in_spec.
  destruct (any_label_in names (map lower labels)); intuition congruence.
Qed.

Lemma has_label_app (labels n1 n2 : list string) :
  has_label labels (n1 ++ n2)%list <-> has_label labels n1 \/ has_label labels n2.
Proof.
  unfold has_label. split.
  - intros [l [Hl Hn]]. apply in_app_or in Hn. destruct Hn; eauto.
  - intros [[l [Hl Hn]] | [l [Hl Hn]]]; exists l; split; auto using in_or_app.
Qed.

Lemma indicators_spec (keywords : list string) (body : string) :
  existsb (fun k => str_in k (lower body)) keywords = true
  <-> body_mentions body keywords.
Proof.
  unfold body_mentions. rewrite existsb_exists.
  split; intros [k [Hk Ho]]; exists k; split; auto; now apply str_in_spec.
Qed.

Lemma indicators_false (keywords : list string) (body : string) :
  existsb (fun k => str_in k (lower body)) keywords = false
  <-> ~ body_mentions body keywords.
Proof.
  rewrite <- indicators_spec.
  destruct (existsb _ keywords); intuition congruence.
Qed.

Ltac label_case H :=
  match goal with
  | |- context [any_label_in ?names (map lower ?labels)] =>
      destruct (any_label_in names (map lower labels)) eqn:H;
      [apply any_label_in_spec in H | apply any_label_in_false in H]
  end.

(** C4. [_determine_difficulty] follows the label-priority cascade, first
    match wins, labels compared ignoring case: a label among "good first
    issue", "beginner", "easy", "starter" gives beginner; else a label
    among "intermediate", "medium" gives intermediate; else a label among
    "hard", "expert", "complex", "difficult" gives expert; else "help
    wanted", "bug", "enhancement" or "feature" give intermediate; else the
    body decides, the beginner keywords before the expert keywords; else
    intermediate. An issue labelled exactly ["good first issue"] is
    beginner whatever its body. *)
Theorem determine_difficulty_cascade (labels : list string) (body : string) :
  let d := _determine_difficulty labels body in
  let B := has_label labels ["good first issue"; "beginner"; "easy"; "starter"] in
  let I := has_label labels ["intermediate"; "medium"] in
  let E := has_label labels ["hard"; "expert"; "complex"; "difficult"] in
  let W := has_label labels ["help wanted"; "bug"; "enhancement"; "feature"] in
  let kb := body_mentions body
              ["simple"; "easy"; "basic"; "straightforward"; "minor"] in
  let ke := body_mentions body
              ["complex"; "advanced"; "architecture"; "performance";
               "optimization"; "refactor"] in
  (B -> d = "beginner") /\
  (~ B -> I -> d = "intermediate") /\
  (~ B -> ~ I -> E -> d = "expert") /\
  (~ B -> ~ I -> ~ E -> W -> d = "intermediate") /\
  (~ B -> ~ I -> ~ E -> ~ W -> kb -> d = "beginner") /\
  (~ B -> ~ I -> ~ E -> ~ W -> ~ kb -> ke -> d = "expert") /\
  (~ B -> ~ I -> ~ E -> ~ W -> ~ kb -> ~ ke -> d = "intermediate") /\
  (forall any_body, _determine_difficulty ["good first issue"] any_body = "beginner").
Proof.
  intros d B I E W kb ke.
  assert (HW : W <-> has_label labels ["help wanted"]
                     \/ has_label labels ["bug"]
                     \/ has_label labels feature_labels).
  { unfold W.
    change ["help wanted"; "bug"; "enhancement"; "feature"]
      with (["help wanted"] ++ ["bug"] ++ feature_labels)%list.
    now rewrite !has_label_app. }
  assert (Hd : (B /\ d = "beginner")
            \/ (~ B /\ I /\ d = "intermediate")
            \/ (~ B /\ ~ I /\ E /\ d = "expert")
            \/ (~ B /\ ~ I /\ ~ E /\ W /\ d = "intermediate")
            \/ (~ B /\ ~ I /\ ~ E /\ ~ W /\ kb /\ d = "beginner")
            \/ (~ B /\ ~ I /\ ~ E /\ ~ W /\ ~ kb /\ ke /\ d = "expert")
            \/ (~ B /\ ~ I /\ ~ E /\ ~ W /\ ~ kb /\ ~ ke /\ d = "intermediate")).
  { subst d. unfold _determine_difficulty.
    label_case H1; [tauto |].
    label_case H2; [tauto |].
    label_case H3; [tauto |].
    label_case H4; [tauto |].
    label_case H5; [tauto |].
    label_case H6; [tauto |].
    assert (HnW : ~ W) by tauto.
    unfold complexity_indicators, scan_indicators.
    destruct (existsb _ ["simple"; _; _; _; _]) eqn:K1;
      [apply indicators_spec in K1; tauto | apply indicators_false in K1].
    destruct (existsb _ ["complex"; _; _; _; _; _]) eqn:K2;
      [apply indicators_spec in K2; tauto | apply indicators_false in K2].
    tauto. }
  repeat split; try tauto.
Qed.

(** The cascade at a concrete issue: the label "Easy" wins over "bug"
    and over the body keyword "complex". *)
Lemma determine_difficulty_cascade_witness :
  has_label ["Easy"; "bug"] ["good first issue"; "beginner"; "easy"; "starter"]
  /\ _determine_difficulty ["Easy"; "bug"] "a complex change" = "beginner".
Proof.
  assert (H : has_label ["Easy"; "bug"]
                ["good first issue"; "beginner"; "easy"; "starter"]).
  { exists "Easy". split; [left; reflexivity | right; right; left; reflexivity]. }
  split; [exact H |].
  exact (proj1 (determine_difficulty_cascade ["Easy"; "bug"] "a complex change") H).
Defined.

(** ** Label-based scoring *)

Lemma label_step_bonus (experience : string) (score : Q) (label : string) :
  label_step experience score label == score + label_bonus experience label.
Proof.
  unfold label_bonus, label_step.
  repeat match goal with |- context [if ?b then _ else _] => destruct b end; lra.
Qed.

Lemma label_loop_sum (experience : string) (labels : list string) (score : Q) :
  label_loop experience labels score
  == score + sum_Q (map (label_bonus experience) labels).
Proof.
  unfold label_loop. revert score.
  induction labels as [|l labels IH]; intros score; simpl.
  - lra.
  - rewrite IH, label_step_bonus. lra.
Qed.

(** C1, as the code has it. The label bonuses are mutually exclusive per
    label: a label adds the bonus of the first category it matches, in the
    order "good first issue" (+3.0, only for a beginner or intermediate
    profile), "help wanted" (+2.0), "bug" (+1.0), "enhancement" or
    "feature" (+1.5), matching by substring of the lower-cased label, and
    nothing when no category matches; the labels of the list add up, once
    per occurrence. *)
Theorem label_bonus_first_match (experience : string) (labels : list string)
    (score : Q) :
  label_loop experience labels score
  == score + sum_Q (map (label_bonus experience) labels)
  /\ forall label,
      let G := occurs_in "good first issue" (lower label)
               /\ (experience = "beginner" \/ experience = "intermediate") in
      let H := occurs_in "help wanted" (lower label) in
      let B := occurs_in "bug" (lower label) in
      let F := occurs_in "enhancement" (lower label)
               \/ occurs_in "feature" (lower label) in
      (G -> label_bonus experience label == 3) /\
      (~ G -> H -> label_bonus experience label == 2) /\
      (~ G -> ~ H -> B -> label_bonus experience label == 1) /\
      (~ G -> ~ H -> ~ B -> F -> label_bonus experience label == 3 # 2) /\
      (~ G -> ~ H -> ~ B -> ~ F -> label_bonus experience label == 0).
Proof.
  split; [apply label_loop_sum |].
  intros label G H B F.
  assert (HG : (str_in "good first issue" (lower label)
                && list_in experience ["beginner"; "intermediate"])%bool = true
               <-> G).
  { unfold G. rewrite andb_true_iff, str_in_spec, list_in_spec. simpl.
    intuition congruence. }
  assert (HF : (str_in "enhancement" (lower label)
                || str_in "feature" (lower label))%bool = true <-> F).
  { unfold F. now rewrite orb_true_iff, !str_in_spec. }
  unfold label_bonus, label_step.
  destruct (str_in "good first issue" (lower label)
            && list_in experience ["beginner"; "intermediate"])%bool.
  { assert G by (apply HG; reflexivity). repeat split; intros; try tauto; lra. }
  assert (~ G) by (intros HG'; apply HG in HG'; discriminate).
  destruct (str_in "help wanted" (lower label)) eqn:E2;
    [apply str_in_spec in E2 | apply str_in_false in E2].
  { repeat split; intros; try tauto; lra. }
  destruct (str_in "bug" (lower label)) eqn:E3;
    [apply str_in_spec in E3 | apply str_in_false in E3].
  { repeat split; intros; try tauto; lra. }
  destruct (str_in "enhancement" (lower label)
            || str_in "feature" (lower label))%bool.
  { assert F by (apply HF; reflexivity). repeat split; intros; try tauto; lra. }
  assert (~ F) by (intros HF'; apply HF in HF'; discriminate).
  repeat split; intros; try tauto; lra.
Qed.

(** The first-match rule at the label "help wanted bug": it adds 2.0. *)
Lemma label_bonus_first_match_witness :
  occurs_in "help wanted" (lower "Help wanted bug")
  /\ label_bonus "expert" "Help wanted bug" == 2.
Proof.
  assert (H : occurs_in "help wanted" (lower "Help wanted bug")).
  { apply str_in_spec. reflexivity. }
  assert (G : ~ (occurs_in "good first issue" (lower "Help wanted bug")
                 /\ ("expert" = "beginner" \/ "expert" = "intermediate"))).
  { intros [_ [E | E]]; discriminate E. }
  split; [exact H |].
  exact (proj1 (proj2 (proj2 (label_bonus_first_match "expert" [] 0)
                         "Help wanted bug")) G H).
Defined.

(** C1 as stated fails: the label "help wanted bug" matches the "help
    wanted" and the "bug" category, the code adds 2.0 for it, independent
    bonuses would add 3.0. *)
Lemma label_bonuses_not_independent :
  label_loop "expert" ["help wanted bug"] 0 == 2
  /\ independent_label_score "expert" ["help wanted bug"] == 3
  /\ ~ label_loop "expert" ["help wanted bug"] 0
       == independent_label_score "expert" ["help wanted bug"].
Proof.
  repeat split; try reflexivity.
  intros H. vm_compute in H. discriminate H.
Qed.

(** ** Deduplication *)

Lemma remove_duplicates_loop_keep (issues : list GitHubIssue) (seen : gset Z)
    (acc : list GitHubIssue) :
  remove_duplicates_loop issues seen acc = app acc (keep_unseen seen issues).
Proof.
  revert seen acc. induction issues as [|x issues IH]; intros seen acc; simpl.
  - now rewrite app_nil_r.
  - destruct (decide (id x ∈ seen)); [apply IH |].
    rewrite IH, <- app_assoc. reflexivity.
Qed.

Lemma keep_unseen_In (seen : gset Z) (issues : list GitHubIssue) (x : GitHubIssue) :
  In x (keep_unseen seen issues) -> (id x ∉ seen) /\ In x issues.
Proof.
  revert seen. induction issues as [|y issues IH]; intros seen; simpl; [tauto |].
  destruct (decide (id y ∈ seen)) as [Hy | Hy].
  - intros Hx. apply IH in Hx. tauto.
  - intros [-> | Hx]; [tauto |]. apply IH in Hx.
    split; [set_solver | tauto].
Qed.

Lemma keep_unseen_ids (seen : gset Z) (issues : list GitHubIssue) (i : Z) :
  In i (map id (keep_unseen seen issues)) <-> In i (map id issues) /\ (i ∉ seen).
Proof.
  revert seen. induction issues as [|y issues IH]; intros seen; simpl; [tauto |].
  destruct (decide (id y ∈ seen)) as [Hy | Hy]; simpl; rewrite IH.
  - split; [tauto |]. intros [[<- | Hi] Hn]; tauto.
  - destruct (decide (id y = i)) as [<- | Hne]; [tauto |].
    split; [intros [? | [? ?]]; split; auto; set_solver |].
    intros [[? | ?] ?]; [tauto |]. right. split; [assumption | set_solver].
Qed.

Lemma keep_unseen_NoDup (seen : gset Z) (issues : list GitHubIssue) :
  List.NoDup (map id (keep_unseen seen issues)).
Proof.
  revert seen. induction issues as [|y issues IH]; intros seen; simpl.
  - constructor.
  - destruct (decide (id y ∈ seen)); [apply IH |]. simpl. constructor; [| apply IH].
    rewrite keep_unseen_ids. set_solver.
Qed.

Lemma keep_unseen_sublist (seen : gset Z) (issues : list GitHubIssue) :
  sublist (keep_unseen seen issues) issues.
Proof.
  revert seen. induction issues as [|y issues IH]; intros seen; simpl.
  - constructor.
  - destruct (decide (id y ∈ seen)); [apply sublist_cons | apply sublist_skip];
      apply IH.
Qed.

Lemma keep_unseen_first (seen : gset Z) (issues : list GitHubIssue) (x : GitHubIssue) :
  In x (keep_unseen seen issues) -> first_with_id (id x) issues = Some x.
Proof.
  unfold first_with_id.
  revert seen. induction issues as [|y issues IH]; intros seen; simpl; [tauto |].
  destruct (decide (id y ∈ seen)) as [Hy | Hy].
  - intros Hx. pose proof (keep_unseen_In _ _ _ Hx) as [Hn _].
    destruct (Z.eqb_spec (id y) (id x)) as [E | _]; [congruence | eauto].
  - intros [-> | Hx]; [now rewrite Z.eqb_refl |].
    pose proof (keep_unseen_In _ _ _ Hx) as [Hn _].
    destruct (Z.eqb_spec (id y) (id x)) as [E | _]; [set_solver | eauto].
Qed.

(** C6. [_remove_duplicates] returns exactly one entry per distinct id of
    its input (the ids of the output are pairwise different and are the
    ids of the input), every entry is the first issue of the input with
    its id, and the output lists them in input order. *)
Theorem remove_duplicates_first_occurrences (issues : list GitHubIssue) :
  let unique_issues := _remove_duplicates issues in
  List.NoDup (map id unique_issues)
  /\ (forall i, In i (map id unique_issues) <-> In i (map id issues))
  /\ (forall x, In x unique_issues <-> first_with_id (id x) issues = Some x)
  /\ sublist unique_issues issues.
Proof.
  unfold _remove_duplicates. rewrite remove_duplicates_loop_keep. simpl.
  repeat split.
  - apply keep_unseen_NoDup.
  - rewrite keep_unseen_ids. tauto.
  - rewrite keep_unseen_ids. set_solver.
  - apply keep_unseen_first.
  - intros Hf. unfold first_with_id in Hf.
    assert (Hi : In (id x) (map id (keep_unseen ∅ issues))).
    { rewrite keep_unseen_ids. split; [| set_solver].
      apply find_some in Hf. apply in_map. tauto. }
    apply in_map_iff in Hi. destruct Hi as [y [Hy Hin]].
    apply keep_unseen_first in Hin as Hy'. rewrite Hy in Hy'.
    unfold first_with_id in Hy'. congruence.
  - apply keep_unseen_sublist.
Qed.

(** ** Ranking *)

Lemma insert_desc_perm (x : GitHubIssue) (l : list GitHubIssue) :
  insert_desc x l ≡ₚ x :: l.
Proof.
  induction l as [|y l IH]; simpl; [reflexivity |].
  destruct (Qle_bool (relevance_score y) (relevance_score x)); [reflexivity |].
  rewrite IH. apply Permutation_swap.
Qed.

Lemma sort_by_score_desc_perm (l : list GitHubIssue) : sort_by_score_desc l ≡ₚ l.
Proof.
  induction l as [|x l IH]; simpl; [reflexivity |].
  rewrite insert_desc_perm. now rewrite IH.
Qed.

Lemma insert_desc_sorted (x : GitHubIssue) (l : list GitHubIssue) :
  StronglySorted score_ge l -> StronglySorted score_ge (insert_desc x l).
Proof.
  induction l as [|y l IH]; simpl; intros Hs.
  - repeat constructor.
  - apply StronglySorted_inv in Hs as [Hl Hy].
    destruct (Qle_bool (relevance_score y) (relevance_score x)) eqn:E.
    + apply Qle_bool_iff in E. constructor; [constructor; assumption |].
      constructor; [exact E |].
      eapply Forall_impl; [exact Hy |]. unfold score_ge. intros z Hz. lra.
    + assert (Hlt : relevance_score x < relevance_score y).
      { apply Qnot_le_lt. intros H. apply Qle_bool_iff in H. congruence. }
      constructor; [apply IH; exact Hl |].
      rewrite insert_desc_perm. constructor; [| exact Hy].
      unfold score_ge. lra.
Qed.

Lemma sort_by_score_desc_sorted (l : list GitHubIssue) :
  StronglySorted score_ge (sort_by_score_desc l).
Proof.
  induction l as [|x l IH]; simpl; [constructor | now apply insert_desc_sorted].
Qed.



Lemma slice_to_take {A} (l : list A) (n : Z) :
  exists k, slice_to l n = take k l /\ ((0 <= n)%Z -> k = Z.to_nat n).
Proof.
  unfold slice_to. destruct (Z.leb_spec 0 n).
  - exists (Z.to_nat n). tauto.
  - eexists. split; [reflexivity | lia].
Qed.




(** ** The frame of the scoring pass *)

Section ScorerFrame.

Variable age_in_days : string -> option Z.
Variable user_skills : UserSkills.

Lemma score_issue_frame (issue : GitHubIssue) :
  same_but_score issue (score_issue age_in_days user_skills issue).
Proof. unfold same_but_score. simpl. tauto. Qed.

(** Scoring reads only fields it does not assign, so scoring an object a
    second time (a list that holds one reference twice) changes nothing. *)
Lemma score_issue_again (issue : GitHubIssue) :
  score_issue age_in_days user_skills (score_issue age_in_days user_skills issue)
  = score_issue age_in_days user_skills issue.
Proof. reflexivity. Qed.

Lemma score_loop_lookup (issues : list positive) (h : gmap positive GitHubIssue)
    (r : positive) :
  fold_left (fun h r => alter (score_issue age_in_days user_skills) r h) issues h !! r
  = if decide (r ∈ issues)
    then score_issue age_in_days user_skills <$> h !! r
    else h !! r.
Proof.
  revert h. induction issues as [|a issues IH]; intros h; cbn [fold_left].
  - rewrite decide_False by set_solver. reflexivity.
  - rewrite IH, lookup_alter.
    destruct (decide (a = r)) as [-> | Hne].
    + rewrite (decide_True (P := r ∈ r :: issues)) by set_solver.
      destruct (decide (r ∈ issues)); [| reflexivity].
      destruct (h !! r); simpl; [| reflexivity].
      now rewrite score_issue_again.
    + destruct (decide (r ∈ issues)).
      * rewrite decide_True by set_solver. reflexivity.
      * rewrite decide_False by set_solver. reflexivity.
Qed.

Lemma score_loop_dom (issues : list positive) (h : gmap positive GitHubIssue) :
  dom (fold_left (fun h r => alter (score_issue age_in_days user_skills) r h) issues h)
  = dom h.
Proof.
  revert h. induction issues as [|a issues IH]; intros h; simpl; [reflexivity |].
  rewrite IH. apply dom_alter_L.
Qed.

End ScorerFrame.

(** C10. The scoring pass returns the list it was given (the same
    objects, in the same order, as many), creates and removes no object,
    and leaves every field of every object other than [matched_skills] and
    [relevance_score] as it was, [difficulty] included; an object of the
    list ends with the score and matches computed from its own fields, an
    object outside the list is untouched. *)
Theorem score_issues_frame (age_in_days : string -> option Z)
    (issues : list positive) (user_skills : UserSkills)
    (h : gmap positive GitHubIssue) :
  let returned := fst (_score_issues age_in_days issues user_skills h) in
  let h' := snd (_score_issues age_in_days issues user_skills h) in
  returned = issues
  /\ length returned = length issues
  /\ dom h' = dom h
  /\ (forall r before, h !! r = Some before ->
        exists after, h' !! r = Some after /\ same_but_score before after)
  /\ (forall r before, r ∈ issues -> h !! r = Some before ->
        h' !! r = Some (score_issue age_in_days user_skills before))
  /\ (forall r, r ∉ issues -> h' !! r = h !! r).
Proof.
  unfold _score_issues. simpl. repeat split.
  - apply score_loop_dom.
  - intros r before Hr. rewrite score_loop_lookup, Hr.
    destruct (decide (r ∈ issues)); simpl; eexists; split; try reflexivity.
    + apply score_issue_frame.
    + unfold same_but_score. tauto.
  - intros r before Hin Hr. rewrite score_loop_lookup, Hr.
    rewrite decide_True by assumption. reflexivity.
  - intros r Hn. rewrite score_loop_lookup. now rewrite decide_False.
Qed.

(** The frame at a store with two issues and a list that names the first
    one twice. *)
Lemma score_issues_frame_witness :
  let a := example_issue 1 "Fix python bug" "" ["good first issue"] "beginner" 0 in
  let b := example_issue 2 "Docs" "typo" [] "intermediate" 0 in
  let h : gmap positive GitHubIssue := {[ 1%positive := a; 2%positive := b ]} in
  let us := {| languages := ["python"]; technologies := [];
               experience_level := "beginner"; github_stats := None |} in
  h !! 1%positive = Some a
  /\ exists after,
       snd (_score_issues (fun _ => Some 3%Z) [1; 2; 1]%positive us h) !! 1%positive
       = Some after
       /\ same_but_score a after.
Proof.
  intros a b h us.
  assert (H : h !! 1%positive = Some a) by reflexivity.
  split; [exact H |].
  exact (proj1 (proj2 (proj2 (proj2
           (score_issues_frame (fun _ => Some 3%Z) [1; 2; 1]%positive us h))))
           1%positive a H).
Defined.

(** ** The score as a sum of its parts *)

Lemma skill_loop_points (content : string) (pts : Q) (skills : list string)
    (st : Q * gset string) :
  fst (skill_loop content pts skills st)
  == fst st + skill_points content pts skills.
Proof.
  unfold skill_loop, skill_points. revert st.
  induction skills as [|k skills IH]; intros st; simpl.
  - lra.
  - rewrite IH. unfold skill_step.
    destruct (str_in (lower k) content); simpl; lra.
Qed.

Lemma difficulty_step_bonus (d e : string) (score : Q) :
  difficulty_step d e score == score + difficulty_bonus d e.
Proof.
  unfold difficulty_bonus, difficulty_step.
  repeat match goal with |- context [if ?b then _ else _] => destruct b end; lra.
Qed.

Lemma difficulty_bonus_range (d e : string) :
  0 <= difficulty_bonus d e /\ difficulty_bonus d e <= 2.
Proof.
  unfold difficulty_bonus, difficulty_step.
  repeat match goal with |- context [if ?b then _ else _] => destruct b end; lra.
Qed.

Lemma recency_step_bonus (days_old : option Z) (score : Q) :
  recency_step days_old score == score + recency_bonus days_old.
Proof.
  unfold recency_bonus, recency_step. destruct days_old as [d|]; [| lra].
  repeat match goal with |- context [if ?b then _ else _] => destruct b end; lra.
Qed.

Lemma relevance_score_parts (age_in_days : string -> option Z)
    (user_skills : UserSkills) (issue : GitHubIssue) :
  relevance_score (score_issue age_in_days user_skills issue)
  == skill_points (content_of issue) 2 (languages user_skills)
     + skill_points (content_of issue) (3 # 2) (technologies user_skills)
     + sum_Q (map (label_bonus (experience_level user_skills)) (labels issue))
     + difficulty_bonus (difficulty issue) (experience_level user_skills)
     + recency_bonus (age_in_days (updated_at issue)).
Proof.
  unfold score_issue, score_and_matches, content_of. simpl.
  rewrite recency_step_bonus, difficulty_step_bonus, label_loop_sum.
  rewrite !skill_loop_points. simpl. lra.
Qed.

(** Points never shrink when every occurrence is kept. *)
Lemma skill_points_mono (c c' : string) (pts : Q) (skills : list string) :
  0 <= pts ->
  (forall k, In k skills -> occurs_in (lower k) c -> occurs_in (lower k) c') ->
  skill_points c pts skills <= skill_points c' pts skills.
Proof.
  intros Hpts. unfold skill_points.
  induction skills as [|k skills IH]; intros Hkeep; simpl; [lra |].
  assert (IH' := IH (fun k' Hk' => Hkeep k' (or_intror Hk'))).
  destruct (str_in (lower k) c) eqn:E.
  - apply str_in_spec in E. apply (Hkeep k (or_introl eq_refl)) in E.
    apply str_in_spec in E. rewrite E. lra.
  - destruct (str_in (lower k) c'); lra.
Qed.

(** A skill of the list that newly occurs earns its points on top. *)
Lemma skill_points_gain (c c' : string) (pts : Q) (skills : list string)
    (skill : string) :
  0 <= pts ->
  (forall k, In k skills -> occurs_in (lower k) c -> occurs_in (lower k) c') ->
  In skill skills ->
  ~ occurs_in (lower skill) c -> occurs_in (lower skill) c' ->
  skill_points c pts skills + pts <= skill_points c' pts skills.
Proof.
  intros Hpts. unfold skill_points.
  induction skills as [|k skills IH]; intros Hkeep Hin Hold Hnew; simpl;
    [destruct Hin |].
  assert (Hkeep' : forall k', In k' skills ->
            occurs_in (lower k') c -> occurs_in (lower k') c')
    by (intros k' Hk'; apply Hkeep; right; exact Hk').
  destruct Hin as [-> | Hin].
  - apply str_in_false in Hold. apply str_in_spec in Hnew. rewrite Hold, Hnew.
    pose proof (skill_points_mono c c' pts skills Hpts Hkeep') as Hm.
    unfold skill_points in Hm. lra.
  - specialize (IH Hkeep' Hin Hold Hnew).
    destruct (str_in (lower k) c) eqn:E.
    + apply str_in_spec in E. apply (Hkeep k (or_introl eq_refl)) in E.
      apply str_in_spec in E. rewrite E. lra.
    + destruct (str_in (lower k) c'); lra.
Qed.

(** ** Monotonicity of the score in matched languages *)

(** What a converted issue carries. *)
Lemma convert_some (raw : RawIssue.t) (skill : string) (x : GitHubIssue) :
  _convert_to_github_issue raw skill = Some x ->
  RawIssue.pull_request raw = false
  /\ id x = RawIssue.id raw /\ title x = RawIssue.title raw
  /\ body x = or_empty (RawIssue.body raw) /\ labels x = RawIssue.labels raw
  /\ difficulty x = _determine_difficulty (labels x) (body x)
  /\ matched_skills x = [skill] /\ relevance_score x = 0.
Proof.
  unfold _convert_to_github_issue.
  destruct (RawIssue.pull_request raw); [discriminate |].
  destruct (RawIssue.repository raw) as [[n u] | e]; [| discriminate].
  intros H. injection H as <-. simpl. tauto.
Qed.

Lemma content_with_added_extends (pre post : string) (issue : GitHubIssue) :
  content_with_added pre post issue
  = lower pre ++ content_of issue ++ lower post.
Proof.
  unfold content_with_added, content_of.
  rewrite <- !lower_app. f_equal. now rewrite !append_assoc.
Qed.

(** Text added at the two ends keeps every occurrence. On ASCII text
    this is a fact of [str.lower] as well; beyond it the lower-casing of a
    letter can depend on what follows it. *)
Lemma content_with_added_keeps (pre post : string) (issue : GitHubIssue)
    (k : string) :
  occurs_in k (content_of issue) ->
  occurs_in k (content_with_added pre post issue).
Proof.
  intros Hk. rewrite content_with_added_extends. now apply occurs_in_extend.
Qed.

(** The score when no match is lost and a language is gained: the 2.0
    for the language cover whatever the difficulty bonus loses. *)
Lemma score_monotone_matches_kept (age_in_days : string -> option Z)
    (user_skills : UserSkills) (issue issue' : GitHubIssue) (language : string) :
  labels issue' = labels issue -> updated_at issue' = updated_at issue ->
  matches_kept user_skills issue issue' ->
  In language (languages user_skills) ->
  ~ occurs_in (lower language) (content_of issue) ->
  occurs_in (lower language) (content_of issue') ->
  relevance_score (score_issue age_in_days user_skills issue)
  <= relevance_score (score_issue age_in_days user_skills issue').
Proof.
  intros Hl Hu Hkeep Hin Hold Hnew.
  rewrite !relevance_score_parts, Hl, Hu.
  pose proof (skill_points_gain (content_of issue) (content_of issue') 2
                (languages user_skills) language ltac:(lra)
                (fun k Hk => Hkeep k (or_introl Hk)) Hin Hold Hnew) as Hlang.
  pose proof (skill_points_mono (content_of issue) (content_of issue') (3 # 2)
                (technologies user_skills) ltac:(lra)
                (fun k Hk => Hkeep k (or_intror Hk))) as Htech.
  pose proof (difficulty_bonus_range (difficulty issue)
                (experience_level user_skills)) as [_ Hd].
  pose proof (difficulty_bonus_range (difficulty issue')
                (experience_level user_skills)) as [Hd' _].
  lra.
Qed.

(** C8. For a profile and issues in ASCII text. Take an issue as the
    retriever builds it, its difficulty derived from its labels and body,
    and the issue built from the same platform issue with another title
    and body. If every skill of the profile that occurs in the old content
    occurs in the new one, and a language of the profile occurs in the new
    content and did not occur in the old one, then the relevance score of
    the new issue is not below that of the old one, although the new body
    may change the difficulty read from it and with it the
    difficulty-alignment bonus. Text added in front of the title and
    behind the body is such a change: it keeps every match. *)
Theorem score_monotone_in_added_language (age_in_days : string -> option Z)
    (user_skills : UserSkills) (raw : RawIssue.t) (matched_skill : string)
    (language : string) (issue : GitHubIssue) :
  ascii_profile user_skills = true -> ascii_content issue = true ->
  _convert_to_github_issue raw matched_skill = Some issue ->
  In language (languages user_skills) ->
  ~ occurs_in (lower language) (content_of issue) ->
  (forall raw' issue',
      same_but_text raw raw' ->
      _convert_to_github_issue raw' matched_skill = Some issue' ->
      ascii_content issue' = true ->
      matches_kept user_skills issue issue' ->
      occurs_in (lower language) (content_of issue') ->
      relevance_score (score_issue age_in_days user_skills issue)
      <= relevance_score (score_issue age_in_days user_skills issue'))
  /\ (forall pre post,
        isascii pre = true -> isascii post = true ->
        occurs_in (lower language) (content_with_added pre post issue) ->
        exists issue',
          _convert_to_github_issue (with_added_text pre post raw) matched_skill
          = Some issue'
          /\ same_but_text raw (with_added_text pre post raw)
          /\ ascii_content issue' = true
          /\ content_of issue' = content_with_added pre post issue
          /\ matches_kept user_skills issue issue'
          /\ relevance_score (score_issue age_in_days user_skills issue)
             <= relevance_score (score_issue age_in_days user_skills issue')).
Proof.
  intros _ Hascii Hc Hin Hold.
  destruct (convert_some raw matched_skill issue Hc)
    as (Hpr & _ & Ht & Hb & Hlab & _).
  assert (Hgen : forall raw' issue',
            same_but_text raw raw' ->
            _convert_to_github_issue raw' matched_skill = Some issue' ->
            matches_kept user_skills issue issue' ->
            occurs_in (lower language) (content_of issue') ->
            relevance_score (score_issue age_in_days user_skills issue)
            <= relevance_score (score_issue age_in_days user_skills issue')).
  { intros raw' issue' Hsame Hc' Hkeep Hnew.
    destruct Hsame as (_ & _ & _ & _ & Hl' & _ & _ & Hu').
    apply (score_monotone_matches_kept age_in_days user_skills issue issue'
             language); try assumption.
    - destruct (convert_some raw' matched_skill issue' Hc')
        as (_ & _ & _ & _ & Hlab' & _).
      now rewrite Hlab', Hlab, Hl'.
    - revert Hc Hc'. unfold _convert_to_github_issue.
      destruct (RawIssue.pull_request raw); [discriminate |].
      destruct (RawIssue.pull_request raw'); [discriminate |].
      destruct (RawIssue.repository raw) as [[n u] | e]; [| discriminate].
      destruct (RawIssue.repository raw') as [[n' u'] | e']; [| discriminate].
      intros H H'. injection H as <-. injection H' as <-. exact Hu'. }
  split.
  - intros raw' issue' Hsame Hc' _ Hkeep Hnew. now apply (Hgen raw' issue').
  - intros pre post Hpre Hpost Hnew.
    assert (Hsame : same_but_text raw (with_added_text pre post raw))
      by (repeat split).
    assert (Hc' : exists issue',
              _convert_to_github_issue (with_added_text pre post raw)
                matched_skill = Some issue'
              /\ title issue' = pre ++ title issue
              /\ body issue' = body issue ++ post).
    { revert Hc. unfold _convert_to_github_issue.
      change (RawIssue.pull_request (with_added_text pre post raw))
        with (RawIssue.pull_request raw).
      change (RawIssue.repository (with_added_text pre post raw))
        with (RawIssue.repository raw).
      destruct (RawIssue.pull_request raw); [discriminate |].
      destruct (RawIssue.repository raw) as [[n u] | e]; [| discriminate].
      intros H. injection H as <-. eexists. split; [reflexivity |].
      split; reflexivity. }
    destruct Hc' as (issue' & Hc' & Ht' & Hb').
    assert (Hcontent : content_of issue' = content_with_added pre post issue).
    { unfold content_of, content_with_added. now rewrite Ht', Hb'. }
    assert (Hkeep : matches_kept user_skills issue issue').
    { intros k _ Hk. rewrite Hcontent. now apply content_with_added_keeps. }
    exists issue'. split; [exact Hc' |]. split; [exact Hsame |].
    split.
    { unfold ascii_content in *. rewrite Ht', Hb', !isascii_app.
      apply andb_true_iff in Hascii as [-> ->]. now rewrite Hpre, Hpost. }
    split; [exact Hcontent |]. split; [exact Hkeep |].
    apply (Hgen _ issue' Hsame Hc' Hkeep). now rewrite Hcontent.
Qed.

(** Two cases for an expert profile. A language put into the middle of
    the body, where the Docker match of the title is kept; and the
    boundary case, a body that reads "complex" and the added language
    "Visual Basic", which turns the difficulty to beginner: the 2.0 gained
    for the language meets the 2.0 lost. *)
Lemma score_monotone_in_added_language_witness :
  let us := {| languages := ["Python"; "Visual Basic"];
               technologies := ["Docker"];
               experience_level := "expert"; github_stats := None |} in
  let raw := example_raw_issue "Docker build crash" "a complex failure" [] in
  let raw' := example_raw_issue "Docker build crash"
                "a complex Python failure" [] in
  exists issue issue' issue'',
    _convert_to_github_issue raw "docker" = Some issue
    /\ ascii_profile us = true /\ ascii_content issue = true
    /\ _convert_to_github_issue raw' "docker" = Some issue'
    /\ matches_kept us issue issue'
    /\ relevance_score (score_issue (fun _ => None) us issue)
       <= relevance_score (score_issue (fun _ => None) us issue')
    /\ _convert_to_github_issue
         (with_added_text "" " in Visual Basic" raw) "docker" = Some issue''
    /\ difficulty issue = "expert" /\ difficulty issue'' = "beginner"
    /\ relevance_score (score_issue (fun _ => None) us issue)
       <= relevance_score (score_issue (fun _ => None) us issue'').
Proof.
  intros us raw raw'.
  set (issue := {| id := 7; number := 7; title := "Docker build crash";
                   body := "a complex failure";
                   url := "https://example.org/issue";
                   repository_name := "owner/repo";
                   repository_url := "https://example.org/owner/repo";
                   labels := []; created_at := "2024-01-01T00:00:00";
                   updated_at := "2024-01-02T00:00:00";
                   difficulty := "expert"; matched_skills := ["docker"];
                   relevance_score := 0 |}).
  set (issue' := {| id := 7; number := 7; title := "Docker build crash";
                    body := "a complex Python failure";
                    url := "https://example.org/issue";
                    repository_name := "owner/repo";
                    repository_url := "https://example.org/owner/repo";
                    labels := []; created_at := "2024-01-01T00:00:00";
                    updated_at := "2024-01-02T00:00:00";
                    difficulty := "expert"; matched_skills := ["docker"];
                    relevance_score := 0 |}).
  assert (Hc : _convert_to_github_issue raw "docker" = Some issue)
    by reflexivity.
  assert (Hc' : _convert_to_github_issue raw' "docker" = Some issue')
    by reflexivity.
  assert (Hp : ascii_profile us = true) by reflexivity.
  assert (Ha : ascii_content issue = true) by reflexivity.
  assert (Ha' : ascii_content issue' = true) by reflexivity.
  assert (Hsame : same_but_text raw raw') by (repeat split).
  assert (Hkeep : matches_kept us issue issue').
  { intros skill [H | H] Ho; simpl in H.
    - destruct H as [<- | [<- | []]]; apply str_in_spec in Ho;
        vm_compute in Ho; discriminate Ho.
    - destruct H as [<- | []]. apply str_in_spec. reflexivity. }
  assert (Hpy : In "Python" (languages us)) by (simpl; tauto).
  assert (Hpy_old : ~ occurs_in (lower "Python") (content_of issue))
    by (apply str_in_false; reflexivity).
  assert (Hpy_new : occurs_in (lower "Python") (content_of issue'))
    by (apply str_in_spec; reflexivity).
  assert (Hvb : In "Visual Basic" (languages us)) by (simpl; tauto).
  assert (Hvb_old : ~ occurs_in (lower "Visual Basic") (content_of issue))
    by (apply str_in_false; reflexivity).
  assert (Hvb_new : occurs_in (lower "Visual Basic")
                      (content_with_added "" " in Visual Basic" issue))
    by (apply str_in_spec; reflexivity).
  pose proof (proj1 (score_monotone_in_added_language (fun _ => None) us raw
                       "docker" "Python" issue Hp Ha Hc Hpy Hpy_old)
                raw' issue' Hsame Hc' Ha' Hkeep Hpy_new) as Hle'.
  destruct (proj2 (score_monotone_in_added_language (fun _ => None) us raw
                     "docker" "Visual Basic" issue Hp Ha Hc Hvb Hvb_old)
              "" " in Visual Basic" eq_refl eq_refl Hvb_new)
    as [issue'' [Hc'' [_ [_ [_ [_ Hle'']]]]]].
  exists issue, issue', issue''. split; [exact Hc |]. split; [exact Hp |].
  split; [exact Ha |]. split; [exact Hc' |]. split; [exact Hkeep |].
  split; [exact Hle' |]. split; [exact Hc'' |].
  split; [reflexivity |]. split; [| exact Hle''].
  simpl in Hc''. injection Hc'' as <-. reflexivity.
Defined.

(** C8 as the specification words it fails: text that brings a further
    language of the profile into the content can part what matched across
    the seam of title and body. The profile knows Visual Basic, Visual
    Basic .NET and Python; the issue is titled "Port the parser to
    Visual" and its body begins "Basic .NET"; with " (Python)" added to the
    title Python matches, the two other languages no longer do, and the
    score falls from 5.0 to 3.0. *)
Lemma language_appended_to_title_lowers_score :
  let us := {| languages := ["Visual Basic"; "Visual Basic .NET"; "Python"];
               technologies := []; experience_level := "intermediate";
               github_stats := None |} in
  let raw := example_raw_issue "Port the parser to Visual"
               "Basic .NET from VB6" [] in
  let raw' := example_raw_issue "Port the parser to Visual (Python)"
                "Basic .NET from VB6" [] in
  exists issue issue',
    _convert_to_github_issue raw "python" = Some issue
    /\ _convert_to_github_issue raw' "python" = Some issue'
    /\ same_but_text raw raw'
    /\ In "Python" (languages us)
    /\ ~ occurs_in (lower "Python") (content_of issue)
    /\ occurs_in (lower "Python") (content_of issue')
    /\ relevance_score (score_issue (fun _ => None) us issue) == 5
    /\ relevance_score (score_issue (fun _ => None) us issue') == 3
    /\ ~ relevance_score (score_issue (fun _ => None) us issue)
         <= relevance_score (score_issue (fun _ => None) us issue').
Proof.
  intros us raw raw'. do 2 eexists.
  split; [reflexivity |]. split; [reflexivity |].
  split; [repeat split |]. split; [simpl; tauto |].
  split; [apply str_in_false; reflexivity |].
  split; [apply str_in_spec; reflexivity |].
  split; [reflexivity |]. split; [reflexivity |].
  vm_compute. intros H. apply H. reflexivity.
Qed.

(** ** The experience estimator *)

Lemma Qle_bool_false (x y : Q) : Qle_bool x y = false <-> y < x.
Proof.
  split.
  - intros H. apply Qnot_le_lt. intros Hle. apply Qle_bool_iff in Hle. congruence.
  - intros H. destruct (Qle_bool x y) eqn:E; [| reflexivity].
    apply Qle_bool_iff in E. lra.
Qed.

Lemma active_repos_readable (u : Z) (repos : list Repo.t) :
  Forall (fun repo => readable (Repo.updated_at repo)) repos ->
  active_repos u repos = Ok (List.filter (recently_active u) repos).
Proof.
  induction 1 as [|repo repos [o Ho] _ IH]; simpl; [reflexivity |].
  unfold recently_active at 1. rewrite Ho, IH. simpl.
  destruct o; reflexivity.
Qed.

Lemma active_repos_failed (u : Z) (repos : list Repo.t) :
  Exists (fun repo => failed (Repo.updated_at repo)) repos ->
  failed (active_repos u repos).
Proof.
  induction 1 as [repo repos [e He] | repo repos _ [e IH]]; simpl.
  - rewrite He. exists e. reflexivity.
  - rewrite IH. destruct (Repo.updated_at repo) as [o | e'];
      [exists e | exists e']; reflexivity.
Qed.

(** Case analysis on the threshold tests of the estimator. *)
Ltac split_thresholds age total fol recent :=
  repeat match goal with
  | |- context [Qle_bool ?x age] =>
      let E := fresh "E" in
      destruct (Qle_bool x age) eqn:E;
      [apply Qle_bool_iff in E | apply Qle_bool_false in E]
  | |- context [(?x <=? total)%Z] => destruct (Z.leb_spec x total)
  | |- context [(?x <=? fol)%Z] => destruct (Z.leb_spec x fol)
  | |- context [(?x <=? recent)%nat] => destruct (Nat.leb_spec x recent)
  end.

Lemma recently_active_in_seconds (u : Z) (repo : Repo.t) :
  recently_active u repo = updated_within_365_days_of u repo.
Proof.
  unfold recently_active, updated_within_365_days_of, timedelta_days.
  destruct (Repo.updated_at repo) as [[t|]|]; try reflexivity.
  pose proof (Z.div_mod (u - t) 86400 ltac:(lia)) as Hd.
  pose proof (Z.mod_pos_bound (u - t) 86400 ltac:(lia)) as Hm.
  destruct (Z.leb_spec ((u - t) / 86400) 365), (Z.ltb_spec (u - t) (366 * 86400));
    try reflexivity; lia.
Qed.

Lemma whole_days (u c days : Z) :
  (86400 * days <= u - c < 86400 * (days + 1))%Z -> timedelta_days u c = days.
Proof.
  intros H. unfold timedelta_days. symmetry.
  apply (Z.div_unique (u - c) 86400 days (u - c - 86400 * days)); lia.
Qed.

Lemma years_of_days_eq (days : Z) :
  years_of_days days == inject_Z days / (1461 # 4).
Proof. unfold years_of_days. field. Qed.

(** C7. With the account data at hand the estimator adds: for the
    account age, which is the number of whole days between the account's
    creation and its last update divided by 365.25, at least 5: 3, at
    least 2: 2, at least 1: 1; public repositories at least 50: 3, at
    least 20: 2, at least 5: 1; followers at least 100: 2, at least 20: 1;
    repositories among the first ten supplied whose update time is known
    and lies less than 366 days before the account's last update, at
    least 5: 2, at least 2: 1; and maps the total to expert from 8,
    advanced from 5, intermediate from 2, beginner below. If a datum it
    reads cannot be obtained it answers intermediate. Times are in
    seconds. *)
Theorem estimate_experience_level_table (user : NamedUser.t) (repos : list Repo.t) :
  (forall u c total fol days,
      NamedUser.updated_at user = Ok u -> NamedUser.created_at user = Ok c ->
      NamedUser.public_repos user = Ok total -> NamedUser.followers user = Ok fol ->
      Forall (fun repo => readable (Repo.updated_at repo)) (firstn 10 repos) ->
      (86400 * days <= u - c < 86400 * (days + 1))%Z ->
      let age := inject_Z days / (1461 # 4) in
      let recent :=
        length (List.filter (updated_within_365_days_of u) (firstn 10 repos)) in
      let level := _estimate_experience_level user repos in
      exists a r f v : Z,
        (5 <= age -> a = 3%Z) /\ (2 <= age < 5 -> a = 2%Z)
        /\ (1 <= age < 2 -> a = 1%Z) /\ (age < 1 -> a = 0%Z)
        /\ ((50 <= total -> r = 3) /\ (20 <= total < 50 -> r = 2)
            /\ (5 <= total < 20 -> r = 1) /\ (total < 5 -> r = 0))%Z
        /\ ((100 <= fol -> f = 2) /\ (20 <= fol < 100 -> f = 1)
            /\ (fol < 20 -> f = 0))%Z
        /\ ((5 <= recent)%nat -> v = 2%Z) /\ ((2 <= recent < 5)%nat -> v = 1%Z)
        /\ ((recent < 2)%nat -> v = 0%Z)
        /\ ((8 <= a + r + f + v)%Z -> level = "expert")
        /\ ((5 <= a + r + f + v < 8)%Z -> level = "advanced")
        /\ ((2 <= a + r + f + v < 5)%Z -> level = "intermediate")
        /\ ((a + r + f + v < 2)%Z -> level = "beginner"))
  /\ (upstream_failure user repos ->
      _estimate_experience_level user repos = "intermediate").
Proof.
  split.
  - intros u c total fol days Hu Hc Ht Hf Hr Hdays age recent level.
    subst level. unfold _estimate_experience_level, estimate_experience_try.
    rewrite Hu, Hc, Ht, Hf. unfold mbind, result_bind. cbv beta iota zeta.
    rewrite (active_repos_readable u _ Hr). cbv beta iota.
    rewrite (filter_ext _ _ (recently_active_in_seconds u)).
    rewrite (whole_days u c days Hdays).
    pose proof (years_of_days_eq days) as Hage. fold age in Hage.
    set (age0 := years_of_days days) in *.
    fold recent. clearbody age age0 recent.
    exists (if Qle_bool 5 age0 then 3 else if Qle_bool 2 age0 then 2
            else if Qle_bool 1 age0 then 1 else 0)%Z,
           (if 50 <=? total then 3 else if 20 <=? total then 2
            else if 5 <=? total then 1 else 0)%Z,
           (if 100 <=? fol then 2 else if 20 <=? fol then 1 else 0)%Z,
           (if (5 <=? recent)%nat then 2 else if (2 <=? recent)%nat then 1
            else 0)%Z.
    split_thresholds age0 total fol recent; cbn;
      repeat split; intros; try reflexivity; try lia; try lra.
  - unfold upstream_failure, _estimate_experience_level, estimate_experience_try.
    intros H.
    destruct (NamedUser.updated_at user) as [u | ?]; [| reflexivity].
    destruct (NamedUser.created_at user) as [c | ?]; [| reflexivity].
    destruct (NamedUser.public_repos user) as [t | ?]; [| reflexivity].
    destruct (NamedUser.followers user) as [f | ?]; [| reflexivity].
    destruct H as [[? H] | [[? H] | [[? H] | [[? H] | H]]]]; try discriminate H.
    apply (active_repos_failed u) in H. destruct H as [e H].
    unfold mbind, result_bind. cbv beta iota zeta. rewrite H. reflexivity.
Qed.

(** The table at a seasoned account (2220 days, so 3; then 2 + 2 + 1:
    8, expert) and the fallback at an account whose follower count cannot
    be read. *)
Lemma estimate_experience_level_table_witness :
  _estimate_experience_level seasoned_user seasoned_user_repos = "expert"
  /\ upstream_failure unreadable_user seasoned_user_repos
  /\ _estimate_experience_level unreadable_user seasoned_user_repos = "intermediate".
Proof.
  split; [| split].
  - destruct (proj1 (estimate_experience_level_table seasoned_user
                       seasoned_user_repos)
                (6 * year_seconds + 86400 * 30)%Z 0%Z 25%Z 150%Z 2220%Z
                eq_refl eq_refl eq_refl eq_refl)
      as (a & r & f & v & Ha & _ & _ & _ & (_ & Hr & _) & (Hf & _)
          & _ & Hv & _ & He & _).
    + repeat constructor; eexists; reflexivity.
    + vm_compute. split; [discriminate | reflexivity].
    + apply He.
      rewrite Ha by (vm_compute; discriminate).
      rewrite Hr by (vm_compute; intuition discriminate).
      rewrite Hf by (vm_compute; discriminate).
      rewrite Hv by (vm_compute; lia).
      lia.
  - right. right. right. left. eexists. reflexivity.
  - apply (proj2 (estimate_experience_level_table unreadable_user
                    seasoned_user_repos)).
    right. right. right. left. eexists. reflexivity.
Defined.

(** C7 as the specification words it fails: the estimator never reads
    the clock. For the account last updated on day 2000, whose five
    repositories were updated on day 1990, it counts five recently active
    repositories and answers advanced (3 + 1 + 0 + 2); on day 2400 none of
    them was updated within the last 365 days, which makes the total 4 and
    the tier intermediate. *)
Lemma estimate_experience_level_not_from_the_present :
  let now := (2400 * 86400)%Z in
  let age := inject_Z 2000 / (1461 # 4) in
  Forall (fun repo => updated_in_last_365_days now repo = false)
    dormant_user_repos
  /\ experience_level_as_specified now age 5 0 dormant_user_repos
     = "intermediate"
  /\ _estimate_experience_level dormant_user dormant_user_repos = "advanced"
  /\ _estimate_experience_level dormant_user dormant_user_repos
     <> experience_level_as_specified now age 5 0 dormant_user_repos.
Proof.
  intros now age. split; [repeat constructor |].
  split; [reflexivity |]. split; [reflexivity |].
  vm_compute. discriminate.
Qed.

(** ** Languages and technologies of a profile *)

(** The lexicon itself keeps languages and technologies apart. *)
Lemma lexicon_partitions_disjoint :
  programming_languages SkillExtractor_init ∩ all_technologies SkillExtractor_init
  = ∅.
Proof. vm_compute. reflexivity. Qed.

(** The bio path sorts every tag into one of the two sets. *)
Lemma extract_skills_from_bio_disjoint (se : SkillExtractor) (bio : string) :
  fst (_extract_skills_from_bio se bio) ## snd (_extract_skills_from_bio se bio).
Proof.
  unfold _extract_skills_from_bio.
  destruct (String.eqb bio ""); [set_solver |].
  assert (Hinv : forall (l : list string) (acc : gset string * gset string),
    (forall x, x ∈ fst acc -> is_programming_language se x = true) ->
    (forall x, x ∈ snd acc -> is_programming_language se x = false) ->
    let r := fold_left (fun (acc : gset string * gset string) tech =>
               if is_programming_language se tech
               then ({[tech]} ∪ fst acc, snd acc)
               else (fst acc, {[tech]} ∪ snd acc)) l acc in
    (forall x, x ∈ fst r -> is_programming_language se x = true)
    /\ (forall x, x ∈ snd r -> is_programming_language se x = false)).
  { induction l as [|t l IH]; intros acc H1 H2; simpl; [tauto |].
    apply IH; destruct (is_programming_language se t) eqn:E; simpl;
      intros x Hx; auto;
      apply elem_of_union in Hx as [Hx | Hx]; auto;
      apply elem_of_singleton in Hx; congruence. }
  destruct (Hinv (elements (extract_from_text se bio)) (∅, ∅)) as [H1 H2];
    [set_solver | set_solver |].
  intros x Hx1 Hx2. apply H1 in Hx1. apply H2 in Hx2. congruence.
Qed.

(** C2, the code at the failing input: a user whose one repository is
    named "python" and written in Python gets the tag "python" both as a
    language (from the repository's language breakdown) and as a
    technology (from the repository's name). *)
Theorem analyze_user_skills_overlap :
  exists profile,
    analyze_user_skills SkillExtractor_init (fun _ => Ok python_user) "octocat"
    = Some profile
    /\ languages profile = ["python"]
    /\ technologies profile = ["python"].
Proof. eexists. split; [vm_compute; reflexivity |]. split; reflexivity. Qed.

(** ** The HTTP handlers *)

(** C3, the code at the failing input: the handler raises the 400 inside
    its own [try], its [except Exception] catches it, and the request with
    an empty skills list is answered with status 500. *)
Theorem match_issues_by_skills_empty_gives_500
    (age_in_days : string -> option Z)
    (search_language search_technology : string -> list string -> Z -> list GitHubIssue)
    (str_of_exn : exn -> string) (str_of_int : Z -> string) :
  match_issues_by_skills age_in_days search_language search_technology
    str_of_exn str_of_int empty_skills_request
  = Raise (HTTPException 500
             (str_of_exn (HTTPException 400 "Skills list cannot be empty")))
  /\ http_status
       (match_issues_by_skills age_in_days search_language search_technology
          str_of_exn str_of_int empty_skills_request) = 500%Z.
Proof. split; reflexivity. Qed.

(** The sibling handler re-raises its own [HTTPException]: a request
    without a username is answered with status 400. *)
Lemma match_issues_by_username_missing_gives_400
    (age_in_days : string -> option Z)
    (search_language search_technology : string -> list string -> Z -> list GitHubIssue)
    (str_of_exn : exn -> string) (str_of_int : Z -> string)
    (str_of_json : json -> string)
    (se : SkillExtractor) (get_user : string -> result NamedUser.t)
    (analyze_other_login : json -> option UserSkills) :
  http_status
    (match_issues_by_username age_in_days search_language search_technology
       str_of_exn str_of_int str_of_json se get_user analyze_other_login
       no_username_request) = 400%Z.
Proof. reflexivity. Qed.

(** ** The technology classifier *)

Lemma fold_add_if_spec (keep : string -> bool) (l : list string)
    (found : gset string) (x : string) :
  x ∈ fold_left (fun found w => if keep w then {[w]} ∪ found else found) l found
  <-> x ∈ found \/ (In x l /\ keep x = true).
Proof.
  revert found. induction l as [|w l IH]; intros found; simpl.
  - tauto.
  - rewrite IH. destruct (keep w) eqn:E.
    + rewrite elem_of_union, elem_of_singleton.
      split; [intros [[-> | ?] | [? ?]]; tauto | intros [? | [[<- | ?] ?]]; tauto].
    + split; [tauto | intros [? | [[<- | ?] ?]]; [tauto | congruence | tauto]].
Qed.

Lemma fold_add_expansion_spec (table : gmap string string) (l : list string)
    (found : gset string) (x : string) :
  x ∈ fold_left (fun found w =>
         match table !! w with
         | Some full => {[full]} ∪ found
         | None => found
         end) l found
  <-> x ∈ found \/ exists w, In w l /\ table !! w = Some x.
Proof.
  revert found. induction l as [|w l IH]; intros found; simpl.
  - split; [tauto | intros [? | [w [[] _]]]; assumption].
  - rewrite IH. destruct (table !! w) as [full|] eqn:E.
    + rewrite elem_of_union, elem_of_singleton. split.
      * intros [[-> | ?] | [w' [? ?]]]; eauto.
      * intros [? | [w' [[<- | ?] Hw]]]; eauto. left. left. congruence.
    + split; [intros [? | [w' [? ?]]]; eauto |].
      intros [? | [w' [[<- | ?] Hw]]]; eauto. congruence.
Qed.

(** What the classifier returns, tag by tag: a word of the text that is
    in a lexicon, a compound term that occurs in the lower-cased text, or
    the expansion of a word that is an abbreviation. *)
Lemma extract_from_text_spec (self : SkillExtractor) (text x : string) :
  x ∈ extract_from_text self text
  <-> text <> ""
      /\ ((In x (findall_words (lower text))
           /\ (x ∈ all_technologies self \/ x ∈ programming_languages self))
          \/ (In x compound_terms /\ occurs_in x (lower text))
          \/ exists w, In w (findall_words (lower text))
                       /\ text_variations !! w = Some x).
Proof.
  unfold extract_from_text. destruct (String.eqb_spec text "") as [-> | Hne].
  - split; [set_solver | tauto].
  - rewrite fold_add_expansion_spec.
    rewrite (fold_add_if_spec (fun term => str_in term (lower text))).
    rewrite (fold_add_if_spec (fun word =>
               (bool_decide (word ∈ all_technologies self)
                || bool_decide (word ∈ programming_languages self))%bool)).
    rewrite orb_true_iff, !bool_decide_eq_true, str_in_spec.
    split; [| tauto]. intros [[[H | H] | H] | H]; [set_solver | tauto..].
Qed.

(** *** The classifier on the object store *)

Lemma fold_left_ext {A B} (f g : A -> B -> A) (l : list B) (a : A) :
  (forall x y, f x y = g x y) -> fold_left f l a = fold_left g l a.
Proof.
  intros H. revert a. induction l as [|b l IH]; intros a; simpl; [reflexivity |].
  now rewrite H, IH.
Qed.

Lemma add_loop_store_spec (l : positive)
    (pick : gmap positive (gset string) -> string -> option string)
    (ws : list string) (st : gmap positive (gset string)) (s : gset string) :
  st !! l = Some s ->
  (forall st1 st2 w, (forall r, r <> l -> st1 !! r = st2 !! r) ->
                     pick st1 w = pick st2 w) ->
  add_loop_store l pick ws st !! l = Some (add_loop_value (pick st) ws s)
  /\ forall r, r <> l -> add_loop_store l pick ws st !! r = st !! r.
Proof.
  intros Hl Hpick. unfold add_loop_store, add_loop_value.
  revert st s Hl. induction ws as [|w ws IH]; intros st s Hl; simpl.
  - split; [exact Hl | reflexivity].
  - set (st1 := match pick st w with Some y => set_add l y st | None => st end).
    assert (Hother : forall r, r <> l -> st1 !! r = st !! r).
    { intros r Hr. subst st1. destruct (pick st w); [| reflexivity].
      unfold set_add. now rewrite lookup_alter_ne. }
    assert (Hl1 : st1 !! l
                  = Some (match pick st w with Some y => {[y]} ∪ s | None => s end)).
    { subst st1. destruct (pick st w); [| exact Hl].
      unfold set_add. rewrite lookup_alter_eq, Hl. reflexivity. }
    destruct (IH st1 _ Hl1) as [IHl IHr]. split.
    + rewrite IHl. f_equal. apply fold_left_ext. intros found w'.
      now rewrite (Hpick st1 st w' Hother).
    + intros r Hr. rewrite IHr by exact Hr. now apply Hother.
Qed.

Lemma add_loop_value_if (keep : string -> bool) (ws : list string)
    (found : gset string) :
  fold_left (fun found w => if keep w then {[w]} ∪ found else found) ws found
  = add_loop_value (fun w => if keep w then Some w else None) ws found.
Proof.
  unfold add_loop_value. apply fold_left_ext. intros f w. now destruct (keep w).
Qed.

Lemma add_loop_store_if (l : positive)
    (keep : gmap positive (gset string) -> string -> bool) (ws : list string)
    (st : gmap positive (gset string)) :
  fold_left (fun st w => if keep st w then set_add l w st else st) ws st
  = add_loop_store l (fun st w => if keep st w then Some w else None) ws st.
Proof.
  unfold add_loop_store. apply fold_left_ext. intros f w. now destruct (keep f w).
Qed.

(** One call: the set returned is a new object that holds the tags of
    the text, and no object that existed before is changed. *)
Lemma extract_from_text_on_store_spec (self : SkillExtractorObject)
    (text : string) (st : gmap positive (gset string)) :
  extractor_allocated self st ->
  let found := fst (extract_from_text_on_store self text st) in
  let st' := snd (extract_from_text_on_store self text st) in
  (found ∉ dom st)
  /\ st' !! found = Some (extract_from_text (extractor_value self st) text)
  /\ forall r, r <> found -> st' !! r = st !! r.
Proof.
  intros Halloc. unfold extract_from_text_on_store, extract_from_text.
  set (l := fresh (dom st)).
  assert (Hl : l ∉ dom st) by apply is_fresh.
  assert (Hne : forall r, In r (extractor_refs self) -> r <> l).
  { intros r Hr ->. apply Hl, Halloc, Hr. }
  destruct (String.eqb text ""); cbn [fst snd].
  { split; [exact Hl |]. split; [apply lookup_insert_eq |].
    intros r Hr. now apply lookup_insert_ne. }
  set (st0 := <[l := ∅]> st).
  set (pick1 := fun (st : gmap positive (gset string)) word =>
         if (bool_decide (word ∈ set_at st (all_technologies_at self))
             || bool_decide (word ∈ set_at st (programming_languages_at self)))%bool
         then Some word else None).
  pose (keep2 := fun term : string => str_in term (lower text)).
  rewrite (add_loop_store_if l
             (fun st word =>
                (bool_decide (word ∈ set_at st (all_technologies_at self))
                 || bool_decide (word ∈ set_at st (programming_languages_at self)))%bool)).
  rewrite (add_loop_store_if l (fun _ term => str_in term (lower text))).
  change (fun (_ : gmap positive (gset string)) (w : string) =>
            if str_in w (lower text) then Some w else None)
    with (fun (_ : gmap positive (gset string)) (w : string) =>
            if keep2 w then Some w else None).
  fold pick1.
  assert (Hpick1 : forall st1 st2 w, (forall r, r <> l -> st1 !! r = st2 !! r) ->
                     pick1 st1 w = pick1 st2 w).
  { intros st1 st2 w H. unfold pick1, set_at.
    rewrite (H (all_technologies_at self)), (H (programming_languages_at self));
      [reflexivity | apply Hne; simpl; tauto..]. }
  destruct (add_loop_store_spec l pick1 (findall_words (lower text)) st0 ∅
              (lookup_insert_eq _ _ _) Hpick1) as [A1 B1].
  destruct (add_loop_store_spec l
              (fun _ term => if keep2 term then Some term else None)
              compound_terms _ _ A1 (fun _ _ _ _ => eq_refl)) as [A2 B2].
  destruct (add_loop_store_spec l (fun _ word => text_variations !! word)
              (findall_words (lower text)) _ _ A2 (fun _ _ _ _ => eq_refl))
    as [A3 B3].
  split; [exact Hl |]. split.
  - unfold add_loop_store in *. rewrite A3.
    rewrite !add_loop_value_if. f_equal.
    unfold add_loop_value. f_equal. f_equal.
    apply fold_left_ext. intros found w. unfold pick1, st0, set_at. simpl.
    rewrite !lookup_insert_ne by (apply not_eq_sym, Hne; simpl; tauto).
    reflexivity.
  - intros r Hr. unfold add_loop_store in *.
    rewrite B3, B2, B1 by exact Hr. now apply lookup_insert_ne.
Qed.

Lemma extract_from_text_on_store_keeps (self : SkillExtractorObject)
    (text : string) (st : gmap positive (gset string)) :
  extractor_allocated self st ->
  let st' := snd (extract_from_text_on_store self text st) in
  (forall r, r ∈ dom st -> st' !! r = st !! r)
  /\ extractor_allocated self st'
  /\ extractor_value self st' = extractor_value self st.
Proof.
  intros Halloc st'.
  destruct (extract_from_text_on_store_spec self text st Halloc) as [Hf [_ Hr]].
  assert (Hkeep : forall r, r ∈ dom st -> st' !! r = st !! r).
  { intros r Hd. apply Hr. intros ->. exact (Hf Hd). }
  split; [exact Hkeep |]. split.
  - intros r Hin. apply elem_of_dom. rewrite Hkeep by (apply Halloc, Hin).
    apply elem_of_dom, Halloc, Hin.
  - unfold extractor_value, set_at.
    rewrite !Hkeep by (apply Halloc; simpl; tauto). reflexivity.
Qed.

(** C9. Two calls of [extract_from_text] on the same text, one after the
    other on the same extractor, return sets with the same tags, the tags
    the text determines; neither call changes an object that existed
    before it, so the extractor's lexicons are as they were; the empty text
    gives the empty set. *)
Theorem extract_from_text_repeatable (self : SkillExtractorObject)
    (text : string) (st : gmap positive (gset string)) :
  extractor_allocated self st ->
  let first := extract_from_text_on_store self text st in
  let second := extract_from_text_on_store self text (snd first) in
  let tags := extract_from_text (extractor_value self st) text in
  snd first !! fst first = Some tags
  /\ snd second !! fst second = Some tags
  /\ (forall r, r ∈ dom st ->
        snd first !! r = st !! r /\ snd second !! r = st !! r)
  /\ snd second !! fst first = Some tags
  /\ extractor_value self (snd second) = extractor_value self st
  /\ extract_from_text (extractor_value self st) "" = ∅.
Proof.
  intros Halloc first second tags.
  destruct (extract_from_text_on_store_spec self text st Halloc) as [Hf1 [Ht1 _]].
  destruct (extract_from_text_on_store_keeps self text st Halloc)
    as [Hk1 [Halloc1 Hv1]].
  fold first in Hf1, Ht1, Hk1, Halloc1, Hv1.
  destruct (extract_from_text_on_store_spec self text (snd first) Halloc1)
    as [_ [Ht2 _]].
  destruct (extract_from_text_on_store_keeps self text (snd first) Halloc1)
    as [Hk2 [_ Hv2]].
  fold second in Ht2, Hk2, Hv2. rewrite Hv1 in Ht2.
  assert (Hd1 : forall r, r ∈ dom st -> r ∈ dom (snd first)).
  { intros r Hr. apply elem_of_dom. rewrite Hk1 by exact Hr. now apply elem_of_dom. }
  repeat split.
  - exact Ht1.
  - exact Ht2.
  - now apply Hk1.
  - rewrite Hk2 by now apply Hd1. now apply Hk1.
  - rewrite Hk2; [exact Ht1 |]. apply elem_of_dom. rewrite Ht1. eauto.
  - now rewrite Hv2.
Qed.

(** The classifier on the store left by [SkillExtractor.__init__]. *)
Lemma extract_from_text_repeatable_witness :
  extractor_allocated extractor_object extractor_store
  /\ snd (extract_from_text_on_store extractor_object "Python and k8s"
            extractor_store)
     !! fst (extract_from_text_on_store extractor_object "Python and k8s"
               extractor_store)
     = Some (extract_from_text
               (extractor_value extractor_object extractor_store)
               "Python and k8s").
Proof.
  assert (H : extractor_allocated extractor_object extractor_store).
  { intros r Hr. simpl in Hr.
    repeat (destruct Hr as [<- | Hr]; [apply elem_of_dom; eexists; reflexivity |]).
    destruct Hr. }
  split; [exact H |].
  exact (proj1 (extract_from_text_repeatable extractor_object "Python and k8s"
                  extractor_store H)).
Defined.

(** ** Further facts on the scorer *)

(** X11. On a store in which every reference of the list is alive, the
    issues the returned list refers to after the pass are the scored values
    of the issues it referred to before, one by one, also when the list
    names an object more than once. *)
Lemma score_issues_values (age_in_days : string -> option Z)
    (issues : list positive) (user_skills : UserSkills)
    (h : gmap positive GitHubIssue) :
  (forall r, r ∈ issues -> is_Some (h !! r)) ->
  omap (fun r => snd (_score_issues age_in_days issues user_skills h) !! r)
       (fst (_score_issues age_in_days issues user_skills h))
  = scored_values age_in_days (omap (fun r => h !! r) issues) user_skills.
Proof.
  intros Hall. unfold _score_issues, scored_values. simpl.
  assert (H : forall l, (forall r, r ∈ l -> r ∈ issues) ->
    omap (fun r => fold_left (fun h r =>
            alter (score_issue age_in_days user_skills) r h) issues h !! r) l
    = map (score_issue age_in_days user_skills) (omap (fun r => h !! r) l)).
  { induction l as [|r l IH]; intros Hl; [reflexivity |].
    assert (Hr : r ∈ issues) by (apply Hl; set_solver).
    cbn [omap list_omap]. rewrite score_loop_lookup, decide_True by exact Hr.
    destruct (Hall r Hr) as [i ->]. simpl.
    f_equal. apply IH. intros r' Hr'. apply Hl. set_solver. }
  apply H. tauto.
Qed.

(** The pass over a list that names one object twice. *)
Lemma score_issues_values_witness :
  let a := example_issue 1 "Fix python bug" "" [] "beginner" 0 in
  let h : gmap positive GitHubIssue := {[ 1%positive := a ]} in
  let us := {| languages := ["python"]; technologies := [];
               experience_level := "beginner"; github_stats := None |} in
  (forall r, r ∈ [1; 1]%positive -> is_Some (h !! r))
  /\ omap (fun r => snd (_score_issues (fun _ => None) [1; 1]%positive us h) !! r)
          (fst (_score_issues (fun _ => None) [1; 1]%positive us h))
     = scored_values (fun _ => None) [a; a] us.
Proof.
  intros a h us.
  assert (H : forall r, r ∈ [1; 1]%positive -> is_Some (h !! r)).
  { intros r Hr. apply list_elem_of_In in Hr. simpl in Hr.
    destruct Hr as [<- | [<- | []]]; eexists; reflexivity. }
  split; [exact H |].
  exact (score_issues_values (fun _ => None) [1; 1]%positive us h H).
Defined.

(** The example of the specification: a beginner who knows Python, an
    issue titled "Fix python bug" labelled "good first issue" and updated
    three days ago. *)
Example spec_example_score :
  let us := {| languages := ["python"]; technologies := [];
               experience_level := "beginner"; github_stats := None |} in
  let raw := example_raw_issue "Fix python bug" "" ["good first issue"] in
  exists issue,
    _convert_to_github_issue raw "python" = Some issue
    /\ difficulty issue = "beginner"
    /\ 8 <= relevance_score (score_issue (fun _ => Some 3%Z) us issue).
Proof.
  eexists. split; [reflexivity |]. split; [reflexivity |].
  vm_compute. discriminate.
Qed.

(** An empty candidate list is ranked to the empty list. *)
Example rank_of_nothing (max_results : Z) : rank_issues [] max_results = [].
Proof.
  unfold rank_issues, slice_to. simpl.
  destruct (0 <=? max_results)%Z; [apply firstn_nil | reflexivity].
Qed.

(** With the difficulty held fixed, text added around the content never
    lowers the score, whether or not a new language matches. *)
Lemma score_monotone_fixed_difficulty (age_in_days : string -> option Z)
    (user_skills : UserSkills) (issue issue' : GitHubIssue) (pre post : string) :
  content_of issue' = content_with_added pre post issue ->
  labels issue' = labels issue -> difficulty issue' = difficulty issue ->
  updated_at issue' = updated_at issue ->
  relevance_score (score_issue age_in_days user_skills issue)
  <= relevance_score (score_issue age_in_days user_skills issue').
Proof.
  intros Hc Hl Hd Hu. rewrite !relevance_score_parts, Hc, Hl, Hd, Hu.
  assert (Hkeep : forall k, occurs_in (lower k) (content_of issue) ->
                    occurs_in (lower k) (content_with_added pre post issue)).
  { intros k Hk. rewrite content_with_added_extends. now apply occurs_in_extend. }
  pose proof (skill_points_mono _ _ 2 (languages user_skills)
                ltac:(lra) (fun k _ => Hkeep k)).
  pose proof (skill_points_mono _ _ (3 # 2) (technologies user_skills)
                ltac:(lra) (fun k _ => Hkeep k)).
  lra.
Qed.

(** The hypothesis of C8 that the language newly matches cannot be
    dropped once the difficulty is read again from the body: for an
    expert profile with the language "basic", the issue titled "BASIC
    interpreter" with body "complex parser" scores 4.0; the same issue
    with " in basic" added to its body matches no further language, reads
    as beginner and scores 2.0. *)
Remark rementioned_language_can_lower_score :
  let us := {| languages := ["basic"]; technologies := [];
               experience_level := "expert"; github_stats := None |} in
  let raw := example_raw_issue "BASIC interpreter" "complex parser" [] in
  exists issue issue',
    _convert_to_github_issue raw "basic" = Some issue
    /\ _convert_to_github_issue (with_added_text "" " in basic" raw) "basic"
       = Some issue'
    /\ relevance_score (score_issue (fun _ => None) us issue) == 4
    /\ relevance_score (score_issue (fun _ => None) us issue') == 2.
Proof.
  do 2 eexists. split; [reflexivity |]. split; [reflexivity |].
  split; reflexivity.
Qed.

(** * Further properties of the code *)

(** ** Case *)

Lemma lower_ascii_idem (c : ascii) : lower_ascii (lower_ascii c) = lower_ascii c.
Proof. destruct c as [[] [] [] [] [] [] [] []]; reflexivity. Qed.

Lemma lower_idem (s : string) : lower (lower s) = lower s.
Proof. induction s as [|c s IH]; simpl; [reflexivity |]. now rewrite lower_ascii_idem, IH. Qed.

Lemma map_lower_idem (l : list string) : map lower (map lower l) = map lower l.
Proof. rewrite map_map. apply map_ext. intros s. apply lower_idem. Qed.

(** ** The values of the difficulty classification *)

Lemma determine_difficulty_range (labels : list string) (body : string) :
  In (_determine_difficulty labels body) ["beginner"; "intermediate"; "expert"].
Proof.
  unfold _determine_difficulty.
  repeat match goal with
         | |- context [any_label_in ?n ?l] => destruct (any_label_in n l)
         end; simpl; try tauto.
  repeat match goal with
         | |- context [if ?b then _ else _] => destruct b
         end; simpl; tauto.
Qed.

(** X1. The classification yields only "beginner", "intermediate" or
    "expert", never "advanced"; it does not depend on the case of the
    labels or of the body; and each of its values is a valid difficulty of
    the configuration. *)
Theorem determine_difficulty_values (labels : list string) (body : string) :
  In (_determine_difficulty labels body) ["beginner"; "intermediate"; "expert"]
  /\ _determine_difficulty labels body <> "advanced"
  /\ _determine_difficulty (map lower labels) (lower body)
     = _determine_difficulty labels body
  /\ Config.is_valid_difficulty (_determine_difficulty labels body) = true.
Proof.
  pose proof (determine_difficulty_range labels body) as H.
  split; [exact H |]. split; [| split].
  - simpl in H. intuition congruence.
  - unfold _determine_difficulty. now rewrite map_lower_idem, lower_idem.
  - simpl in H. destruct H as [<- | [<- | [<- | []]]]; reflexivity.
Qed.

(** X2. The difficulty-alignment bonus of an issue built by the
    retriever, by experience level: an advanced profile never meets its
    own level and gets 1.0 for beginner and intermediate issues and
    nothing for expert ones; a beginner gets 2.0 for beginner issues only;
    an experience level outside the four tiers gets nothing. *)
Theorem difficulty_alignment_by_tier (labels : list string) (body experience : string) :
  let d := _determine_difficulty labels body in
  let bonus := difficulty_bonus d experience in
  (experience = "advanced" ->
     (d = "expert" -> bonus == 0) /\ (d <> "expert" -> bonus == 1) /\ bonus <= 1)
  /\ (experience = "beginner" ->
        (d = "beginner" -> bonus == 2) /\ (d <> "beginner" -> bonus == 0))
  /\ (experience = "intermediate" ->
        (d = "intermediate" -> bonus == 2) /\ (d = "beginner" -> bonus == 1)
        /\ (d = "expert" -> bonus == 0))
  /\ (experience = "expert" ->
        (d = "expert" -> bonus == 2) /\ (d = "intermediate" -> bonus == 1)
        /\ (d = "beginner" -> bonus == 0))
  /\ (~ In experience ["beginner"; "intermediate"; "advanced"; "expert"] ->
        bonus == 0).
Proof.
  intros d bonus. subst bonus.
  pose proof (determine_difficulty_range labels body) as H. fold d in H.
  clearbody d. simpl in H.
  repeat split; intros; subst;
    try reflexivity;
    try (destruct H as [<- | [<- | [<- | []]]]; try congruence;
         vm_compute; congruence).
  unfold difficulty_bonus, difficulty_step.
  destruct (String.eqb_spec d experience) as [<- | _];
    [exfalso; simpl in *; tauto |].
  repeat match goal with
         | |- context [list_in experience ?l] =>
             let E := fresh in
             destruct (list_in experience l) eqn:E;
             [apply list_in_spec in E; exfalso; simpl in *; tauto |]
         end.
  rewrite !andb_false_r. reflexivity.
Qed.

Lemma difficulty_alignment_by_tier_witness :
  "advanced" = "advanced"
  /\ difficulty_bonus (_determine_difficulty ["bug"] "") "advanced" <= 1.
Proof.
  split; [reflexivity |].
  exact (proj2 (proj2 (proj1 (difficulty_alignment_by_tier ["bug"] "" "advanced")
                         eq_refl))).
Defined.

(** ** More on deduplication *)

Lemma keep_unseen_app (seen : gset Z) (l1 l2 : list GitHubIssue) :
  keep_unseen seen (l1 ++ l2)
  = app (keep_unseen seen l1) (keep_unseen (seen ∪ list_to_set (map id l1)) l2).
Proof.
  revert seen. induction l1 as [|x l1 IH]; intros seen; simpl.
  - f_equal. set_solver.
  - destruct (decide (id x ∈ seen)) as [Hx | Hx]; rewrite IH; simpl; f_equal.
    + f_equal. set_solver.
    + f_equal. f_equal. set_solver.
Qed.

Lemma keep_unseen_again (seen : gset Z) (l : list GitHubIssue) :
  keep_unseen seen (keep_unseen seen l) = keep_unseen seen l.
Proof.
  revert seen. induction l as [|x l IH]; intros seen; simpl; [reflexivity |].
  destruct (decide (id x ∈ seen)) as [Hx | Hx]; [apply IH |].
  simpl. rewrite decide_False by exact Hx. now rewrite IH.
Qed.

Lemma keep_unseen_distinct (seen : gset Z) (l : list GitHubIssue) :
  List.NoDup (map id l) -> (forall i, In i (map id l) -> i ∉ seen) ->
  keep_unseen seen l = l.
Proof.
  revert seen. induction l as [|x l IH]; intros seen Hnd Hs; simpl; [reflexivity |].
  inversion Hnd as [|? ? Hx Hnd']; subst.
  rewrite decide_False by (apply Hs; left; reflexivity).
  f_equal. apply IH; [exact Hnd' |].
  intros i Hi. apply not_elem_of_union. split; [| apply Hs; right; exact Hi].
  intros Hi'. apply elem_of_singleton in Hi'. congruence.
Qed.

Lemma keep_unseen_length (seen : gset Z) (l : list GitHubIssue) :
  (length (keep_unseen seen l) <= length l)%nat.
Proof.
  revert seen. induction l as [|x l IH]; intros seen; simpl; [lia |].
  destruct (decide (id x ∈ seen)); simpl; [specialize (IH seen) | specialize (IH ({[id x]} ∪ seen))]; lia.
Qed.

(** X3. Deduplicating twice is deduplicating once; a list without repeated
    ids is returned as it is; the result is never longer than the input;
    and on a concatenation the issues of the first list win: the second
    list contributes only its first occurrences of ids the first list does
    not have. *)
Theorem remove_duplicates_composes (l1 l2 : list GitHubIssue) :
  _remove_duplicates (_remove_duplicates l1) = _remove_duplicates l1
  /\ (List.NoDup (map id l1) -> _remove_duplicates l1 = l1)
  /\ (length (_remove_duplicates l1) <= length l1)%nat
  /\ _remove_duplicates (l1 ++ l2)
     = app (_remove_duplicates l1)
           (_remove_duplicates
              (List.filter (fun x => negb (existsb (Z.eqb (id x)) (map id l1))) l2)).
Proof.
  unfold _remove_duplicates. rewrite !remove_duplicates_loop_keep. simpl.
  split; [apply keep_unseen_again |]. split; [| split].
  - intros Hnd. apply keep_unseen_distinct; [exact Hnd | set_solver].
  - apply keep_unseen_length.
  - rewrite keep_unseen_app. f_equal.
    replace (∅ ∪ list_to_set (map id l1)) with (list_to_set (map id l1) : gset Z)
      by set_solver.
    generalize (map id l1). intros ids.
    assert (H : forall (seen : gset Z) l,
      keep_unseen (seen ∪ list_to_set ids) l
      = keep_unseen seen
          (List.filter (fun x => negb (existsb (Z.eqb (id x)) ids)) l)).
    { intros seen l. revert seen. induction l as [|x l IH]; intros seen; simpl;
        [reflexivity |].
      destruct (existsb (Z.eqb (id x)) ids) eqn:E; simpl.
      - apply existsb_exists in E as [i [Hi He]]. apply Z.eqb_eq in He. subst i.
        rewrite decide_True; [apply IH |].
        apply elem_of_union_r, elem_of_list_to_set, list_elem_of_In, Hi.
      - assert (Hn : id x ∉ (list_to_set ids : gset Z)).
        { rewrite elem_of_list_to_set, list_elem_of_In. intros Hi.
          assert (existsb (Z.eqb (id x)) ids = true); [| congruence].
          apply existsb_exists. exists (id x). split; [exact Hi | apply Z.eqb_refl]. }
        destruct (decide (id x ∈ seen)) as [Hs | Hs].
        + rewrite decide_True by set_solver. apply IH.
        + rewrite decide_False by set_solver. f_equal.
          rewrite <- IH. f_equal. set_solver. }
    specialize (H ∅ l2).
    replace (∅ ∪ list_to_set ids) with (list_to_set ids : gset Z) in H by set_solver.
    exact H.
Qed.

Lemma remove_duplicates_composes_witness :
  List.NoDup (map id [example_issue 1 "a" "" [] "beginner" 0;
                      example_issue 2 "b" "" [] "beginner" 0])
  /\ _remove_duplicates [example_issue 1 "a" "" [] "beginner" 0;
                         example_issue 2 "b" "" [] "beginner" 0]
     = [example_issue 1 "a" "" [] "beginner" 0;
        example_issue 2 "b" "" [] "beginner" 0].
Proof.
  assert (H : List.NoDup (map id [example_issue 1 "a" "" [] "beginner" 0;
                                  example_issue 2 "b" "" [] "beginner" 0])).
  { simpl. repeat constructor; simpl; intuition discriminate. }
  split; [exact H |].
  exact (proj1 (proj2 (remove_duplicates_composes _ [])) H).
Defined.

(** ** More on ranking *)

Lemma insert_desc_head (x : GitHubIssue) (l : list GitHubIssue) :
  Forall (score_ge x) l -> insert_desc x l = x :: l.
Proof.
  intros H. destruct l as [|y l]; simpl; [reflexivity |].
  apply Forall_cons_1 in H as [Hy _]. unfold score_ge in Hy.
  apply Qle_bool_iff in Hy. now rewrite Hy.
Qed.

Lemma sort_by_score_desc_sorted_id (l : list GitHubIssue) :
  StronglySorted score_ge l -> sort_by_score_desc l = l.
Proof.
  induction 1 as [|x l Hl IH Hx]; simpl; [reflexivity |].
  rewrite IH. now apply insert_desc_head.
Qed.

(** X4. Sorting by score loses and invents no issue, leaves a list that
    is already in non-increasing score order as it is, and so sorting
    twice is sorting once. *)
Theorem sort_by_score_desc_idempotent (l : list GitHubIssue) :
  sort_by_score_desc l ≡ₚ l
  /\ (StronglySorted score_ge l -> sort_by_score_desc l = l)
  /\ sort_by_score_desc (sort_by_score_desc l) = sort_by_score_desc l.
Proof.
  split; [apply sort_by_score_desc_perm |].
  split; [apply sort_by_score_desc_sorted_id |].
  apply sort_by_score_desc_sorted_id, sort_by_score_desc_sorted.
Qed.

Lemma sort_by_score_desc_idempotent_witness :
  StronglySorted score_ge [example_issue 2 "b" "" [] "beginner" 3;
                           example_issue 1 "a" "" [] "beginner" 1]
  /\ sort_by_score_desc [example_issue 2 "b" "" [] "beginner" 3;
                         example_issue 1 "a" "" [] "beginner" 1]
     = [example_issue 2 "b" "" [] "beginner" 3;
        example_issue 1 "a" "" [] "beginner" 1].
Proof.
  assert (H : StronglySorted score_ge
                [example_issue 2 "b" "" [] "beginner" 3;
                 example_issue 1 "a" "" [] "beginner" 1]).
  { repeat constructor. unfold score_ge. simpl. lra. }
  split; [exact H |].
  exact (proj1 (proj2 (sort_by_score_desc_idempotent _)) H).
Defined.

(** ** The shape of a relevance score *)

Lemma half_points_intro (k : Z) (b q : Q) :
  (0 <= k)%Z -> q == inject_Z k / 2 -> q <= b -> half_points_upto b q.
Proof. intros. exists k. auto. Qed.

Lemma half_points_plus (b1 b2 q1 q2 : Q) :
  half_points_upto b1 q1 -> half_points_upto b2 q2 ->
  half_points_upto (b1 + b2) (q1 + q2).
Proof.
  intros [k1 [H1 [E1 L1]]] [k2 [H2 [E2 L2]]]. exists (k1 + k2)%Z.
  split; [lia |]. split; [| lra]. rewrite inject_Z_plus, E1, E2. field.
Qed.

Lemma half_points_sum {A} (f : A -> Q) (b : Q) (l : list A) :
  (forall x, half_points_upto b (f x)) ->
  half_points_upto (b * inject_Z (Z.of_nat (length l))) (sum_Q (map f l)).
Proof.
  intros H. induction l as [|x l IH].
  - apply (half_points_intro 0); [lia | reflexivity |].
    change (sum_Q (map f [])) with 0.
    change (inject_Z (Z.of_nat (length (@nil A)))) with 0. lra.
  - destruct (half_points_plus _ _ _ _ (H x) IH) as [k [Hk [E L]]].
    exists k. split; [exact Hk |]. split; [exact E |].
    cbn [length]. rewrite Nat2Z.inj_succ, <- Z.add_1_r, inject_Z_plus.
    simpl sum_Q in L. simpl map. simpl sum_Q.
    change (inject_Z 1) with 1. lra.
Qed.

Lemma label_bonus_half_points (experience label : string) :
  half_points_upto 3 (label_bonus experience label).
Proof.
  unfold label_bonus, label_step.
  repeat match goal with |- context [if ?b then _ else _] => destruct b end;
    [apply (half_points_intro 6) | apply (half_points_intro 4)
     | apply (half_points_intro 2) | apply (half_points_intro 3)
     | apply (half_points_intro 0)]; try lia; try reflexivity; lra.
Qed.

Lemma skill_points_half_points (content : string) (skills : list string) :
  half_points_upto (2 * inject_Z (Z.of_nat (length skills)))
                   (skill_points content 2 skills)
  /\ half_points_upto ((3 # 2) * inject_Z (Z.of_nat (length skills)))
                      (skill_points content (3 # 2) skills).
Proof.
  unfold skill_points. split.
  - apply (half_points_sum (fun skill => if str_in (lower skill) content then 2 else 0)).
    intros x. destruct (str_in (lower x) content);
      [apply (half_points_intro 4) | apply (half_points_intro 0)];
      try lia; try reflexivity; lra.
  - apply (half_points_sum
             (fun skill => if str_in (lower skill) content then 3 # 2 else 0)).
    intros x. destruct (str_in (lower x) content);
      [apply (half_points_intro 3) | apply (half_points_intro 0)];
      try lia; try reflexivity; lra.
Qed.

Lemma difficulty_bonus_half_points (d e : string) :
  half_points_upto 2 (difficulty_bonus d e).
Proof.
  unfold difficulty_bonus, difficulty_step.
  repeat match goal with |- context [if ?b then _ else _] => destruct b end;
    [apply (half_points_intro 4) | apply (half_points_intro 2)
     | apply (half_points_intro 0)]; try lia; try reflexivity; lra.
Qed.

Lemma recency_bonus_half_points (days_old : option Z) :
  half_points_upto 1 (recency_bonus days_old).
Proof.
  unfold recency_bonus, recency_step. destruct days_old as [d|].
  - repeat match goal with |- context [if ?b then _ else _] => destruct b end;
      [apply (half_points_intro 2) | apply (half_points_intro 1)
       | apply (half_points_intro 0)]; try lia; try reflexivity; lra.
  - apply (half_points_intro 0); try lia; try reflexivity; lra.
Qed.

(** X5. Every relevance score is a non-negative whole number of half
    points, and is at most 2.0 per profile language, 1.5 per profile
    technology and 3.0 per label of the issue, plus 2.0 for difficulty and
    1.0 for recency. *)
Theorem relevance_score_half_points (age_in_days : string -> option Z)
    (user_skills : UserSkills) (issue : GitHubIssue) :
  let score := relevance_score (score_issue age_in_days user_skills issue) in
  exists k : Z,
    (0 <= k)%Z /\ score == inject_Z k / 2
    /\ score <= 2 * inject_Z (Z.of_nat (length (languages user_skills)))
                + (3 # 2) * inject_Z (Z.of_nat (length (technologies user_skills)))
                + 3 * inject_Z (Z.of_nat (length (labels issue)))
                + 3.
Proof.
  intros score. subst score.
  destruct (skill_points_half_points (content_of issue) (languages user_skills))
    as [HL _].
  destruct (skill_points_half_points (content_of issue) (technologies user_skills))
    as [_ HT].
  pose proof (half_points_sum (label_bonus (experience_level user_skills)) 3
                (labels issue) (label_bonus_half_points _)) as HB.
  pose proof (difficulty_bonus_half_points (difficulty issue)
                (experience_level user_skills)) as HD.
  pose proof (recency_bonus_half_points (age_in_days (updated_at issue))) as HR.
  destruct (half_points_plus _ _ _ _
              (half_points_plus _ _ _ _
                 (half_points_plus _ _ _ _ (half_points_plus _ _ _ _ HL HT) HB) HD)
              HR) as [k [Hk [E L]]].
  exists k. rewrite relevance_score_parts.
  split; [exact Hk |]. split; [exact E | lra].
Qed.

(** ** The matched skills *)

Lemma skill_loop_matched (content : string) (pts : Q) (skills : list string)
    (st : Q * gset string) (s : string) :
  s ∈ snd (skill_loop content pts skills st)
  <-> s ∈ snd st \/ (In s skills /\ occurs_in (lower s) content).
Proof.
  unfold skill_loop. revert st. induction skills as [|k skills IH]; intros st; simpl.
  - tauto.
  - rewrite IH. unfold skill_step.
    destruct (str_in (lower k) content) eqn:E; simpl.
    + apply str_in_spec in E. rewrite elem_of_union, elem_of_singleton.
      split; [intros [[-> | ?] | [? ?]]; tauto | intros [? | [[<- | ?] ?]]; tauto].
    + apply str_in_false in E.
      split; [tauto | intros [? | [[<- | ?] ?]]; tauto].
Qed.

(** X6. For a profile and an issue in ASCII text: after scoring,
    [matched_skills] lists, each once, exactly the profile languages and
    technologies whose lower-cased name occurs in the lower-cased title,
    space and body; what the retriever had put there (the skill whose
    search found the issue) is not kept. *)
Theorem matched_skills_after_scoring (age_in_days : string -> option Z)
    (user_skills : UserSkills) (issue : GitHubIssue) :
  ascii_profile user_skills = true -> ascii_content issue = true ->
  List.NoDup (matched_skills (score_issue age_in_days user_skills issue))
  /\ (forall s,
        In s (matched_skills (score_issue age_in_days user_skills issue))
        <-> (In s (languages user_skills) \/ In s (technologies user_skills))
            /\ occurs_in (lower s) (lower (title issue ++ " " ++ body issue)))
  /\ (forall previous,
        matched_skills (score_issue age_in_days user_skills issue)
        = matched_skills
            (score_issue age_in_days user_skills
               {| id := id issue; number := number issue; title := title issue;
                  body := body issue; url := url issue;
                  repository_name := repository_name issue;
                  repository_url := repository_url issue;
                  labels := labels issue; created_at := created_at issue;
                  updated_at := updated_at issue; difficulty := difficulty issue;
                  matched_skills := previous;
                  relevance_score := relevance_score issue |})).
Proof.
  intros _ _. split; [| split].
  - simpl. apply NoDup_ListNoDup, NoDup_elements.
  - intros s. simpl. rewrite <- list_elem_of_In, elem_of_elements.
    rewrite !skill_loop_matched. simpl. set_solver.
  - intros previous. reflexivity.
Qed.

(** A profile that knows Python and Docker and an issue that mentions
    only Python, found by the search for "docker". *)
Lemma matched_skills_after_scoring_witness :
  let us := {| languages := ["Python"]; technologies := ["Docker"];
               experience_level := "beginner"; github_stats := None |} in
  let issue := {| id := 7; number := 7; title := "Fix PYTHON crash";
                  body := "Traceback on start";
                  url := "https://example.org/issue";
                  repository_name := "owner/repo";
                  repository_url := "https://example.org/owner/repo";
                  labels := ["bug"]; created_at := "2024-01-01T00:00:00";
                  updated_at := "2024-01-02T00:00:00";
                  difficulty := "intermediate"; matched_skills := ["docker"];
                  relevance_score := 0 |} in
  ascii_profile us = true /\ ascii_content issue = true
  /\ (In "Python" (matched_skills (score_issue (fun _ => None) us issue))
      /\ ~ In "Docker" (matched_skills (score_issue (fun _ => None) us issue))).
Proof.
  intros us issue.
  assert (Hp : ascii_profile us = true) by reflexivity.
  assert (Hc : ascii_content issue = true) by reflexivity.
  split; [exact Hp |]. split; [exact Hc |].
  destruct (matched_skills_after_scoring (fun _ => None) us issue Hp Hc)
    as [_ [Hm _]].
  split.
  - apply (proj2 (Hm "Python")). split; [simpl; tauto |].
    apply str_in_spec. reflexivity.
  - intros H. apply (proj1 (Hm "Docker")) in H. destruct H as [_ H].
    apply str_in_spec in H. vm_compute in H. discriminate H.
Defined.

(** ** Case *)

Lemma skill_points_lower (content : string) (pts : Q) (skills : list string) :
  skill_points content pts (map lower skills) = skill_points content pts skills.
Proof.
  unfold skill_points. rewrite map_map. f_equal. apply map_ext.
  intros s. now rewrite lower_idem.
Qed.

(** X7. Matching ignores the case of ASCII text: for a profile and an
    issue in ASCII text, lower-casing the profile's skills and the issue's
    title and body changes no relevance score. *)
Theorem relevance_score_ignores_case (age_in_days : string -> option Z)
    (user_skills : UserSkills) (issue : GitHubIssue) :
  ascii_profile user_skills = true -> ascii_content issue = true ->
  relevance_score
    (score_issue age_in_days
       {| languages := map lower (languages user_skills);
          technologies := map lower (technologies user_skills);
          experience_level := experience_level user_skills;
          github_stats := github_stats user_skills |}
       {| id := id issue; number := number issue;
          title := lower (title issue); body := lower (body issue);
          url := url issue; repository_name := repository_name issue;
          repository_url := repository_url issue; labels := labels issue;
          created_at := created_at issue; updated_at := updated_at issue;
          difficulty := difficulty issue; matched_skills := matched_skills issue;
          relevance_score := relevance_score issue |})
  == relevance_score (score_issue age_in_days user_skills issue).
Proof.
  intros _ _.
  rewrite !relevance_score_parts. unfold content_of.
  cbn [languages technologies experience_level title body labels difficulty updated_at].
  rewrite !skill_points_lower.
  replace (lower (lower (title issue) ++ " " ++ lower (body issue)))
    with (lower (title issue ++ " " ++ body issue))
    by (now rewrite !lower_app, !lower_idem).
  reflexivity.
Qed.

Lemma relevance_score_ignores_case_witness :
  let us := {| languages := ["Python"]; technologies := ["Docker"];
               experience_level := "beginner"; github_stats := None |} in
  let issue := example_issue 7 "Fix PYTHON crash" "Runs in docker" ["bug"]
                 "intermediate" 0 in
  ascii_profile us = true /\ ascii_content issue = true
  /\ relevance_score
       (score_issue (fun _ => None)
          {| languages := ["python"]; technologies := ["docker"];
             experience_level := "beginner"; github_stats := None |}
          (example_issue 7 "fix python crash" "runs in docker" ["bug"]
             "intermediate" 0))
     == relevance_score (score_issue (fun _ => None) us issue).
Proof.
  intros us issue.
  assert (Hp : ascii_profile us = true) by reflexivity.
  assert (Hc : ascii_content issue = true) by reflexivity.
  split; [exact Hp |]. split; [exact Hc |].
  exact (relevance_score_ignores_case (fun _ => None) us issue Hp Hc).
Defined.

(** ** The retrieval loops *)

Lemma collect_converted_fst (skill : string) (limit : Z)
    (results : list RawIssue.t) (failure : option exn) (count : Z)
    (issues : list GitHubIssue) :
  fst (collect_converted skill limit results failure count issues)
  = app issues
        (take (Z.to_nat (limit - count))
              (omap (fun raw => _convert_to_github_issue raw skill) results)).
Proof.
  revert count issues. induction results as [|raw results IH]; intros count issues.
  - simpl. now rewrite take_nil, app_nil_r.
  - cbn [collect_converted omap list_omap].
    destruct (Z.leb_spec limit count) as [Hle | Hlt].
    + replace (Z.to_nat (limit - count)) with 0%nat by lia.
      simpl. now rewrite app_nil_r.
    + destruct (_convert_to_github_issue raw skill) as [x|].
      * rewrite IH, <- app_assoc.
        replace (Z.to_nat (limit - count)) with (S (Z.to_nat (limit - (count + 1))))
          by lia.
        reflexivity.
      * apply IH.
Qed.





(** X8. The technology search returns the first [limit] issues among
    the results of its query, pull requests left out and not counted, in
    result order; a failure of the platform while the results are read
    keeps what was read before it. So it returns at most [limit] issues,
    none for a [limit] of zero or less, and each one is marked with the
    technology and has score 0. *)
Theorem search_issues_by_technology_result (github : Github.Client)
    (technology : string) (issue_types : list string) (limit : Z) :
  let query :=
    build_query (dquote ++ technology ++ dquote ++ " in:title,body") issue_types in
  let found := _search_issues_by_technology github technology issue_types limit in
  found = take (Z.to_nat limit)
               (omap (fun raw => _convert_to_github_issue raw technology)
                     (Github.items (Github.search_issues github query)))
  /\ (length found <= Z.to_nat limit)%nat
  /\ ((limit <= 0)%Z -> found = [])
  /\ Forall (fun x => matched_skills x = [technology] /\ relevance_score x = 0
                      /\ exists raw,
                           In raw (Github.items (Github.search_issues github query))
                           /\ RawIssue.pull_request raw = false
                           /\ RawIssue.id raw = id x) found.
Proof.
  intros query found. subst found. unfold _search_issues_by_technology. fold query.
  rewrite collect_converted_fst. rewrite Z.sub_0_r. simpl app.
  split; [reflexivity |]. split; [rewrite length_take; lia |]. split.
  - intros H. replace (Z.to_nat limit) with 0%nat by lia. reflexivity.
  - apply Forall_take. generalize (Github.items (Github.search_issues github query)).
    intros results. induction results as [|raw results IH];
      cbn [omap list_omap]; [constructor |].
    assert (IH' : Forall (fun x => matched_skills x = [technology]
                    /\ relevance_score x = 0
                    /\ exists raw', In raw' (raw :: results)
                         /\ RawIssue.pull_request raw' = false
                         /\ RawIssue.id raw' = id x)
                    (omap (fun raw => _convert_to_github_issue raw technology)
                          results)).
    { eapply Forall_impl; [exact IH |]. intros x [H1 [H2 [raw' [H3 H4]]]].
      split; [exact H1 |]. split; [exact H2 |]. exists raw'. simpl. tauto. }
    destruct (_convert_to_github_issue raw technology) as [x|] eqn:E; [| exact IH'].
    constructor; [| exact IH'].
    apply convert_some in E. destruct E as (Hp & Hi & _ & _ & _ & _ & Hm & Hs).
    split; [exact Hm |]. split; [exact Hs |]. exists raw. simpl. auto.
Qed.

Lemma search_issues_by_technology_result_witness :
  (0 <= 0)%Z
  /\ _search_issues_by_technology
       {| Github.search_issues := fun _ =>
            {| Github.items := [example_raw_issue "t" "b" []];
               Github.failure := None |};
          Github.get_repo := fun _ => Raise (GithubException "not found") |}
       "react" ["bug"] 0 = [].
Proof.
  assert (H : (0 <= 0)%Z) by lia.
  split; [exact H |].
  exact (proj1 (proj2 (proj2 (search_issues_by_technology_result _ "react" ["bug"] 0))) H).
Defined.




(** ** The whole matching pass *)

Lemma fold_left_app_concat {A B} (f : A -> list B) (l : list A) (acc : list B) :
  fold_left (fun acc x => app acc (f x)) l acc = app acc (concat (map f l)).
Proof.
  revert acc. induction l as [|x l IH]; intros acc; simpl.
  - now rewrite app_nil_r.
  - now rewrite IH, app_assoc.
Qed.

Lemma collect_issues_concat
    (search_language search_technology : string -> list string -> Z -> list GitHubIssue)
    (user_skills : UserSkills) (issue_types : list string) (max_results : Z) :
  collect_issues search_language search_technology user_skills issue_types max_results
  = app (concat (map (fun language =>
                        search_language language issue_types
                          (max_results
                           / Z.of_nat (length (take 5 (languages user_skills))))%Z)
                     (take 5 (languages user_skills))))
        (concat (map (fun tech =>
                        search_technology tech issue_types
                          (max_results
                           / Z.max (Z.of_nat (length (take 3 (technologies user_skills)))) 1)%Z)
                     (take 3 (technologies user_skills)))).
Proof.
  unfold collect_issues. now rewrite !fold_left_app_concat.
Qed.

(** X10. What [find_matching_issues] returns, whatever the searches
    deliver: only the first five languages and the first three
    technologies of the profile are searched, each with its share of
    [max_results]; the returned issues have pairwise different ids, are in
    non-increasing score order, and each is the scored form of the first
    issue with its id among those collected; for a non-negative
    [max_results] there are at most that many; a profile without languages
    and technologies gets the empty list. *)
Theorem find_matching_issues_result (age_in_days : string -> option Z)
    (search_language search_technology : string -> list string -> Z -> list GitHubIssue)
    (user_skills : UserSkills) (issue_types : list string) (max_results : Z) :
  let collected :=
    collect_issues search_language search_technology user_skills issue_types
      max_results in
  let found :=
    find_matching_issues age_in_days search_language search_technology user_skills
      issue_types max_results in
  collected
  = app (concat (map (fun language =>
                        search_language language issue_types
                          (max_results
                           / Z.of_nat (length (take 5 (languages user_skills))))%Z)
                     (take 5 (languages user_skills))))
        (concat (map (fun tech =>
                        search_technology tech issue_types
                          (max_results
                           / Z.max (Z.of_nat (length (take 3 (technologies user_skills)))) 1)%Z)
                     (take 3 (technologies user_skills))))
  /\ List.NoDup (map id found)
  /\ StronglySorted score_ge found
  /\ (forall x, In x found ->
        exists raw, first_with_id (id x) collected = Some raw
                    /\ x = score_issue age_in_days user_skills raw)
  /\ ((0 <= max_results)%Z -> (Z.of_nat (length found) <= max_results)%Z)
  /\ (languages user_skills = [] -> technologies user_skills = [] -> found = []).
Proof.
  intros collected found.
  split; [apply collect_issues_concat |].
  subst found. unfold find_matching_issues, rank_issues. fold collected.
  set (scored := scored_values age_in_days (_remove_duplicates collected) user_skills).
  destruct (slice_to_take (sort_by_score_desc scored) max_results) as [k [-> Hk]].
  assert (Hids : map id scored = map id (_remove_duplicates collected)).
  { unfold scored, scored_values. rewrite map_map. reflexivity. }
  assert (Hnd : List.NoDup (map id (sort_by_score_desc scored))).
  { eapply Permutation_NoDup;
      [apply Permutation_map; symmetry; apply sort_by_score_desc_perm |].
    rewrite Hids. unfold _remove_duplicates. rewrite remove_duplicates_loop_keep.
    apply keep_unseen_NoDup. }
  split; [| split; [| split; [| split]]].
  - rewrite <- (take_drop k (sort_by_score_desc scored)), map_app in Hnd.
    now apply NoDup_app_remove_r in Hnd.
  - pose proof (sort_by_score_desc_sorted scored) as Hs.
    rewrite <- (take_drop k (sort_by_score_desc scored)) in Hs.
    now apply StronglySorted_app in Hs as [_ [Hs _]].
  - intros x Hx. apply list_elem_of_In, subseteq_take in Hx.
    rewrite sort_by_score_desc_perm in Hx. apply list_elem_of_In in Hx.
    unfold scored, scored_values in Hx. apply in_map_iff in Hx as [raw [<- Hraw]].
    exists raw. split; [| reflexivity].
    unfold _remove_duplicates in Hraw. rewrite remove_duplicates_loop_keep in Hraw.
    simpl in Hraw. now apply keep_unseen_first in Hraw.
  - intros Hn. rewrite (Hk Hn), length_take. lia.
  - intros Hl Ht. unfold scored, collected, collect_issues. rewrite Hl, Ht. simpl.
    apply take_nil.
Qed.

Lemma find_matching_issues_result_witness :
  (0 <= 1)%Z
  /\ (Z.of_nat (length (find_matching_issues (fun _ => None)
        (fun _ _ _ => [example_issue 1 "a" "" [] "beginner" 0;
                       example_issue 2 "b" "" [] "beginner" 0])
        (fun _ _ _ => [])
        {| languages := ["go"]; technologies := [];
           experience_level := "beginner"; github_stats := None |}
        ["bug"] 1)) <= 1)%Z.
Proof.
  assert (H : (0 <= 1)%Z) by lia.
  split; [exact H |].
  exact (proj1 (proj2 (proj2 (proj2 (proj2
           (find_matching_issues_result _ _ _ _ _ 1))))) H).
Defined.

(** ** The profile aggregator *)

Lemma fold_add_map_spec {A} (keep : A -> bool) (g : A -> string) (l : list A)
    (acc : gset string) (x : string) :
  x ∈ fold_left (fun (acc : gset string) a =>
         if keep a then {[g a]} ∪ acc else acc) l acc
  <-> x ∈ acc \/ exists a, In a l /\ keep a = true /\ x = g a.
Proof.
  revert acc. induction l as [|a l IH]; intros acc; simpl.
  - split; [tauto | intros [? | [a [[] _]]]; assumption].
  - rewrite IH. destruct (keep a) eqn:E.
    + rewrite elem_of_union, elem_of_singleton. split.
      * intros [[-> | ?] | [a' [? ?]]]; eauto 6.
      * intros [? | [a' [[<- | ?] [? ?]]]]; eauto 6.
    + split; [intros [? | [a' [? ?]]]; eauto 6 |].
      intros [? | [a' [[<- | ?] [? ?]]]]; eauto 6. congruence.
Qed.

Lemma lower_empty (s : string) : lower s = "" <-> s = "".
Proof. destruct s; simpl; split; congruence. Qed.

(** X12. A tag is among the extracted languages exactly when it is the
    lower-cased form of a non-empty language name in the language
    breakdown of some repository whose breakdown could be fetched, and is
    neither "html" nor "css". Repositories whose breakdown cannot be
    fetched are skipped. *)
Theorem extract_languages_spec (repos : list Repo.t) (x : string) :
  (x ∈ _extract_languages repos
   <-> exists repo repo_languages lang,
         In repo repos /\ Repo.get_languages repo = Ok repo_languages
         /\ In lang repo_languages /\ lang <> "" /\ x = lower lang
         /\ x <> "html" /\ x <> "css")
  /\ ("html" ∉ _extract_languages repos)
  /\ ("css" ∉ _extract_languages repos)
  /\ ("" ∉ _extract_languages repos).
Proof.
  assert (Hin : forall (acc : gset string) y,
    y ∈ fold_left (fun (languages : gset string) repo =>
          match Repo.get_languages repo with
          | Ok repo_languages =>
              fold_left (fun (languages : gset string) lang =>
                if (negb (String.eqb lang "")
                    && negb (list_in (lower lang) ["html"; "css"]))%bool
                then {[lower lang]} ∪ languages else languages)
                repo_languages languages
          | Raise _ => languages
          end) repos acc
    <-> y ∈ acc \/ exists repo repo_languages lang,
          In repo repos /\ Repo.get_languages repo = Ok repo_languages
          /\ In lang repo_languages /\ lang <> "" /\ y = lower lang
          /\ y <> "html" /\ y <> "css").
  { induction repos as [|repo repos IH]; intros acc y; simpl.
    - split; [tauto | intros [? | (? & ? & ? & [] & _)]; assumption].
    - rewrite IH. destruct (Repo.get_languages repo) as [ls | e] eqn:E.
      + rewrite (fold_add_map_spec
                   (fun lang => (negb (String.eqb lang "")
                      && negb (list_in (lower lang) ["html"; "css"]))%bool) lower).
        assert (Hk : forall lang,
          (negb (String.eqb lang "")
           && negb (list_in (lower lang) ["html"; "css"]))%bool = true
          <-> lang <> "" /\ lower lang <> "html" /\ lower lang <> "css").
        { intros lang. rewrite andb_true_iff, !negb_true_iff.
          rewrite String.eqb_neq. 
          destruct (list_in (lower lang) ["html"; "css"]) eqn:El.
          - apply list_in_spec in El. simpl in El. intuition congruence.
          - assert (~ In (lower lang) ["html"; "css"])
              by (rewrite <- list_in_spec; congruence).
            simpl in *. intuition congruence. }
        split.
        * intros [[? | (lang & Hl & Hkeep & ->)] | (r & ls' & lang & ? & ?)].
          -- tauto.
          -- apply Hk in Hkeep. right. exists repo, ls, lang. tauto.
          -- right. exists r, ls', lang. tauto.
        * intros [? | (r & ls' & lang & [<- | Hr] & Hg & Hl & Hne & -> & H1 & H2)].
          -- tauto.
          -- left. right. exists lang. rewrite E in Hg. injection Hg as <-.
             split; [exact Hl |]. split; [apply Hk; tauto | reflexivity].
          -- right. exists r, ls', lang. tauto.
      + split.
        * intros [? | (r & ls' & lang & ? & ?)]; [tauto |].
          right. exists r, ls', lang. tauto.
        * intros [? | (r & ls' & lang & [<- | Hr] & Hg & ?)]; [tauto | congruence |].
          right. exists r, ls', lang. tauto. }
  unfold _extract_languages. split; [| split; [| split]].
  - rewrite Hin. split; [intros [H | H]; [set_solver | exact H] | tauto].
  - rewrite Hin. intros [H | (? & ? & ? & ? & ? & ? & ? & ? & ? & ?)];
      [set_solver | congruence].
  - rewrite Hin. intros [H | (? & ? & ? & ? & ? & ? & ? & ? & ? & ?)];
      [set_solver | congruence].
  - rewrite Hin. intros [H | (? & ? & lang & ? & ? & ? & Hne & He & ? & ?)];
      [set_solver |]. symmetry in He. apply (proj1 (lower_empty lang)) in He. congruence.
Qed.

Lemma extract_from_text_empty (self : SkillExtractor) :
  extract_from_text self "" = ∅.
Proof. reflexivity. Qed.

(** X13. A tag is among the extracted technologies exactly when, for
    some repository, the classifier finds it in the repository's name or
    in its description, or it is the lower-cased form of one of its topics
    that is a known technology or language. A repository whose topics
    cannot be fetched still contributes the tags of its name and
    description. *)
Theorem extract_technologies_spec (skill_extractor : SkillExtractor)
    (repos : list Repo.t) (x : string) :
  x ∈ _extract_technologies skill_extractor repos
  <-> exists repo, In repo repos
        /\ (x ∈ extract_from_text skill_extractor (or_empty (Repo.name repo))
            \/ x ∈ extract_from_text skill_extractor
                     (or_empty (Repo.description repo))
            \/ exists topics topic,
                 Repo.get_topics repo = Ok topics /\ In topic topics
                 /\ is_technology skill_extractor topic = true
                 /\ x = lower topic).
Proof.
  unfold _extract_technologies.
  assert (Hin : forall (acc : gset string),
    x ∈ fold_left (fun (technologies : gset string) repo =>
          let repo_techs :=
            extract_from_text skill_extractor (or_empty (Repo.name repo)) in
          let technologies := technologies ∪ repo_techs in
          let technologies :=
            if String.eqb (or_empty (Repo.description repo)) "" then technologies
            else technologies
                 ∪ extract_from_text skill_extractor
                     (or_empty (Repo.description repo)) in
          match Repo.get_topics repo with
          | Ok topics =>
              fold_left (fun (technologies : gset string) topic =>
                if is_technology skill_extractor topic
                then {[lower topic]} ∪ technologies else technologies)
                topics technologies
          | Raise _ => technologies
          end) repos acc
    <-> x ∈ acc \/ exists repo, In repo repos
          /\ (x ∈ extract_from_text skill_extractor (or_empty (Repo.name repo))
              \/ x ∈ extract_from_text skill_extractor
                       (or_empty (Repo.description repo))
              \/ exists topics topic,
                   Repo.get_topics repo = Ok topics /\ In topic topics
                   /\ is_technology skill_extractor topic = true
                   /\ x = lower topic)).
  { induction repos as [|repo repos IH]; intros acc; simpl.
    - split; [tauto | intros [? | (? & [] & _)]; assumption].
    - rewrite IH. clear IH.
      set (n := extract_from_text skill_extractor (or_empty (Repo.name repo))).
      set (d := extract_from_text skill_extractor (or_empty (Repo.description repo))).
      assert (Hd : forall base : gset string,
        x ∈ (if String.eqb (or_empty (Repo.description repo)) "" then base
             else base ∪ d) <-> x ∈ base \/ x ∈ d).
      { intros base. destruct (String.eqb_spec (or_empty (Repo.description repo)) "")
          as [He | _]; [| set_solver].
        unfold d. rewrite He, extract_from_text_empty. set_solver. }
      destruct (Repo.get_topics repo) as [topics | e] eqn:E.
      + rewrite (fold_add_map_spec (is_technology skill_extractor) lower).
        rewrite Hd, elem_of_union. split.
        * intros [[[[? | ?] | ?] | (topic & ? & ? & ?)] | (r & ? & ?)].
          -- tauto.
          -- right. exists repo. tauto.
          -- right. exists repo. tauto.
          -- right. exists repo. split; [tauto |]. right. right.
             exists topics, topic. tauto.
          -- right. exists r. tauto.
        * intros [? | (r & [<- | Hr] & [? | [? | (ts & topic & Hg & ? & ? & ?)]])].
          -- tauto.
          -- tauto.
          -- tauto.
          -- left. right. rewrite E in Hg. injection Hg as <-.
             exists topic. tauto.
          -- right. exists r. tauto.
          -- right. exists r. tauto.
          -- right. exists r. split; [exact Hr |]. right. right.
             exists ts, topic. tauto.
      + rewrite Hd, elem_of_union. split.
        * intros [[[? | ?] | ?] | (r & ? & ?)].
          -- tauto.
          -- right. exists repo. tauto.
          -- right. exists repo. tauto.
          -- right. exists r. tauto.
        * intros [? | (r & [<- | Hr] & [? | [? | (ts & topic & Hg & ?)]])].
          -- tauto.
          -- tauto.
          -- tauto.
          -- congruence.
          -- right. exists r. tauto.
          -- right. exists r. tauto.
          -- right. exists r. split; [exact Hr |]. right. right.
             exists ts, topic. tauto. }
  rewrite Hin. split; [intros [H | H]; [set_solver | exact H] | tauto].
Qed.

Lemma bio_fold_spec (se : SkillExtractor) (l : list string)
    (acc : gset string * gset string) (x : string) :
  let r := fold_left (fun (acc : gset string * gset string) tech =>
             if is_programming_language se tech
             then ({[tech]} ∪ fst acc, snd acc)
             else (fst acc, {[tech]} ∪ snd acc)) l acc in
  (x ∈ fst r <-> x ∈ fst acc \/ (In x l /\ is_programming_language se x = true))
  /\ (x ∈ snd r <-> x ∈ snd acc \/ (In x l /\ is_programming_language se x = false)).
Proof.
  revert acc. induction l as [|t l IH]; intros acc; simpl; [tauto |].
  destruct (IH (if is_programming_language se t
                then ({[t]} ∪ fst acc, snd acc)
                else (fst acc, {[t]} ∪ snd acc))) as [H1 H2].
  rewrite H1, H2. clear H1 H2 IH.
  destruct (is_programming_language se t) eqn:E; simpl;
    rewrite elem_of_union, elem_of_singleton; split; split;
    intuition (subst; try congruence; auto).
Qed.

(** X14. The bio path splits the tags the classifier finds in the bio
    into two sets that share no tag and together are all of them: the tags
    that are programming languages, and the others. An empty bio gives two
    empty sets. *)
Theorem extract_skills_from_bio_partition (se : SkillExtractor) (bio : string) :
  let found := extract_from_text se bio in
  let bio_skills := _extract_skills_from_bio se bio in
  (forall x, x ∈ fst bio_skills
             <-> x ∈ found /\ is_programming_language se x = true)
  /\ (forall x, x ∈ snd bio_skills
                <-> x ∈ found /\ is_programming_language se x = false)
  /\ fst bio_skills ∪ snd bio_skills = found
  /\ fst bio_skills ## snd bio_skills.
Proof.
  intros found bio_skills.
  assert (H : forall x,
    (x ∈ fst bio_skills <-> x ∈ found /\ is_programming_language se x = true)
    /\ (x ∈ snd bio_skills <-> x ∈ found /\ is_programming_language se x = false)).
  { intros x. subst bio_skills found. unfold _extract_skills_from_bio.
    destruct (String.eqb_spec bio "") as [-> | Hne].
    - rewrite extract_from_text_empty. simpl. set_solver.
    - destruct (bio_fold_spec se (elements (extract_from_text se bio)) (∅, ∅) x)
        as [H1 H2].
      rewrite H1, H2. simpl. rewrite <- list_elem_of_In, elem_of_elements.
      set_solver. }
  split; [intros x; apply H |]. split; [intros x; apply H |]. split.
  - apply set_eq. intros x. rewrite elem_of_union.
    destruct (H x) as [-> ->].
    destruct (is_programming_language se x); intuition congruence.
  - intros x H1 H2. apply H in H1, H2. destruct H1, H2. congruence.
Qed.

(** ** The outcome of a profile analysis *)

(** X15. [analyze_user_skills] gives no profile when the user cannot be
    fetched, when the repositories cannot be listed, when there is no
    repository, or when one of the account figures (public repositories,
    followers, following, creation and update time) cannot be read, even
    though the experience estimate alone would fall back to intermediate.
    Otherwise it gives a profile built from the first 50 repositories: its
    experience level is the estimate, its languages are the repository
    languages and the languages of the bio, its technologies the
    repository technologies and the other tags of the bio, each listed
    once. *)
Theorem analyze_user_skills_outcome (se : SkillExtractor)
    (get_user : string -> result NamedUser.t) (username : string) :
  let outcome := analyze_user_skills se get_user username in
  (failed (get_user username) -> outcome = None)
  /\ forall user, get_user username = Ok user ->
       (failed (NamedUser.get_repos user) \/ NamedUser.get_repos user = Ok []
        -> outcome = None)
       /\ forall repos, NamedUser.get_repos user = Ok repos -> repos <> [] ->
            (failed (NamedUser.public_repos user) \/ failed (NamedUser.followers user)
             \/ failed (NamedUser.following user)
             \/ failed (NamedUser.updated_at user)
             \/ failed (NamedUser.created_at user) -> outcome = None)
            /\ (readable (NamedUser.public_repos user) ->
                readable (NamedUser.followers user) ->
                readable (NamedUser.following user) ->
                readable (NamedUser.updated_at user) ->
                readable (NamedUser.created_at user) ->
                exists profile,
                  outcome = Some profile
                  /\ experience_level profile
                     = _estimate_experience_level user (take 50 repos)
                  /\ (forall x, In x (languages profile)
                        <-> x ∈ _extract_languages (take 50 repos)
                            \/ x ∈ fst (_extract_skills_from_bio se
                                          (or_empty (NamedUser.bio user))))
                  /\ (forall x, In x (technologies profile)
                        <-> x ∈ _extract_technologies se (take 50 repos)
                            \/ x ∈ snd (_extract_skills_from_bio se
                                          (or_empty (NamedUser.bio user))))
                  /\ List.NoDup (languages profile)
                  /\ List.NoDup (technologies profile)).
Proof.
  intros outcome. subst outcome.
  unfold analyze_user_skills, analyze_user_skills_try.
  split; [intros [e ->]; reflexivity |].
  intros user ->. unfold mbind, result_bind. cbv beta iota. split.
  - intros [[e ->] | ->]; reflexivity.
  - intros repos -> Hne.
    destruct (take 50 repos) as [|r rs] eqn:Et.
    { destruct repos; [congruence | discriminate]. }
    rewrite <- Et. clear Et. cbv zeta. split.
    + intros H.
      destruct (NamedUser.public_repos user); [| reflexivity].
      destruct (NamedUser.followers user); [| reflexivity].
      destruct (NamedUser.following user); [| reflexivity].
      destruct (NamedUser.updated_at user); [| reflexivity].
      destruct (NamedUser.created_at user); [| reflexivity].
      destruct H as [[? H] | [[? H] | [[? H] | [[? H] | [? H]]]]]; discriminate.
    + intros [p ->] [f ->] [g ->] [u ->] [c ->].
      eexists. split; [reflexivity |]. split; [reflexivity |].
      unfold combined_skills.
      cbn [languages technologies fst snd].
      split; [| split; [| split]].
      * intros x. rewrite <- list_elem_of_In, elem_of_elements, elem_of_union.
        reflexivity.
      * intros x. rewrite <- list_elem_of_In, elem_of_elements, elem_of_union.
        reflexivity.
      * apply NoDup_ListNoDup, NoDup_elements.
      * apply NoDup_ListNoDup, NoDup_elements.
Qed.

Lemma analyze_user_skills_outcome_witness :
  failed (Raise (A := NamedUser.t) (GithubException "Not Found"))
  /\ analyze_user_skills SkillExtractor_init
       (fun _ => Raise (GithubException "Not Found")) "ghost" = None.
Proof.
  assert (H : failed (Raise (A := NamedUser.t) (GithubException "Not Found")))
    by (eexists; reflexivity).
  split; [exact H |].
  exact (proj1 (analyze_user_skills_outcome SkillExtractor_init
                  (fun _ => Raise (GithubException "Not Found")) "ghost") H).
Defined.

(** ** The experience estimate as a function of its four figures *)

Lemma estimate_experience_points (user : NamedUser.t) (repos : list Repo.t)
    (u c total fol : Z) :
  NamedUser.updated_at user = Ok u -> NamedUser.created_at user = Ok c ->
  NamedUser.public_repos user = Ok total -> NamedUser.followers user = Ok fol ->
  Forall (fun repo => readable (Repo.updated_at repo)) (firstn 10 repos) ->
  _estimate_experience_level user repos
  = tier_of_total
      (age_points (years_of_days (timedelta_days u c)) + repo_points total
       + follower_points fol
       + activity_points
           (length (List.filter (recently_active u) (firstn 10 repos))))%Z.
Proof.
  intros Hu Hc Ht Hf Hr.
  unfold _estimate_experience_level, estimate_experience_try.
  rewrite Hu, Hc, Ht, Hf. unfold mbind, result_bind. cbv beta iota zeta.
  rewrite (active_repos_readable u _ Hr). cbv beta iota.
  unfold age_points, repo_points, follower_points, activity_points, tier_of_total.
  set (age := years_of_days (timedelta_days u c)).
  set (recent := length (List.filter (recently_active u) (take 10 repos))).
  clearbody age recent.
  destruct (Qle_bool 5 age); [| destruct (Qle_bool 2 age); [| destruct (Qle_bool 1 age)]];
    (destruct (50 <=? total)%Z;
       [| destruct (20 <=? total)%Z; [| destruct (5 <=? total)%Z]]);
    (destruct (100 <=? fol)%Z; [| destruct (20 <=? fol)%Z]);
    (destruct (5 <=? recent)%nat; [| destruct (2 <=? recent)%nat]);
    reflexivity.
Qed.

Lemma years_of_days_le (d d' : Z) :
  (d <= d')%Z -> years_of_days d <= years_of_days d'.
Proof.
  intros H. unfold years_of_days. apply Qmult_le_compat_r.
  - rewrite <- Zle_Qle. exact H.
  - vm_compute. discriminate.
Qed.

Lemma age_points_mono (a a' : Q) : a <= a' -> (age_points a <= age_points a')%Z.
Proof.
  intros H. unfold age_points.
  repeat match goal with
         | |- context [Qle_bool ?x ?y] =>
             let E := fresh "E" in
             destruct (Qle_bool x y) eqn:E;
             [apply Qle_bool_iff in E | apply Qle_bool_false in E]
         end; try lia; lra.
Qed.

Lemma tier_of_total_mono (s s' : Z) :
  (s <= s')%Z -> (tier_rank (tier_of_total s) <= tier_rank (tier_of_total s'))%nat.
Proof.
  intros H. unfold tier_of_total.
  repeat match goal with
         | |- context [(?x <=? ?y)%Z] => destruct (Z.leb_spec x y)
         end; vm_compute tier_rank; lia.
Qed.

(** X16. The experience estimate never falls when the account gets
    older, has more public repositories, more followers or more recently
    active repositories among its first ten: with all data readable for
    two accounts, the one with figures at least as large gets a tier at
    least as high. *)
Theorem estimate_experience_level_monotone
    (user user' : NamedUser.t) (repos repos' : list Repo.t)
    (u c total fol u' c' total' fol' : Z) :
  NamedUser.updated_at user = Ok u -> NamedUser.created_at user = Ok c ->
  NamedUser.public_repos user = Ok total -> NamedUser.followers user = Ok fol ->
  Forall (fun repo => readable (Repo.updated_at repo)) (firstn 10 repos) ->
  NamedUser.updated_at user' = Ok u' -> NamedUser.created_at user' = Ok c' ->
  NamedUser.public_repos user' = Ok total' -> NamedUser.followers user' = Ok fol' ->
  Forall (fun repo => readable (Repo.updated_at repo)) (firstn 10 repos') ->
  (timedelta_days u c <= timedelta_days u' c')%Z ->
  (total <= total')%Z -> (fol <= fol')%Z ->
  (length (List.filter (recently_active u) (firstn 10 repos))
   <= length (List.filter (recently_active u') (firstn 10 repos')))%nat ->
  (tier_rank (_estimate_experience_level user repos)
   <= tier_rank (_estimate_experience_level user' repos'))%nat.
Proof.
  intros Hu Hc Ht Hf Hr Hu' Hc' Ht' Hf' Hr' Hage Htot Hfol Hrec.
  rewrite (estimate_experience_points user repos u c total fol) by assumption.
  rewrite (estimate_experience_points user' repos' u' c' total' fol') by assumption.
  apply tier_of_total_mono.
  pose proof (age_points_mono _ _ (years_of_days_le _ _ Hage)).
  assert ((repo_points total <= repo_points total')%Z).
  { unfold repo_points.
    repeat match goal with
           | |- context [(?x <=? ?y)%Z] => destruct (Z.leb_spec x y)
           end; lia. }
  assert ((follower_points fol <= follower_points fol')%Z).
  { unfold follower_points.
    repeat match goal with
           | |- context [(?x <=? ?y)%Z] => destruct (Z.leb_spec x y)
           end; lia. }
  assert ((activity_points (length (List.filter (recently_active u) (firstn 10 repos)))
           <= activity_points
                (length (List.filter (recently_active u') (firstn 10 repos'))))%Z).
  { unfold activity_points.
    repeat match goal with
           | |- context [(?x <=? ?y)%nat] => destruct (Nat.leb_spec x y)
           end; lia. }
  lia.
Qed.

Lemma estimate_experience_level_monotone_witness :
  (tier_rank (_estimate_experience_level
                (example_user None 3 0 0 year_seconds []) [])
   <= tier_rank (_estimate_experience_level seasoned_user seasoned_user_repos))%nat.
Proof.
  apply (estimate_experience_level_monotone
           (example_user None 3 0 0 year_seconds []) seasoned_user
           [] seasoned_user_repos
           year_seconds 0 3 0 (6 * year_seconds + 86400 * 30) 0 25 150);
    try reflexivity.
  - constructor.
  - repeat constructor; eexists; reflexivity.
  - vm_compute. discriminate.
  - lia.
  - lia.
  - simpl. lia.
Defined.

(** X17. The account-age tests in whole days: with the divisor 365.25
    an account counts as five years old from 1827 days between creation
    and last update, as two years old from 731 days and as one year old
    from 366 days; 365 days are not yet a year. *)
Theorem account_age_thresholds_in_days (u c : Z) :
  let days := timedelta_days u c in
  (Qle_bool 5 (years_of_days days) = true <-> (1827 <= days)%Z)
  /\ (Qle_bool 2 (years_of_days days) = true <-> (731 <= days)%Z)
  /\ (Qle_bool 1 (years_of_days days) = true <-> (366 <= days)%Z)
  /\ ((u - c < 366 * 86400)%Z -> age_points (years_of_days days) = 0%Z).
Proof.
  intros days.
  assert (H : forall k : Z,
    Qle_bool (inject_Z k) (years_of_days days) = true
    <-> (k * 36525 <= days * 100)%Z).
  { intros k. rewrite Qle_bool_iff. unfold years_of_days, Qle, Qdiv, Qmult, Qinv.
    simpl. lia. }
  split; [| split; [| split]].
  - change 5 with (inject_Z 5). rewrite H. lia.
  - change 2 with (inject_Z 2). rewrite H. lia.
  - change 1 with (inject_Z 1). rewrite H. lia.
  - intros Hd. unfold age_points.
    assert (Hdays : (days < 366)%Z).
    { unfold days, timedelta_days. apply Z.div_lt_upper_bound; lia. }
    destruct (Qle_bool 5 (years_of_days days)) eqn:E5;
      [change 5 with (inject_Z 5) in E5; apply H in E5; lia |].
    destruct (Qle_bool 2 (years_of_days days)) eqn:E2;
      [change 2 with (inject_Z 2) in E2; apply H in E2; lia |].
    destruct (Qle_bool 1 (years_of_days days)) eqn:E1;
      [change 1 with (inject_Z 1) in E1; apply H in E1; lia |].
    reflexivity.
Qed.

Lemma account_age_thresholds_in_days_witness :
  (365 * 86400 - 0 < 366 * 86400)%Z
  /\ age_points (years_of_days (timedelta_days (365 * 86400) 0)) = 0%Z.
Proof.
  assert (H : (365 * 86400 - 0 < 366 * 86400)%Z) by lia.
  split; [exact H |].
  exact (proj2 (proj2 (proj2 (account_age_thresholds_in_days (365 * 86400) 0))) H).
Defined.

(** ** The tokens of the classifier *)

Lemma starts_with_word_char_app (w s : string) :
  w <> "" -> starts_with_word_char (w ++ s) = starts_with_word_char w.
Proof. destruct w; [congruence | reflexivity]. Qed.

Lemma append_nonempty (w s : string) : w <> "" -> w ++ s <> "".
Proof. destruct w; [congruence | discriminate]. Qed.

Lemma findall_words_go_tokens (cur : option string) (s : string) :
  reading_ok cur s -> Forall token_ok (findall_words_go cur s).
Proof.
  revert cur. induction s as [|c s IH]; intros cur Hcur.
  - destruct cur as [w|]; simpl; [| constructor].
    destruct Hcur as (H1 & H2 & H3 & [H4 | H4]); [| discriminate].
    repeat constructor; assumption.
  - destruct cur as [w|]; cbn [findall_words_go].
    + destruct Hcur as (H1 & H2 & H3 & H4).
      destruct (is_word_char c) eqn:Ew; cbn [orb].
      * apply IH. split; [now apply append_nonempty |].
        split; [now rewrite starts_with_word_char_app |].
        split; [rewrite string_forall_app, H3; unfold token_char; simpl;
                now rewrite Ew |].
        left. exists w, c. tauto.
      * destruct (is_joiner c && starts_with_word_char s)%bool eqn:Ej.
        -- apply andb_true_iff in Ej as [Ej Es]. apply IH.
           split; [now apply append_nonempty |].
           split; [now rewrite starts_with_word_char_app |].
           split; [rewrite string_forall_app, H3; unfold token_char; simpl;
                   now rewrite Ej, orb_true_r |].
           right. exact Es.
        -- constructor; [| apply IH; exact I].
           destruct H4 as [H4 | H4]; [| simpl in H4; congruence].
           repeat split; assumption.
    + destruct (is_word_char c) eqn:Ew; [| apply IH; exact I].
      apply IH. split; [discriminate |]. split; [exact Ew |].
      split; [unfold token_char; simpl; now rewrite Ew |].
      left. exists "", c. tauto.
Qed.

Lemma append_empty_r (s : string) : s ++ "" = s.
Proof. induction s; simpl; congruence. Qed.

Lemma occurs_in_cons (t : string) (c : ascii) (s : string) :
  occurs_in t s -> occurs_in t (String c s).
Proof. intros [p [q ->]]. exists (String c p), q. reflexivity. Qed.

Lemma findall_words_go_occur (cur : option string) (s t : string) :
  In t (findall_words_go cur s) -> occurs_in t (or_empty cur ++ s).
Proof.
  revert cur. induction s as [|c s IH]; intros cur.
  - destruct cur as [w|]; simpl; [| tauto].
    intros [<- | []]. exists "", "". simpl. reflexivity.
  - destruct cur as [w|]; cbn [findall_words_go or_empty].
    + destruct (is_word_char c || is_joiner c && starts_with_word_char s)%bool.
      * intros H. apply IH in H. cbn [or_empty] in H.
        now rewrite append_assoc in H.
      * intros [<- | H].
        -- exists "", (String c s). reflexivity.
        -- apply IH in H. simpl in H.
           pose proof (occurs_in_extend t w (String c s) ""
                         (occurs_in_cons t c s H)) as H'.
           now rewrite append_empty_r in H'.
    + destruct (is_word_char c).
      * intros H. apply IH in H. exact H.
      * intros H. apply IH in H. simpl in H. simpl. now apply occurs_in_cons.
Qed.

(** The shape of a token, for any text. *)
Lemma findall_words_token_ok (s t : string) :
  In t (findall_words s) -> token_ok t /\ occurs_in t s.
Proof.
  intros H. unfold findall_words in H.
  pose proof (findall_words_go_tokens None s I) as Hall.
  rewrite Forall_forall in Hall. apply list_elem_of_In in H as H'.
  split; [exact (Hall t H') |].
  apply findall_words_go_occur in H. exact H.
Qed.

(** X18. In a text of ASCII characters, every token the classifier reads
    is a non-empty piece of the text that starts and ends with a word
    character (a letter, a digit or the underscore) and consists of word
    characters, dots and hyphens only. *)
Theorem findall_words_tokens (s t : string) :
  isascii s = true ->
  In t (findall_words s) ->
  t <> "" /\ starts_with_word_char t = true /\ ends_with_word_char t
  /\ string_forall token_char t = true /\ occurs_in t s
  /\ isascii t = true.
Proof.
  intros Ha H. destruct (findall_words_token_ok s t H) as [(H1 & H2 & H3 & H4) Ho].
  pose proof (isascii_occurs t s Ho Ha). tauto.
Qed.

Lemma findall_words_tokens_witness :
  isascii "use next.js, please" = true
  /\ In "next.js" (findall_words "use next.js, please")
  /\ occurs_in "next.js" "use next.js, please".
Proof.
  assert (Ha : isascii "use next.js, please" = true) by reflexivity.
  assert (H : In "next.js" (findall_words "use next.js, please"))
    by (vm_compute; tauto).
  split; [exact Ha |]. split; [exact H |].
  exact (proj1 (proj2 (proj2 (proj2 (proj2 (findall_words_tokens _ _ Ha H)))))).
Defined.

(** ** What the classifier can return *)

Lemma text_variations_values (w x : string) :
  text_variations !! w = Some x ->
  In x [ "javascript"; "typescript"; "python"; "c++"; "c#"; "postgresql";
         "mongodb"; "kubernetes"; "tensorflow"; "machine-learning";
         "artificial-intelligence"; "natural-language-processing";
         "computer-vision" ].
Proof.
  unfold text_variations. intros H. apply elem_of_list_to_map_2 in H.
  apply list_elem_of_In in H. simpl in H.
  repeat (destruct H as [H | H]; [injection H as <- <-; simpl; tauto |]).
  destruct H.
Qed.

Lemma lower_nonempty (s : string) : String.eqb (lower s) "" = String.eqb s "".
Proof. destruct s; reflexivity. Qed.

(** X19. On a text of ASCII characters the classifier ignores the case
    of the text; every tag it returns is in the extractor's lexicons, is
    one of the twelve compound terms, or is the expansion of an
    abbreviation read as a token of the lower-cased text; and a tag with a
    character other than letters, digits, underscore, dot and hyphen, such
    as "c++", "c#" or "f#", is never read from the text as a word: it can
    only come from an abbreviation, so "f#" is never returned. *)
Theorem extract_from_text_vocabulary (self : SkillExtractor) (text x : string) :
  isascii text = true ->
  extract_from_text self (lower text) = extract_from_text self text
  /\ (x ∈ extract_from_text self text ->
      x ∈ all_technologies self \/ x ∈ programming_languages self
      \/ In x compound_terms
      \/ exists w, In w (findall_words (lower text))
                   /\ text_variations !! w = Some x)
  /\ (x ∈ extract_from_text self text -> string_forall token_char x = false ->
      exists w, In w (findall_words (lower text))
                /\ text_variations !! w = Some x)
  /\ ("f#" ∉ extract_from_text self text).
Proof.
  intros _.
  assert (Hsym : forall y, y ∈ extract_from_text self text ->
            string_forall token_char y = false ->
            exists w, In w (findall_words (lower text))
                      /\ text_variations !! w = Some y).
  { intros y Hy Hc. apply extract_from_text_spec in Hy.
    destruct Hy as [_ [[Hw _] | [[Ht _] | Hv]]]; [| | exact Hv].
    - apply findall_words_token_ok in Hw. destruct Hw as [(_ & _ & _ & Hw) _].
      congruence.
    - exfalso. simpl in Ht.
      repeat (destruct Ht as [<- | Ht]; [vm_compute in Hc; discriminate |]).
      destruct Ht. }
  split; [| split; [| split]].
  - unfold extract_from_text. now rewrite lower_nonempty, lower_idem.
  - intros Hx. apply extract_from_text_spec in Hx. tauto.
  - apply Hsym.
  - intros Hf. destruct (Hsym "f#" Hf eq_refl) as [w [_ Hw]].
    apply text_variations_values in Hw. simpl in Hw.
    repeat (destruct Hw as [Hw | Hw]; [discriminate |]). destruct Hw.
Qed.

Lemma extract_from_text_vocabulary_witness :
  isascii "cpp and C++" = true
  /\ "c++" ∈ extract_from_text SkillExtractor_init "cpp and C++"
  /\ exists w, In w (findall_words (lower "cpp and C++"))
               /\ text_variations !! w = Some "c++".
Proof.
  assert (Ha : isascii "cpp and C++" = true) by reflexivity.
  assert (H : "c++" ∈ extract_from_text SkillExtractor_init "cpp and C++").
  { apply extract_from_text_spec. split; [discriminate |].
    right. right. exists "cpp". split; [vm_compute; tauto | reflexivity]. }
  split; [exact Ha |]. split; [exact H |].
  exact (proj1 (proj2 (proj2 (extract_from_text_vocabulary SkillExtractor_init
                                "cpp and C++" "c++" Ha))) H eq_refl).
Defined.

(** ** Categorising skills *)

Lemma categorize_loop_spec (self : SkillExtractor) (skills ls fs ds cs ts : list string) :
  fold_left (fun categorized skill =>
    let skill_lower := lower skill in
    let '(Categorized.mk ls fs ds cs ts) := categorized in
    if bool_decide (skill_lower ∈ programming_languages self)
    then Categorized.mk (ls ++ [skill]) fs ds cs ts
    else if bool_decide (skill_lower ∈ frameworks_libraries self)
    then Categorized.mk ls (fs ++ [skill]) ds cs ts
    else if bool_decide (skill_lower ∈ databases self)
    then Categorized.mk ls fs (ds ++ [skill]) cs ts
    else if bool_decide (skill_lower ∈ cloud_platforms self)
    then Categorized.mk ls fs ds (cs ++ [skill]) ts
    else if bool_decide (skill_lower ∈ tools_technologies self)
    then Categorized.mk ls fs ds cs (ts ++ [skill])
    else categorized)
    skills (Categorized.mk ls fs ds cs ts)
  = Categorized.mk
      (ls ++ List.filter (skill_in (programming_languages self)) skills)
      (fs ++ List.filter (fun s => negb (skill_in (programming_languages self) s)
                                   && skill_in (frameworks_libraries self) s) skills)
      (ds ++ List.filter (fun s => negb (skill_in (programming_languages self) s)
                                   && negb (skill_in (frameworks_libraries self) s)
                                   && skill_in (databases self) s) skills)
      (cs ++ List.filter (fun s => negb (skill_in (programming_languages self) s)
                                   && negb (skill_in (frameworks_libraries self) s)
                                   && negb (skill_in (databases self) s)
                                   && skill_in (cloud_platforms self) s) skills)
      (ts ++ List.filter (fun s => negb (skill_in (programming_languages self) s)
                                   && negb (skill_in (frameworks_libraries self) s)
                                   && negb (skill_in (databases self) s)
                                   && negb (skill_in (cloud_platforms self) s)
                                   && skill_in (tools_technologies self) s) skills).
Proof.
  revert ls fs ds cs ts. induction skills as [|s skills IH]; intros ls fs ds cs ts.
  - simpl. now rewrite !app_nil_r.
  - cbn [fold_left].
    change (bool_decide (lower s ∈ programming_languages self))
      with (skill_in (programming_languages self) s).
    change (bool_decide (lower s ∈ frameworks_libraries self))
      with (skill_in (frameworks_libraries self) s).
    change (bool_decide (lower s ∈ databases self))
      with (skill_in (databases self) s).
    change (bool_decide (lower s ∈ cloud_platforms self))
      with (skill_in (cloud_platforms self) s).
    change (bool_decide (lower s ∈ tools_technologies self))
      with (skill_in (tools_technologies self) s).
    cbn [List.filter].
    destruct (skill_in (programming_languages self) s),
             (skill_in (frameworks_libraries self) s),
             (skill_in (databases self) s),
             (skill_in (cloud_platforms self) s),
             (skill_in (tools_technologies self) s);
      rewrite IH; cbn [negb andb]; rewrite <- ?app_assoc; reflexivity.
Qed.

(** X20. [categorize_skills] puts each skill, spelled as given, into the
    first of the categories languages, frameworks, databases, cloud, tools
    whose lexicon holds its lower-cased form, keeps the order of the input
    within each category, and drops a skill no lexicon knows; so no skill
    lands in two categories and the categories together hold at most as
    many entries as the input. *)
Theorem categorize_skills_spec (self : SkillExtractor) (skills : list string) :
  let L := skill_in (programming_languages self) in
  let F := skill_in (frameworks_libraries self) in
  let D := skill_in (databases self) in
  let C := skill_in (cloud_platforms self) in
  let T := skill_in (tools_technologies self) in
  let categorized := categorize_skills self skills in
  Categorized.languages categorized = List.filter L skills
  /\ Categorized.frameworks categorized
     = List.filter (fun s => negb (L s) && F s) skills
  /\ Categorized.databases categorized
     = List.filter (fun s => negb (L s) && negb (F s) && D s) skills
  /\ Categorized.cloud categorized
     = List.filter (fun s => negb (L s) && negb (F s) && negb (D s) && C s) skills
  /\ Categorized.tools categorized
     = List.filter (fun s => negb (L s) && negb (F s) && negb (D s) && negb (C s)
                             && T s) skills
  /\ (length (Categorized.languages categorized)
      + length (Categorized.frameworks categorized)
      + length (Categorized.databases categorized)
      + length (Categorized.cloud categorized)
      + length (Categorized.tools categorized)
      = length (List.filter (fun s => L s || F s || D s || C s || T s) skills))%nat
  /\ (length (List.filter (fun s => L s || F s || D s || C s || T s) skills)
      <= length skills)%nat.
Proof.
  intros L F D C T categorized. subst categorized.
  unfold categorize_skills. rewrite categorize_loop_spec. cbn.
  fold L F D C T.
  repeat (split; [reflexivity |]). split.
  - induction skills as [|s skills IH]; simpl; [reflexivity |].
    destruct (L s), (F s), (D s), (C s), (T s); simpl; lia.
  - apply filter_length_le.
Qed.

(** ** The configuration *)

Lemma estimate_experience_level_range (user : NamedUser.t) (repos : list Repo.t) :
  In (_estimate_experience_level user repos)
     ["beginner"; "intermediate"; "advanced"; "expert"].
Proof.
  unfold _estimate_experience_level, estimate_experience_try.
  unfold mbind, result_bind.
  destruct (NamedUser.updated_at user); [| simpl; tauto].
  destruct (NamedUser.created_at user); [| simpl; tauto].
  destruct (NamedUser.public_repos user); [| simpl; tauto].
  destruct (NamedUser.followers user); [| simpl; tauto].
  cbv zeta.
  destruct (active_repos _ _); [| simpl; tauto].
  repeat match goal with
         | |- context [if ?b then _ else _] => destruct b
         end; simpl; tauto.
Qed.

(** X21. The configuration's difficulty check accepts every experience
    level the estimator returns and every difficulty the classifier
    returns, and ignores case; its issue-type check accepts the four issue
    types the matcher searches by default and the two the handlers use. *)
Theorem config_accepts_what_the_code_produces
    (user : NamedUser.t) (repos : list Repo.t) (labels : list string)
    (body any : string) :
  Config.is_valid_difficulty (_estimate_experience_level user repos) = true
  /\ Config.is_valid_difficulty (_determine_difficulty labels body) = true
  /\ Config.is_valid_difficulty (lower any) = Config.is_valid_difficulty any
  /\ Config.is_valid_issue_type (lower any) = Config.is_valid_issue_type any
  /\ forallb Config.is_valid_issue_type
       ["good first issue"; "help wanted"; "bug"; "enhancement"] = true.
Proof.
  split; [| split; [| split; [| split]]].
  - pose proof (estimate_experience_level_range user repos) as H. simpl in H.
    destruct H as [<- | [<- | [<- | [<- | []]]]]; reflexivity.
  - pose proof (determine_difficulty_range labels body) as H. simpl in H.
    destruct H as [<- | [<- | [<- | []]]]; reflexivity.
  - unfold Config.is_valid_difficulty. now rewrite lower_idem.
  - unfold Config.is_valid_issue_type. now rewrite lower_idem.
  - reflexivity.
Qed.

(** X22. The lookup of popular repositories ignores the case of the
    skill and gives the empty list for a skill the table does not have;
    and the matcher's own table agrees with the configuration: for every
    language it has, its repositories are the first entries of the
    configuration's list for that language. *)
Theorem popular_repos_lookup (skill : string) :
  Config.get_popular_repos_for_skill (lower skill)
  = Config.get_popular_repos_for_skill skill
  /\ (Config.POPULAR_REPOSITORIES !! lower skill = None ->
      Config.get_popular_repos_for_skill skill = [])
  /\ (forall repos, popular_repos !! lower skill = Some repos ->
        repos `prefix_of` Config.get_popular_repos_for_skill skill).
Proof.
  split; [| split].
  - unfold Config.get_popular_repos_for_skill. now rewrite lower_idem.
  - unfold Config.get_popular_repos_for_skill. now intros ->.
  - intros repos H. unfold Config.get_popular_repos_for_skill.
    generalize dependent (lower skill). intros key H.
    unfold popular_repos in H. apply elem_of_list_to_map_2 in H.
    apply list_elem_of_In in H. simpl in H.
    repeat (destruct H as [H | H];
            [injection H as <- <-; vm_compute; eexists; reflexivity |]).
    destruct H.
Qed.

Lemma popular_repos_lookup_witness :
  popular_repos !! lower "Rust"
  = Some ["rust-lang/rust"; "actix/actix-web"; "tokio-rs/tokio"]
  /\ ["rust-lang/rust"; "actix/actix-web"; "tokio-rs/tokio"]
     `prefix_of` Config.get_popular_repos_for_skill "Rust".
Proof.
  assert (H : popular_repos !! lower "Rust"
              = Some ["rust-lang/rust"; "actix/actix-web"; "tokio-rs/tokio"])
    by reflexivity.
  split; [exact H |].
  exact (proj2 (proj2 (popular_repos_lookup "Rust")) _ H).
Defined.

(** ** What the routes answer *)

(** What the untyped call gives, case by case. *)
Lemma find_matching_issues_untyped_cases (age_in_days : string -> option Z)
    (search_language search_technology : string -> list string -> Z -> list GitHubIssue)
    (str_of_json : json -> string) (profile : UserSkills)
    (issue_types max_results : json) :
  let found :=
    find_matching_issues_untyped age_in_days search_language search_technology
      str_of_json profile issue_types max_results in
  let typed := find_matching_issues age_in_days search_language
                 search_technology profile in
  (forall types n,
      issue_types = JArray (map JString types) -> max_results = JInt n ->
      found = typed types n)
  /\ (forall n,
        issue_types = JNull -> max_results = JInt n ->
        found = typed ["good first issue"; "help wanted"; "bug"; "enhancement"] n)
  /\ (as_int max_results = None -> found = [])
  /\ (issue_types <> JNull -> iterate issue_types = None -> found = []).
Proof.
  intros found typed. subst found typed. unfold find_matching_issues_untyped.
  split; [| split; [| split]].
  - intros types n -> ->. cbn [as_int iterate]. rewrite map_map.
    cbn [format_value]. now rewrite map_id.
  - intros n -> ->. reflexivity.
  - intros ->. reflexivity.
  - intros Hn Hi. destruct (as_int max_results); [| reflexivity].
    destruct issue_types; try congruence; try reflexivity; discriminate.
Qed.

(** X23. [POST /match-issues-by-username], whatever JSON object the
    body is. It answers 400 when the username is missing or is a value
    Python counts as false (null, "", 0, false, an empty list or object).
    For a username that is a non-empty string it answers 404 when the
    analysis gives no profile (so also for a user without repositories),
    and otherwise 200 with the profile, the issues matched for it and
    their number. The issues are those of [find_matching_issues] for the
    body's [issue_types] and [max_results], unchecked: a missing key
    stands for "good first issue" and "help wanted", and for 20; an
    [issue_types] of null stands for the four default types of the
    matcher; a [max_results] that is not an integer (null, a string, a
    float), gives no issue at all. A handler outcome is always one of 400,
    404 and 200, never 500. *)
Theorem match_issues_by_username_status
    (age_in_days : string -> option Z)
    (search_language search_technology : string -> list string -> Z -> list GitHubIssue)
    (str_of_exn : exn -> string) (str_of_int : Z -> string)
    (str_of_json : json -> string)
    (se : SkillExtractor) (get_user : string -> result NamedUser.t)
    (analyze_other_login : json -> option UserSkills)
    (request : gmap string json) :
  let answer :=
    match_issues_by_username age_in_days search_language search_technology
      str_of_exn str_of_int str_of_json se get_user analyze_other_login request in
  let typed := find_matching_issues age_in_days search_language
                 search_technology in
  (truthy (default JNull (request !! "username")) = false ->
   http_status answer = 400%Z)
  /\ (forall name, request !! "username" = Some (JString name) -> name <> "" ->
        (analyze_user_skills se get_user name = None -> http_status answer = 404%Z)
        /\ (forall user, get_user name = Ok user ->
              NamedUser.get_repos user = Ok [] -> http_status answer = 404%Z)
        /\ (forall profile, analyze_user_skills se get_user name = Some profile ->
              exists response,
                answer = Ok response /\ http_status answer = 200%Z
                /\ success response = true
                /\ user_skills response = Some profile
                /\ total_found response = Z.of_nat (length (issues response))
                /\ issues response
                   = find_matching_issues_untyped age_in_days search_language
                       search_technology str_of_json profile
                       (default (JArray [JString "good first issue";
                                         JString "help wanted"])
                                (request !! "issue_types"))
                       (default (JInt 20) (request !! "max_results"))
                /\ (request !! "issue_types" = None ->
                    request !! "max_results" = None ->
                    issues response
                    = typed profile ["good first issue"; "help wanted"] 20%Z)
                /\ (forall types n,
                      request !! "issue_types" = Some (JArray (map JString types)) ->
                      request !! "max_results" = Some (JInt n) ->
                      issues response = typed profile types n)
                /\ (forall n,
                      request !! "issue_types" = Some JNull ->
                      request !! "max_results" = Some (JInt n) ->
                      issues response
                      = typed profile
                          ["good first issue"; "help wanted"; "bug"; "enhancement"]
                          n)
                /\ (forall v,
                      request !! "max_results" = Some v -> as_int v = None ->
                      issues response = [])))
  /\ (http_status answer = 400%Z \/ http_status answer = 404%Z
      \/ http_status answer = 200%Z).
Proof.
  intros answer typed. subst answer typed. unfold match_issues_by_username.
  set (username := default JNull (request !! "username")).
  split; [| split].
  - intros ->. reflexivity.
  - intros name Hname Hne.
    assert (Hu : username = JString name) by (subst username; now rewrite Hname).
    rewrite Hu. clearbody username. clear Hu.
    assert (Ht : truthy (JString name) = true)
      by (destruct name; [congruence | reflexivity]).
    rewrite Ht. cbn [negb].
    assert (Hzero : forall user, get_user name = Ok user ->
              NamedUser.get_repos user = Ok [] ->
              analyze_user_skills se get_user name = None).
    { intros user Hg Hr. unfold analyze_user_skills, analyze_user_skills_try.
      rewrite Hg. unfold mbind, result_bind. now rewrite Hr. }
    split; [| split].
    + intros ->. reflexivity.
    + intros user Hg Hr. now rewrite (Hzero user Hg Hr).
    + intros profile ->. eexists. split; [reflexivity |].
      split; [reflexivity |].
      cbn [success user_skills issues total_found].
      split; [reflexivity |]. split; [reflexivity |]. split; [reflexivity |].
      split; [reflexivity |].
      split; [intros -> ->; reflexivity |].
      split; [intros types n -> ->; cbn [default];
              apply (find_matching_issues_untyped_cases age_in_days
                       search_language search_technology str_of_json profile);
              reflexivity |].
      split; [intros n -> ->; reflexivity |].
      intros v -> Hv. change (default (JInt 20) (Some v)) with v.
      unfold find_matching_issues_untyped. rewrite Hv. reflexivity.
  - destruct (truthy username); cbn [negb]; [| left; reflexivity].
    destruct (match username with
              | JString name => analyze_user_skills se get_user name
              | _ => analyze_other_login username
              end); [right; right | right; left]; reflexivity.
Qed.

(** The body [{}] is answered with 400. *)
Lemma match_issues_by_username_status_witness :
  truthy (default JNull (no_username_request !! "username")) = false
  /\ http_status
       (match_issues_by_username (fun _ => None) (fun _ _ _ => []) (fun _ _ _ => [])
          (fun _ => "") (fun _ => "") (fun _ => "") SkillExtractor_init
          (fun _ => Raise (GithubException "Not Found")) (fun _ => None)
          no_username_request)
     = 400%Z.
Proof.
  assert (H : truthy (default JNull (no_username_request !! "username")) = false)
    by reflexivity.
  split; [exact H |].
  exact (proj1 (match_issues_by_username_status (fun _ => None) (fun _ _ _ => [])
                  (fun _ _ _ => []) (fun _ => "") (fun _ => "") (fun _ => "")
                  SkillExtractor_init
                  (fun _ => Raise (GithubException "Not Found")) (fun _ => None)
                  no_username_request) H).
Defined.

(** X24. [POST /match-issues-by-skills] with a non-empty skills list
    answers 200: the skills are taken as languages of a profile without
    technologies, so only language searches are made, over the first five
    skills; the experience level defaults to "intermediate", the issue
    types to "good first issue" and "help wanted", and a [max_results] of
    0 or none counts as 20. The response carries the matched issues and
    their number. No request is answered with 400. *)
Theorem match_issues_by_skills_nonempty
    (age_in_days : string -> option Z)
    (search_language search_technology : string -> list string -> Z -> list GitHubIssue)
    (str_of_exn : exn -> string) (str_of_int : Z -> string)
    (request : SkillMatchRequest) :
  let answer :=
    match_issues_by_skills age_in_days search_language search_technology
      str_of_exn str_of_int request in
  let profile :=
    {| languages := skills request; technologies := [];
       experience_level :=
         match req_experience_level request with
         | None | Some "" => "intermediate"
         | Some level => level
         end;
       github_stats := None |} in
  let issue_types :=
    match req_issue_types request with
    | None | Some [] => ["good first issue"; "help wanted"]
    | Some types => types
    end in
  let max_results :=
    match req_max_results request with
    | None | Some 0%Z => 20%Z
    | Some n => n
    end in
  http_status answer <> 400%Z
  /\ (skills request <> [] ->
      exists response,
        answer = Ok response /\ http_status answer = 200%Z
        /\ success response = true /\ user_skills response = None
        /\ issues response
           = find_matching_issues age_in_days search_language search_technology
               profile issue_types max_results
        /\ total_found response = Z.of_nat (length (issues response))
        /\ collect_issues search_language search_technology profile issue_types
             max_results
           = concat (map (fun language =>
                            search_language language issue_types
                              (max_results
                               / Z.of_nat (length (take 5 (skills request))))%Z)
                         (take 5 (skills request)))).
Proof.
  intros answer profile issue_types max_results.
  subst answer. unfold match_issues_by_skills.
  destruct (skills request) as [|s ss] eqn:Es.
  - split; [discriminate | congruence].
  - split; [discriminate |]. intros _.
    assert (Hm : (match req_max_results request with
                  | Some n => if (n =? 0)%Z then 20%Z else n
                  | None => 20%Z
                  end) = max_results).
    { subst max_results. destruct (req_max_results request) as [[| |]|]; reflexivity. }
    assert (Ht : (match req_issue_types request with
                  | Some (t :: ts) => t :: ts
                  | _ => ["good first issue"; "help wanted"]
                  end) = issue_types).
    { subst issue_types. destruct (req_issue_types request) as [[|]|]; reflexivity. }
    assert (He : (match req_experience_level request with
                  | Some (String c l) => String c l
                  | _ => "intermediate"
                  end) = experience_level profile).
    { subst profile. simpl. destruct (req_experience_level request) as [[|]|];
        reflexivity. }
    cbn [try_except]. rewrite Hm, Ht, He.
    eexists. split; [reflexivity |]. split; [reflexivity |].
    cbn [success user_skills issues total_found].
    split; [reflexivity |]. split; [reflexivity |].
    split; [subst profile; cbn [experience_level]; rewrite <- Es; reflexivity |].
    split; [reflexivity |].
    rewrite collect_issues_concat. subst profile. cbn [languages technologies].
    rewrite <- Es. simpl. now rewrite app_nil_r.
Qed.

Lemma match_issues_by_skills_nonempty_witness :
  skills {| skills := ["python"]; req_experience_level := None;
            req_issue_types := None; req_max_results := Some 0%Z |} <> []
  /\ http_status
       (match_issues_by_skills (fun _ => None) (fun _ _ _ => []) (fun _ _ _ => [])
          (fun _ => "") (fun _ => "")
          {| skills := ["python"]; req_experience_level := None;
             req_issue_types := None; req_max_results := Some 0%Z |}) = 200%Z.
Proof.
  set (request := {| skills := ["python"]; req_experience_level := None;
                     req_issue_types := None; req_max_results := Some 0%Z |}).
  assert (H : skills request <> []) by discriminate.
  split; [exact H |].
  destruct (proj2 (match_issues_by_skills_nonempty (fun _ => None)
                     (fun _ _ _ => []) (fun _ _ _ => []) (fun _ => "")
                     (fun _ => "") request) H) as [response [_ [Hs _]]].
  exact Hs.
Defined.

(** X25. [GET /analyze-user/{username}] answers 404 exactly when the
    analysis gives no profile and otherwise 200 with that profile and the
    username it was asked for; it never answers 400 or 500. *)
Theorem analyze_user_skills_route_status (se : SkillExtractor)
    (get_user : string -> result NamedUser.t) (str_of_exn : exn -> string)
    (name : string) :
  let answer := analyze_user_skills_route se get_user str_of_exn name in
  (http_status answer = 404%Z <-> analyze_user_skills se get_user name = None)
  /\ (forall profile,
        analyze_user_skills se get_user name = Some profile <->
        exists response, answer = Ok response /\ analyze_skills response = profile
                         /\ analyze_username response = name
                         /\ analyze_success response = true)
  /\ (http_status answer = 200%Z \/ http_status answer = 404%Z).
Proof.
  intros answer. subst answer. unfold analyze_user_skills_route.
  destruct (analyze_user_skills se get_user name) as [p|]; simpl.
  - split; [split; discriminate |]. split; [| tauto].
    intros profile. split.
    + intros H. injection H as <-. eexists. repeat split.
    + intros [response [H [<- _]]]. injection H as <-. reflexivity.
  - split; [tauto |]. split; [| tauto].
    intros profile. split; [discriminate | intros [response [H _]]; discriminate].
Qed.

(** ** The length of a ranking *)

(** X26. How many issues a ranking has: for a non-negative
    [max_results] the smaller of [max_results] and the number of scored
    issues; for a negative one all but the last [-max_results], none if
    there are not that many. *)
Theorem rank_issues_length (scored_issues : list GitHubIssue) (max_results : Z) :
  Z.of_nat (length (rank_issues scored_issues max_results))
  = (if (0 <=? max_results)%Z
     then Z.min max_results (Z.of_nat (length scored_issues))
     else Z.max 0 (Z.of_nat (length scored_issues) + max_results))%Z.
Proof.
  unfold rank_issues, slice_to.
  assert (Hl : length (sort_by_score_desc scored_issues) = length scored_issues)
    by (apply Permutation_length, sort_by_score_desc_perm).
  destruct (Z.leb_spec 0 max_results); rewrite length_take, Hl; lia.
Qed.

(** ** The matching pass on the platform *)





(** ** Classifying joined texts *)

Lemma findall_words_go_joined (cur : option string) (a b : string) :
  findall_words_go cur (a ++ String space b)
  = app (findall_words_go cur a) (findall_words_go None b).
Proof.
  revert cur. induction a as [|c a IH]; intros cur.
  - destruct cur; reflexivity.
  - cbn [String.append findall_words_go].
    assert (Hs : starts_with_word_char (a ++ String space b)
                 = starts_with_word_char a) by (destruct a; reflexivity).
    rewrite Hs. destruct cur as [w|].
    + destruct (is_word_char c || is_joiner c && starts_with_word_char a)%bool;
        rewrite IH; reflexivity.
    + destruct (is_word_char c); rewrite IH; reflexivity.
Qed.

Lemma spaceless_prefix (t post x y : string) :
  spaceless t = true -> t ++ post = x ++ String space y ->
  exists rest, x = t ++ rest.
Proof.
  revert x. induction t as [|c t IH]; intros x Ht H.
  - exists x. reflexivity.
  - simpl in Ht. apply andb_true_iff in Ht as [Hc Ht].
    destruct x as [|d x]; simpl in H.
    + injection H as E _. subst c. vm_compute in Hc. discriminate Hc.
    + injection H as E H. subst d. destruct (IH x Ht H) as [rest ->].
      exists rest. reflexivity.
Qed.

Lemma occurs_in_joined (t x y : string) :
  spaceless t = true -> t <> "" ->
  (occurs_in t (x ++ String space y) <-> occurs_in t x \/ occurs_in t y).
Proof.
  intros Ht Hne. split.
  - intros [pre [post H]]. revert pre H.
    induction x as [|c x IH]; intros pre H.
    + destruct pre as [|d pre]; simpl in H.
      * destruct t as [|d t]; [congruence |]. simpl in H, Ht.
        injection H as E _. subst d. vm_compute in Ht. discriminate Ht.
      * injection H as _ H. right. exists pre, post. exact H.
    + destruct pre as [|d pre].
      * simpl in H. symmetry in H.
        destruct (spaceless_prefix t post (String c x) y Ht H) as [rest Hr].
        left. exists "", rest. exact Hr.
      * simpl in H. injection H as _ H.
        destruct (IH pre H) as [Hx | Hy]; [| tauto].
        left. now apply occurs_in_cons.
  - intros [H | H].
    + pose proof (occurs_in_extend t "" x (String space y) H) as H'. exact H'.
    + destruct H as [p [q ->]]. exists (x ++ String space p), q.
      rewrite append_assoc. reflexivity.
Qed.

Lemma compound_terms_spaceless (t : string) :
  In t compound_terms -> spaceless t = true /\ t <> "".
Proof.
  simpl. intros H.
  repeat (destruct H as [<- | H]; [split; [reflexivity | discriminate] |]).
  destruct H.
Qed.

(** The tags of a text, this time without the test for the empty text. *)
Lemma extract_from_text_tags (self : SkillExtractor) (text x : string) :
  x ∈ extract_from_text self text
  <-> (In x (findall_words (lower text))
       /\ (x ∈ all_technologies self \/ x ∈ programming_languages self))
      \/ (In x compound_terms /\ occurs_in x (lower text))
      \/ exists w, In w (findall_words (lower text))
                   /\ text_variations !! w = Some x.
Proof.
  rewrite extract_from_text_spec. split; [tauto |].
  intros H. split; [| exact H]. intros ->. simpl in H.
  destruct H as [[[] _] | [[Ht [p [q Ho]]] | [w [[] _]]]].
  apply compound_terms_spaceless in Ht as [_ Ht].
  destruct p; [destruct x; [congruence | discriminate] | discriminate].
Qed.

(** X28. Classifying two texts of ASCII characters joined by a space
    gives the tags of the first together with the tags of the second: no
    tag is lost and none arises at the seam. *)
Theorem extract_from_text_of_joined (self : SkillExtractor) (a b : string) :
  isascii a = true -> isascii b = true ->
  extract_from_text self (a ++ " " ++ b)
  = extract_from_text self a ∪ extract_from_text self b.
Proof.
  intros _ _. apply set_eq. intros x.
  rewrite elem_of_union, !extract_from_text_tags.
  assert (Hl : lower (a ++ " " ++ b) = lower a ++ String space (lower b)).
  { rewrite !lower_app. reflexivity. }
  rewrite Hl. unfold findall_words. rewrite findall_words_go_joined.
  split.
  - intros [[Hw Hx] | [[Ht Ho] | [w [Hw Hv]]]].
    + apply in_app_or in Hw. tauto.
    + destruct (compound_terms_spaceless x Ht) as [H1 H2].
      apply (occurs_in_joined x _ _ H1 H2) in Ho. tauto.
    + apply in_app_or in Hw. destruct Hw; [left | right]; right; right; eauto.
  - intros [[[Hw Hx] | [[Ht Ho] | [w [Hw Hv]]]] | [[Hw Hx] | [[Ht Ho] | [w [Hw Hv]]]]].
    + left. split; [apply in_or_app; tauto | exact Hx].
    + right. left. split; [exact Ht |].
      destruct (compound_terms_spaceless x Ht) as [H1 H2].
      apply (occurs_in_joined x _ _ H1 H2). tauto.
    + right. right. exists w. split; [apply in_or_app; tauto | exact Hv].
    + left. split; [apply in_or_app; tauto | exact Hx].
    + right. left. split; [exact Ht |].
      destruct (compound_terms_spaceless x Ht) as [H1 H2].
      apply (occurs_in_joined x _ _ H1 H2). tauto.
    + right. right. exists w. split; [apply in_or_app; tauto | exact Hv].
Qed.

(** A repository's name and its description, classified apart and
    joined. *)
Lemma extract_from_text_of_joined_witness :
  isascii "flask-service" = true /\ isascii "Runs in Docker" = true
  /\ extract_from_text SkillExtractor_init "flask-service Runs in Docker"
     = extract_from_text SkillExtractor_init "flask-service"
       ∪ extract_from_text SkillExtractor_init "Runs in Docker".
Proof.
  assert (Ha : isascii "flask-service" = true) by reflexivity.
  assert (Hb : isascii "Runs in Docker" = true) by reflexivity.
  split; [exact Ha |]. split; [exact Hb |].
  exact (extract_from_text_of_joined SkillExtractor_init
           "flask-service" "Runs in Docker" Ha Hb).
Defined.

(** ** The two membership tests of the extractor *)

(** X29. For the extractor as [__init__] builds it: [is_technology]
    accepts a string exactly when [categorize_skills] would file it under
    one of its five categories; every programming language is accepted as
    a technology; both tests ignore case; and no string is at once a
    programming language and a member of the combined technology set. *)
Theorem is_technology_is_categorized (s : string) :
  let self := SkillExtractor_init in
  (is_technology self s = true
   <-> (skill_in (programming_languages self) s
        || skill_in (frameworks_libraries self) s
        || skill_in (databases self) s
        || skill_in (cloud_platforms self) s
        || skill_in (tools_technologies self) s)%bool = true)
  /\ (is_programming_language self s = true -> is_technology self s = true)
  /\ is_technology self (lower s) = is_technology self s
  /\ is_programming_language self (lower s) = is_programming_language self s
  /\ ~ (is_programming_language self s = true
        /\ lower s ∈ all_technologies self).
Proof.
  intros self. split; [| split; [| split; [| split]]].
  - unfold is_technology, skill_in.
    rewrite !orb_true_iff, !bool_decide_eq_true.
    change (all_technologies self)
      with (frameworks_libraries self ∪ databases self ∪ cloud_platforms self
            ∪ tools_technologies self).
    rewrite !elem_of_union. tauto.
  - unfold is_technology, is_programming_language. intros ->. apply orb_true_r.
  - unfold is_technology. now rewrite lower_idem.
  - unfold is_programming_language. now rewrite lower_idem.
  - unfold is_programming_language. rewrite bool_decide_eq_true. intros [H1 H2].
    assert (H : lower s ∈ programming_languages self ∩ all_technologies self)
      by (apply elem_of_intersection; tauto).
    unfold self in H. rewrite lexicon_partitions_disjoint in H.
    now apply not_elem_of_empty in H.
Qed.

Lemma is_technology_is_categorized_witness :
  is_programming_language SkillExtractor_init "Python" = true
  /\ is_technology SkillExtractor_init "Python" = true.
Proof.
  assert (H : is_programming_language SkillExtractor_init "Python" = true)
    by reflexivity.
  split; [exact H |].
  exact (proj1 (proj2 (is_technology_is_categorized "Python")) H).
Defined.
